(** * Grow plant monitor: analytics core and offline telemetry cache

    A shallow embedding of the C sources of the plant monitor
    (data_cache.c, ml_analysis.c, plant_analysis.c, water_analysis.c and
    the upload branch of main.c) together with the properties its
    specification states about them.

    Conventions of the embedding:
    - a C [int] / [int64_t] / [size_t] is a [Z]; every arithmetic result
      that occurs stays far inside the machine range, and [%] and [/] on
      non-negative operands are [Z.rem] and [Z.quot];
    - a C [float] is an IEEE 754 binary32 number, computed with the
      reference operations of [SpecFloat] at precision 24 / emax 128;
    - a fixed-size C array is a list whose length is the array size,
      read with [!!] and written with [<[ i := v ]>];
    - a [char] buffer is a list of characters, its C string the prefix in
      front of the first NUL;
    - a pointer argument is an [option] ([None] is the null pointer) that
      carries the pointee's contents;
    - module-level [static] state is an explicit record threaded through
      the functions; external capabilities (upload, key-value store,
      inference, uptime clock) are section variables or arguments. *)

From Stdlib Require Import ZArith Lia Bool String Ascii.
From Stdlib Require Import Floats.SpecFloat.
From stdpp Require Import base tactics option list.

Local Open Scope Z_scope.

(* ===================================================================== *)
(** * Part I: the model *)
(* ===================================================================== *)

(** ** errno values used by the sources *)

Definition ENOENT : Z := 2.
Definition EINVAL : Z := 22.

(** ** IEEE 754 binary32 *)

Module F32.

Definition prec : Z := 24.
Definition emax : Z := 128.

Definition float : Type := spec_float.

Definition zero : float := S754_zero false.
Definition add : float -> float -> float := SFadd prec emax.
Definition sub : float -> float -> float := SFsub prec emax.
Definition mul : float -> float -> float := SFmul prec emax.
Definition div : float -> float -> float := SFdiv prec emax.
Definition sqrtf : float -> float := SFsqrt prec emax.

(** C comparison operators; every comparison with a NaN is false. *)
Definition lt (x y : float) : bool := SFltb x y.
Definition gt (x y : float) : bool := SFltb y x.
Definition le (x y : float) : bool := SFleb x y.

(** Conversion of an integer to [float] (round to nearest even). *)
Definition of_Z (z : Z) : float := binary_normalize prec emax z 0 false.

(** The decimal literal [n/d] written with an [f] suffix: the nearest
    binary32 number, which is what the correctly rounded quotient of the
    two exactly representable integers gives. *)
Definition lit (n d : Z) : float := div (of_Z n) (of_Z d).

(** [(int64_t) x]: truncation toward zero.  Outside the [int64_t] range
    (and for NaN and infinities) C leaves the conversion undefined; the
    model returns the mathematical truncation, resp. 0. *)
Definition to_Z (x : float) : Z :=
  match x with
  | S754_finite s m e => cond_Zopp s (Z.shiftl (Zpos m) e)
  | _ => 0
  end.

Definition is_nan (x : float) : bool :=
  match x with S754_nan => true | _ => false end.

(** [fmin] of <math.h>: a NaN argument is treated as missing data. *)
Definition fmin (x y : float) : float :=
  if is_nan x then y else if is_nan y then x
  else if lt y x then y else x.

End F32.

Abbreviation float := F32.float.

(** ** Character buffers and C strings *)

Module CStr.

Definition NUL : ascii := Ascii.zero.

(** The C string held by a buffer: the characters before the first NUL. *)
Fixpoint cstr (buf : list ascii) : list ascii :=
  match buf with
  | [] => []
  | c :: rest => if Ascii.eqb c NUL then [] else c :: cstr rest
  end.

(** A string literal. *)
Definition lit (s : string) : list ascii := list_ascii_of_string s.

(** [strncpy(dst, src, n)]: exactly [n] characters are written, the
    characters of [src] followed by NUL padding.  [src] is the C string
    the source pointer designates. *)
Definition strncpy (dst src : list ascii) (n : nat) : list ascii :=
  take n (src ++ replicate n NUL) ++ drop n dst.

(** [snprintf(buf + off, size, "<text>")] for a format without
    conversions: at most [size - 1] characters of the text are written at
    offset [off], then a NUL; nothing at all when [size] is 0.  The value
    returned is the length of the text. *)
Definition snprintf (buf : list ascii) (off size : nat) (text : list ascii)
  : list ascii * Z :=
  match size with
  | O => (buf, Z.of_nat (length text))
  | S room =>
      let written := take room text in
      (take off buf ++ written ++ NUL :: drop (off + length written + 1) buf,
       Z.of_nat (length text))
  end.

End CStr.

(** ** data_cache.c *)

Module DataCache.

Definition MAX_CACHED_ENTRIES : Z := 48.

Record cached_sensor_reading := {
  soil_moisture : float;
  light_level : float;
  temperature : float;
  humidity : float;
  air_movement : float;
  timestamp : Z;
  health_status : Z;
  env_mismatch : list ascii;   (* char [32] *)
  plant_status : list ascii;   (* char [32] *)
  valid : bool
}.

(** What [memset(.., 0, ..)] leaves in one slot. *)
Definition zero_reading : cached_sensor_reading :=
  {| soil_moisture := F32.zero; light_level := F32.zero;
     temperature := F32.zero; humidity := F32.zero;
     air_movement := F32.zero; timestamp := 0; health_status := 0;
     env_mismatch := replicate 32 CStr.NUL;
     plant_status := replicate 32 CStr.NUL;
     valid := false |}.

(** The three file-scope variables of data_cache.c. *)
Record state := {
  cache : list cached_sensor_reading;   (* MAX_CACHED_ENTRIES slots *)
  cache_head : Z;
  cache_count : Z
}.

Definition data_cache_init : state * Z :=
  ({| cache := replicate (Z.to_nat MAX_CACHED_ENTRIES) zero_reading;
      cache_head := 0; cache_count := 0 |}, 0).

(** The arguments of [data_cache_add_reading]; the two strings are the C
    strings the pointers designate. *)
Record reading_args := {
  a_soil_moisture : float;
  a_light_level : float;
  a_temperature : float;
  a_humidity : float;
  a_air_movement : float;
  a_timestamp : Z;
  a_health_status : Z;
  a_env_mismatch : list ascii;
  a_plant_status : list ascii
}.

(** The slot contents written by [data_cache_add_reading] over the
    previous contents [old]. *)
Definition store_reading (old : cached_sensor_reading) (a : reading_args)
  : cached_sensor_reading :=
  {| soil_moisture := a_soil_moisture a;
     light_level := a_light_level a;
     temperature := a_temperature a;
     humidity := a_humidity a;
     air_movement := a_air_movement a;
     timestamp := a_timestamp a;
     health_status := a_health_status a;
     env_mismatch :=
       <[ 31%nat := CStr.NUL ]>
         (CStr.strncpy (env_mismatch old) (a_env_mismatch a) 31);
     plant_status :=
       <[ 31%nat := CStr.NUL ]>
         (CStr.strncpy (plant_status old) (a_plant_status a) 31);
     valid := true |}.

Definition data_cache_add_reading (st : state) (a : reading_args)
  : state * Z :=
  let h := Z.to_nat (cache_head st) in
  let slot := store_reading (default zero_reading (cache st !! h)) a in
  ({| cache := <[ h := slot ]> (cache st);
      cache_head := Z.rem (cache_head st + 1) MAX_CACHED_ENTRIES;
      cache_count :=
        if cache_count st <? MAX_CACHED_ENTRIES
        then cache_count st + 1 else cache_count st |}, 0).

Definition data_cache_count (st : state) : Z := cache_count st.

(** [reading_out] is the pointer argument with the pointee's contents. *)
Definition data_cache_get_reading (st : state) (index : Z)
    (reading_out : option cached_sensor_reading)
  : Z * option cached_sensor_reading :=
  match reading_out with
  | None => (- EINVAL, reading_out)
  | Some _ =>
      if (index <? 0) || (cache_count st <=? index)
      then (- EINVAL, reading_out)
      else
        let actual_index :=
          if cache_count st <? MAX_CACHED_ENTRIES then index
          else Z.rem (cache_head st + index) MAX_CACHED_ENTRIES in
        let slot :=
          default zero_reading (cache st !! Z.to_nat actual_index) in
        if negb (valid slot) then (- ENOENT, reading_out)
        else (0, Some slot)
  end.

Definition data_cache_clear (st : state) : state * Z :=
  ({| cache := replicate (Z.to_nat MAX_CACHED_ENTRIES) zero_reading;
      cache_head := 0; cache_count := 0 |}, 0).

End DataCache.

(** ** water_analysis.c *)

Module WaterAnalysis.

Definition WATER_ANALYSIS_HISTORY_DAYS : Z := 7.
Definition SAMPLES_PER_DAY : Z := 24.
Definition WATER_HISTORY_SIZE : Z :=
  WATER_ANALYSIS_HISTORY_DAYS * SAMPLES_PER_DAY.

(** The anonymous member [history]. *)
Record moisture_history := {
  moisture : list float;    (* WATER_HISTORY_SIZE slots *)
  timestamps : list Z;      (* WATER_HISTORY_SIZE slots *)
  index : Z;
  filled : bool
}.

Record water_consumption_pattern := {
  daily_consumption_rate : float;
  declining_consumption : bool;
  next_watering_timestamp : Z;
  prediction_confidence : float;
  history : moisture_history
}.

(** [memset(&water_pattern, 0, sizeof(water_pattern))]. *)
Definition water_analysis_init : water_consumption_pattern * Z :=
  ({| daily_consumption_rate := F32.zero;
      declining_consumption := false;
      next_watering_timestamp := 0;
      prediction_confidence := F32.zero;
      history :=
        {| moisture := replicate (Z.to_nat WATER_HISTORY_SIZE) F32.zero;
           timestamps := replicate (Z.to_nat WATER_HISTORY_SIZE) 0;
           index := 0; filled := false |} |}, 0).

Definition water_analysis_add_reading
    (water_pattern : water_consumption_pattern)
    (moisture' : float) (timestamp : Z) : water_consumption_pattern * Z :=
  let h := history water_pattern in
  let index' := Z.rem (index h + 1) WATER_HISTORY_SIZE in
  ({| daily_consumption_rate := daily_consumption_rate water_pattern;
      declining_consumption := declining_consumption water_pattern;
      next_watering_timestamp := next_watering_timestamp water_pattern;
      prediction_confidence := prediction_confidence water_pattern;
      history :=
        {| moisture := <[ Z.to_nat (index h) := moisture' ]> (moisture h);
           timestamps := <[ Z.to_nat (index h) := timestamp ]> (timestamps h);
           index := index';
           filled := if index' =? 0 then true else filled h |} |}, 0).

(** The two array reads. *)
Definition moisture_at (h : moisture_history) (idx : Z) : float :=
  default F32.zero (moisture h !! Z.to_nat idx).

Definition timestamp_at (h : moisture_history) (idx : Z) : Z :=
  default 0 (timestamps h !! Z.to_nat idx).

(** The index computations that open the body of each of the four loops:
    [current_idx] and [prev_idx] of iteration [i]. *)
Definition current_idx (start_idx i : Z) : Z :=
  Z.rem (start_idx - i + WATER_HISTORY_SIZE) WATER_HISTORY_SIZE.

Definition prev_idx (start_idx i : Z) : Z :=
  Z.rem (current_idx start_idx i - 1 + WATER_HISTORY_SIZE) WATER_HISTORY_SIZE.

(** [time_diff] and [moisture_diff] of iteration [i]. *)
Definition time_diff (h : moisture_history) (start_idx i : Z) : Z :=
  timestamp_at h (current_idx start_idx i)
  - timestamp_at h (prev_idx start_idx i).

Definition moisture_diff (h : moisture_history) (start_idx i : Z) : float :=
  F32.sub (moisture_at h (prev_idx start_idx i))
          (moisture_at h (current_idx start_idx i)).

(** The first loop, "Calculate average decline per hour", with [n]
    iterations left; the result is [(total_decline, count)]. *)
Fixpoint decline_loop (n : nat) (i : Z) (h : moisture_history)
    (start_idx : Z) (total_decline : float) (count : Z) : float * Z :=
  match n with
  | O => (total_decline, count)
  | S n' =>
      let td := time_diff h start_idx i in
      let md := moisture_diff h start_idx i in
      if (0 <? td) && (td <? 7200) && F32.gt md F32.zero then
        decline_loop n' (i + 1) h start_idx (F32.add total_decline md)
          (count + 1)
      else if F32.lt md (F32.of_Z (-5)) then (total_decline, count)
      else decline_loop n' (i + 1) h start_idx total_decline count
  end.

(** Each of the two loops "Calculate rates for each half", with [n]
    iterations left; [rate] is the sum accumulated so far. *)
Fixpoint half_rate_loop (n : nat) (i : Z) (h : moisture_history)
    (start_idx : Z) (rate : float) : float :=
  match n with
  | O => rate
  | S n' =>
      let md := moisture_diff h start_idx i in
      half_rate_loop n' (i + 1) h start_idx
        (if F32.gt md F32.zero then F32.add rate md else rate)
  end.

(** The loop that accumulates [variance_sum]. *)
Fixpoint variance_loop (n : nat) (i : Z) (h : moisture_history)
    (start_idx : Z) (hourly_decline_rate variance_sum : float) : float :=
  match n with
  | O => variance_sum
  | S n' =>
      let md := moisture_diff h start_idx i in
      variance_loop n' (i + 1) h start_idx hourly_decline_rate
        (if F32.gt md F32.zero then
           let deviation := F32.sub md hourly_decline_rate in
           F32.add variance_sum (F32.mul deviation deviation)
         else variance_sum)
  end.

(** "Determine if consumption rate is declining". *)
Definition declining (h : moisture_history) (start_idx count : Z) : bool :=
  if 48 <=? count then
    let halfway := Z.quot count 2 in
    let second_half_rate :=
      half_rate_loop (Z.to_nat halfway) 0 h start_idx F32.zero in
    let first_half_rate :=
      half_rate_loop (Z.to_nat (count - halfway)) halfway h start_idx
        F32.zero in
    let second_half_rate := F32.div second_half_rate (F32.of_Z halfway) in
    let first_half_rate :=
      F32.div first_half_rate (F32.of_Z (count - halfway)) in
    F32.lt second_half_rate first_half_rate
  else false.

(** "Calculate confidence based on data quantity and consistency". *)
Definition confidence (h : moisture_history) (start_idx count : Z)
    (hourly_decline_rate : float) : float :=
  let data_quantity_factor :=
    F32.fmin (F32.of_Z 1) (F32.div (F32.of_Z count) (F32.of_Z 72)) in
  let variance_sum :=
    variance_loop (Z.to_nat count) 0 h start_idx hourly_decline_rate
      F32.zero in
  let variance :=
    if 0 <? count then F32.div variance_sum (F32.of_Z count)
    else F32.zero in
  let stddev := F32.sqrtf variance in
  let consistency_factor :=
    if F32.gt hourly_decline_rate (F32.lit 1 1000) then
      F32.fmin (F32.of_Z 1)
        (F32.div (F32.of_Z 1)
           (F32.add (F32.of_Z 1)
              (F32.div (F32.mul (F32.of_Z 10) stddev) hourly_decline_rate)))
    else F32.zero in
  F32.mul (F32.mul data_quantity_factor consistency_factor) (F32.of_Z 100).

(** [water_analysis_predict_watering].  [water_pattern] is the module's
    static pattern, [uptime_ms] what [k_uptime_get()] returns during the
    call, [pattern_out] the pointer argument. *)
Definition water_analysis_predict_watering
    (water_pattern : water_consumption_pattern) (uptime_ms : Z)
    (pattern_out : option water_consumption_pattern)
    (current_moisture moisture_threshold : float)
  : Z * option water_consumption_pattern :=
  match pattern_out with
  | None => (- EINVAL, None)
  | Some _ =>
      let h := history water_pattern in
      if negb (filled h) && (index h <? 48) then
        (0, Some {| daily_consumption_rate :=
                      daily_consumption_rate water_pattern;
                    declining_consumption :=
                      declining_consumption water_pattern;
                    next_watering_timestamp := 0;
                    prediction_confidence := F32.zero;
                    history := h |})
      else
        let usable_samples :=
          if filled h then WATER_HISTORY_SIZE else index h in
        let start_idx :=
          Z.rem (index h + WATER_HISTORY_SIZE - 1) WATER_HISTORY_SIZE in
        let '(total_decline, count) :=
          decline_loop (Z.to_nat (usable_samples - 1)) 0 h start_idx
            F32.zero 0 in
        let hourly_decline_rate :=
          if 0 <? count then F32.div total_decline (F32.of_Z count)
          else F32.zero in
        let daily := F32.mul hourly_decline_rate (F32.of_Z 24) in
        let '(next, conf) :=
          if F32.gt daily (F32.lit 1 100) then
            let hours_until_threshold :=
              if F32.gt current_moisture moisture_threshold then
                F32.div (F32.sub current_moisture moisture_threshold)
                  hourly_decline_rate
              else F32.zero in
            if F32.gt hours_until_threshold F32.zero then
              (Z.quot uptime_ms 1000
               + F32.to_Z (F32.mul hours_until_threshold (F32.of_Z 3600)),
               confidence h start_idx count hourly_decline_rate)
            else (Z.quot uptime_ms 1000, F32.of_Z 100)
          else (0, F32.zero) in
        (0, Some {| daily_consumption_rate := daily;
                    declining_consumption := declining h start_idx count;
                    next_watering_timestamp := next;
                    prediction_confidence := conf;
                    history := h |})
  end.

End WaterAnalysis.

(** ** main.c: the upload / caching branches of [sensor_work_handler] *)

Module Main.
Import DataCache.

(** The thirteen arguments of one [firebase_send_sensor_data] call. *)
Record sensor_upload := {
  u_serial_number : list ascii;
  u_soil_moisture : float;
  u_light_level : float;
  u_temperature : float;
  u_humidity : float;
  u_air_movement : float;
  u_timestamp : Z;
  u_plant_name : list ascii;
  u_plant_variety : list ascii;
  u_health_status : Z;
  u_env_mismatch : list ascii;
  u_recommendation : list ascii;
  u_plant_status : list ascii
}.

(** What [storage_save_value] is asked to write by data_cache_save. *)
Inductive stored_value :=
  | CacheMeta (head count : Z)
  | CacheData (slots : list cached_sensor_reading).

Record device_info := {
  serial_number : list ascii;
  plant_name : list ascii;
  plant_variety : list ascii
}.

(** The live reading of the tick, with its analysis summary. *)
Record live_reading := {
  l_soil_moisture : float;
  l_light_level : float;
  l_temperature : float;
  l_humidity : float;
  l_air_movement : float;
  l_timestamp : Z;
  l_health_status : Z;
  l_mismatch_str : list ascii;
  l_recommendation : list ascii;
  l_plant_status : list ascii
}.

Section Handler.

(** The outside world: the cloud sink and the key-value store.  Both are
    capabilities of the host; each call returns the new world and the
    [int] result of the C function. *)
Context {world : Type}.
Variable firebase_send_sensor_data : world -> sensor_upload -> world * Z.
Variable storage_save_value : world -> list ascii -> stored_value -> world * Z.

Variable dev_info : device_info.

(** [snprintf(key, sizeof(key), "<prefix>%s", serial_number)], key[64]. *)
Definition storage_key (prefix : string) : list ascii :=
  take 63 (CStr.lit prefix ++ serial_number dev_info).

(** data_cache.c, [data_cache_save]. *)
Definition data_cache_save (st : state) (w : world) : world * Z :=
  let '(w1, ret) :=
    storage_save_value w (storage_key "cache/meta/")
      (CacheMeta (cache_head st) (cache_count st)) in
  if ret <? 0 then (w1, ret)
  else
    let '(w2, ret) :=
      storage_save_value w1 (storage_key "cache/data/")
        (CacheData (cache st)) in
    if ret <? 0 then (w2, ret) else (w2, 0).

(** The upload of one cached reading; the recommendation text sent with
    it is the one of the current analysis result. *)
Definition upload_of_cached (recommendation : list ascii)
    (c : cached_sensor_reading) : sensor_upload :=
  {| u_serial_number := serial_number dev_info;
     u_soil_moisture := soil_moisture c;
     u_light_level := light_level c;
     u_temperature := temperature c;
     u_humidity := humidity c;
     u_air_movement := air_movement c;
     u_timestamp := timestamp c;
     u_plant_name := plant_name dev_info;
     u_plant_variety := plant_variety dev_info;
     u_health_status := health_status c;
     u_env_mismatch := CStr.cstr (env_mismatch c);
     u_recommendation := recommendation;
     u_plant_status := CStr.cstr (plant_status c) |}.

Definition upload_of_live (l : live_reading) : sensor_upload :=
  {| u_serial_number := serial_number dev_info;
     u_soil_moisture := l_soil_moisture l;
     u_light_level := l_light_level l;
     u_temperature := l_temperature l;
     u_humidity := l_humidity l;
     u_air_movement := l_air_movement l;
     u_timestamp := l_timestamp l;
     u_plant_name := plant_name dev_info;
     u_plant_variety := plant_variety dev_info;
     u_health_status := l_health_status l;
     u_env_mismatch := l_mismatch_str l;
     u_recommendation := l_recommendation l;
     u_plant_status := l_plant_status l |}.

(** The [for (int i = 0; i < cache_count; i++)] loop of the handler, with
    [n] iterations left; the result is [all_sent] and the new world. *)
Fixpoint send_cached_loop (n : nat) (i : Z) (st : state)
    (recommendation : list ascii) (w : world) : bool * world :=
  match n with
  | O => (true, w)
  | S n' =>
      let '(ret, cached_reading) :=
        data_cache_get_reading st i (Some zero_reading) in
      if ret =? 0 then
        let '(w', ret) :=
          firebase_send_sensor_data w
            (upload_of_cached recommendation
               (default zero_reading cached_reading)) in
        if ret <? 0 then (false, w')
        else send_cached_loop n' (i + 1) st recommendation w'
      else send_cached_loop n' (i + 1) st recommendation w
  end.

(** "First, try to send any cached data". *)
Definition send_cached_data (st : state) (recommendation : list ascii)
    (w : world) : state * world :=
  let cache_count := data_cache_count st in
  if 0 <? cache_count then
    let '(all_sent, w1) :=
      send_cached_loop (Z.to_nat cache_count) 0 st recommendation w in
    if all_sent then
      let '(st', _) := data_cache_clear st in
      let '(w2, _) := data_cache_save st' w1 in
      (st', w2)
    else (st, w1)
  else (st, w).

(** The branch taken when [connectivity_is_connected()]: cached data,
    then the current data; the last component is the result of the
    upload of the current data.  The upload of the water forecast that
    follows in the source goes to the sink only and is left out. *)
Definition connected_branch (st : state) (l : live_reading) (w : world)
  : state * world * Z :=
  let '(st1, w1) := send_cached_data st (l_recommendation l) w in
  let '(w2, ret) := firebase_send_sensor_data w1 (upload_of_live l) in
  (st1, w2, ret).

(** The branch taken when the device is offline. *)
Definition offline_branch (st : state) (l : live_reading) (w : world)
  : state * world :=
  let '(st1, ret) :=
    data_cache_add_reading st
      {| a_soil_moisture := l_soil_moisture l;
         a_light_level := l_light_level l;
         a_temperature := l_temperature l;
         a_humidity := l_humidity l;
         a_air_movement := l_air_movement l;
         a_timestamp := l_timestamp l;
         a_health_status := l_health_status l;
         a_env_mismatch := l_mismatch_str l;
         a_plant_status := l_plant_status l |} in
  if ret <? 0 then (st1, w)
  else let '(w1, _) := data_cache_save st1 w in (st1, w1).

End Handler.

End Main.

(** ** ml_analysis.c *)

Module MlAnalysis.

Definition ML_HEALTH_HEALTHY : Z := 0.
Definition ML_HEALTH_STRESSED : Z := 1.
Definition ML_HEALTH_CRITICAL : Z := 2.

(** The eight range bounds of [struct habitat_data]; its other members
    (identification strings, validity flag, fetch time) are not read by
    the analysis. *)
Record habitat_data := {
  ideal_temperature_min : float;
  ideal_temperature_max : float;
  ideal_humidity_min : float;
  ideal_humidity_max : float;
  ideal_soil_moisture_min : float;
  ideal_soil_moisture_max : float;
  ideal_light_level_min : float;
  ideal_light_level_max : float
}.

(** One element of the [history] array. *)
Record channel_history := {
  values : list float;   (* 24 slots *)
  index : Z;
  filled : bool
}.

Record sensor_data_with_history := {
  soil_moisture : float;
  light_level : float;
  temperature : float;
  humidity : float;
  air_movement : float;
  timestamp : Z;
  history : list channel_history   (* 5 channels *)
}.

(** The anonymous member [environmental_mismatch]. *)
Record mismatch := {
  mismatch_temperature : bool;
  mismatch_humidity : bool;
  mismatch_soil_moisture : bool;
  mismatch_light_level : bool
}.

Record ml_analysis_result := {
  health_status : Z;
  confidence : float;
  environmental_mismatch : mismatch;
  recommendation : list ascii   (* char [256] *)
}.

Definition is_temp_mismatch (temp : float) (habitat : habitat_data) : bool :=
  F32.lt temp (ideal_temperature_min habitat)
  || F32.gt temp (ideal_temperature_max habitat).

Definition is_humidity_mismatch (humidity : float) (habitat : habitat_data)
  : bool :=
  F32.lt humidity (ideal_humidity_min habitat)
  || F32.gt humidity (ideal_humidity_max habitat).

Definition is_moisture_mismatch (moisture : float) (habitat : habitat_data)
  : bool :=
  F32.lt moisture (ideal_soil_moisture_min habitat)
  || F32.gt moisture (ideal_soil_moisture_max habitat).

Definition is_light_mismatch (light : float) (habitat : habitat_data) : bool :=
  F32.lt light (ideal_light_level_min habitat)
  || F32.gt light (ideal_light_level_max habitat).

Definition compute_temp_diff (temp : float) (habitat : habitat_data) : float :=
  let ideal_mid :=
    F32.div (F32.add (ideal_temperature_min habitat)
                     (ideal_temperature_max habitat)) (F32.of_Z 2) in
  F32.sub temp ideal_mid.

Definition compute_humidity_diff (humidity : float) (habitat : habitat_data)
  : float :=
  let ideal_mid :=
    F32.div (F32.add (ideal_humidity_min habitat)
                     (ideal_humidity_max habitat)) (F32.of_Z 2) in
  F32.sub humidity ideal_mid.

Definition compute_moisture_diff (moisture : float) (habitat : habitat_data)
  : float :=
  let ideal_mid :=
    F32.div (F32.add (ideal_soil_moisture_min habitat)
                     (ideal_soil_moisture_max habitat)) (F32.of_Z 2) in
  F32.sub moisture ideal_mid.

Definition compute_light_diff (light : float) (habitat : habitat_data)
  : float :=
  let ideal_mid :=
    F32.div (F32.add (ideal_light_level_min habitat)
                     (ideal_light_level_max habitat)) (F32.of_Z 2) in
  F32.sub light ideal_mid.

(** One guarded [written += snprintf(recommendation + written,
    rec_size - written, text)] of [generate_recommendations]. *)
Definition append_phrase (guard : bool) (text : string)
    (acc : list ascii * Z) : list ascii * Z :=
  if guard then
    let '(recommendation, written) := acc in
    let rec_size := 256 in
    let '(buf, n) :=
      CStr.snprintf recommendation (Z.to_nat written)
        (Z.to_nat (rec_size - written)) (CStr.lit text) in
    (buf, written + n)
  else acc.

Definition generate_recommendations (result : ml_analysis_result)
  : ml_analysis_result :=
  let flags := environmental_mismatch result in
  let start := (recommendation result, 0) in
  let '(buf, _) :=
    if health_status result =? ML_HEALTH_HEALTHY then
      append_phrase true "Plant is healthy. " start
    else
      append_phrase (mismatch_light_level flags) "Adjust light exposure. "
        (append_phrase (mismatch_soil_moisture flags)
           "Adjust watering schedule. "
           (append_phrase (mismatch_humidity flags) "Adjust humidity level. "
              (append_phrase (mismatch_temperature flags)
                 "Adjust temperature. " start))) in
  {| health_status := health_status result;
     confidence := confidence result;
     environmental_mismatch := flags;
     recommendation := buf |}.

(** The three statements that append one value to one channel. *)
Definition history_append (v : float) (h : channel_history)
  : channel_history :=
  let index' := Z.rem (index h + 1) 24 in
  {| values := <[ Z.to_nat (index h) := v ]> (values h);
     index := index';
     filled := if index' =? 0 then true else filled h |}.

(** [ml_add_sensor_reading].  [last_hourly_update] is the function's
    [static] variable, threaded through; [uptime_ms] is what
    [k_uptime_get()] returns at the call. *)
Definition ml_add_sensor_reading (last_hourly_update : Z) (uptime_ms : Z)
    (sensor_data : option sensor_data_with_history)
    (soil_moisture' light_level' temperature' humidity' air_movement' : float)
  : Z * option sensor_data_with_history * Z :=
  match sensor_data with
  | None => (last_hourly_update, None, - EINVAL)
  | Some sd =>
      let now := Z.quot uptime_ms 1000 in
      if (last_hourly_update =? 0) || (3600 <=? now - last_hourly_update)
      then
        (now,
         Some {| soil_moisture := soil_moisture';
                 light_level := light_level';
                 temperature := temperature';
                 humidity := humidity';
                 air_movement := air_movement';
                 timestamp := now;
                 history :=
                   alter (history_append air_movement') 4%nat
                     (alter (history_append humidity') 3%nat
                        (alter (history_append temperature') 2%nat
                           (alter (history_append light_level') 1%nat
                              (alter (history_append soil_moisture') 0%nat
                                 (history sd))))) |},
         0)
      else
        (last_hourly_update,
         Some {| soil_moisture := soil_moisture';
                 light_level := light_level';
                 temperature := temperature';
                 humidity := humidity';
                 air_movement := air_movement';
                 timestamp := now;
                 history := history sd |},
         0)
  end.

(** The inner loop [for (j = 0; j < history_len; j++)] with [n]
    iterations left. *)
Fixpoint history_sum_loop (n : nat) (j : nat) (vals : list float)
    (sum : float) (count : Z) : float * Z :=
  match n with
  | O => (sum, count)
  | S n' =>
      history_sum_loop n' (S j) vals
        (F32.add sum (default F32.zero (vals !! j))) (count + 1)
  end.

(** [model_input[10 + i]] for the channel history [h], [current] being
    [model_input[i]]. *)
Definition history_average (h : channel_history) (current : float) : float :=
  let history_len := if filled h then 24 else index h in
  let '(sum, count) :=
    history_sum_loop (Z.to_nat history_len) 0 (values h) F32.zero 0 in
  if 0 <? count then F32.div sum (F32.of_Z count) else current.

Definition no_history : channel_history :=
  {| values := replicate 24 F32.zero; index := 0; filled := false |}.

(** The 15 values handed to the model. *)
Definition model_input (sensor_data : sensor_data_with_history)
    (habitat : habitat_data) : list float :=
  let current :=
    [ soil_moisture sensor_data; light_level sensor_data;
      temperature sensor_data; humidity sensor_data;
      air_movement sensor_data ] in
  let diffs :=
    [ compute_moisture_diff (soil_moisture sensor_data) habitat;
      compute_light_diff (light_level sensor_data) habitat;
      compute_temp_diff (temperature sensor_data) habitat;
      compute_humidity_diff (humidity sensor_data) habitat;
      F32.zero ] in
  let averages :=
    imap (fun i cur =>
            history_average
              (default no_history (history sensor_data !! i)) cur)
         current in
  current ++ diffs ++ averages.

(** The loop [for (i = 1; i < 3; i++)] that selects the class of highest
    probability; the accumulator is [(max_prob, health_class)]. *)
Definition argmax_step (model_output : list float) (acc : float * Z) (i : nat)
  : float * Z :=
  let p := default F32.zero (model_output !! i) in
  if F32.gt p (fst acc) then (p, Z.of_nat i) else acc.

Section Analyze.

(** The inference capability: [tflite_run_inference] on the 15 inputs
    returns its [int] result and the 3 outputs. *)
Variable tflite_run_inference : list float -> Z * list float.

Definition ml_analyze_plant_health
    (sensor_data : option sensor_data_with_history)
    (habitat : option habitat_data)
    (result_out : option ml_analysis_result)
  : Z * option ml_analysis_result :=
  match sensor_data, habitat, result_out with
  | Some sd, Some hd, Some out =>
      let '(ret, model_output) := tflite_run_inference (model_input sd hd) in
      if ret <? 0 then (ret, result_out)
      else
        let '(max_prob, health_class) :=
          foldl (argmax_step model_output)
            (default F32.zero (model_output !! 0%nat), ML_HEALTH_HEALTHY)
            [1%nat; 2%nat] in
        let flags :=
          {| mismatch_temperature := is_temp_mismatch (temperature sd) hd;
             mismatch_humidity := is_humidity_mismatch (humidity sd) hd;
             mismatch_soil_moisture :=
               is_moisture_mismatch (soil_moisture sd) hd;
             mismatch_light_level := is_light_mismatch (light_level sd) hd |} in
        (0, Some (generate_recommendations
                    {| health_status := health_class;
                       confidence := max_prob;
                       environmental_mismatch := flags;
                       recommendation := recommendation out |}))
  | _, _, _ => (- EINVAL, result_out)
  end.

End Analyze.

End MlAnalysis.

(** ** plant_analysis.c *)

Module PlantAnalysis.
Import MlAnalysis.

Definition plant_analysis_get_status_string
    (result : option ml_analysis_result) (output_str : option (list ascii))
    (output_size : Z) : Z * option (list ascii) :=
  match result, output_str with
  | Some r, Some buf =>
      if output_size =? 0 then (- EINVAL, output_str)
      else
        let n := Z.to_nat (output_size - 1) in
        let flags := environmental_mismatch r in
        let text :=
          if health_status r =? ML_HEALTH_CRITICAL then "Critical"%string
          else if health_status r =? ML_HEALTH_STRESSED then "Stressed"%string
          else if mismatch_temperature flags || mismatch_humidity flags
                  || mismatch_soil_moisture flags || mismatch_light_level flags
               then "Adjustment Needed"%string
               else "Healthy"%string in
        (0, Some (<[ n := CStr.NUL ]> (CStr.strncpy buf (CStr.lit text) n)))
  | _, _ => (- EINVAL, output_str)
  end.

(** One guarded [written += snprintf(output_str + written,
    output_size - written, text)] of [plant_analysis_get_mismatch_string].
    The size argument is computed in [size_t]: once [written] exceeds
    [output_size] it wraps around to a huge value and the call writes
    past the end of the buffer; [None] stands for that. *)
Definition append_label (guard : bool) (text : string) (output_size : Z)
    (acc : option (list ascii * Z)) : option (list ascii * Z) :=
  if guard then
    match acc with
    | Some (output_str, written) =>
        if output_size <? written then None
        else
          let '(buf, n) :=
            CStr.snprintf output_str (Z.to_nat written)
              (Z.to_nat (output_size - written)) (CStr.lit text) in
          Some (buf, written + n)
    | None => None
    end
  else acc.

(** [plant_analysis_get_mismatch_string]; [output_str] is the buffer of
    [output_size] bytes the pointer designates.  The result is [None]
    when the function reads or writes outside that buffer. *)
Definition plant_analysis_get_mismatch_string
    (result : option ml_analysis_result) (output_str : option (list ascii))
    (output_size : Z) : option (Z * option (list ascii)) :=
  match result, output_str with
  | Some r, Some buf =>
      if output_size =? 0 then Some (- EINVAL, output_str)
      else
        let flags := environmental_mismatch r in
        match
          append_label (mismatch_light_level flags) "light," output_size
            (append_label (mismatch_soil_moisture flags) "moist," output_size
               (append_label (mismatch_humidity flags) "humid," output_size
                  (append_label (mismatch_temperature flags) "temp,"
                     output_size (Some (buf, 0)))))
        with
        | None => None
        | Some (buf, written) =>
            if 0 <? written then
              match buf !! Z.to_nat (written - 1) with
              | None => None
              | Some c =>
                  if Ascii.eqb c ","
                  then Some (0, Some (<[ Z.to_nat (written - 1) := CStr.NUL ]>
                                        buf))
                  else Some (0, Some buf)
              end
            else
              let n := Z.to_nat (output_size - 1) in
              Some (0, Some (<[ n := CStr.NUL ]>
                               (CStr.strncpy buf (CStr.lit "none") n)))
        end
  | _, _ => Some (- EINVAL, output_str)
  end.

End PlantAnalysis.

(* ===================================================================== *)
(** * Part II: properties *)
(* ===================================================================== *)

(** ** Comparisons of binary32 numbers *)

Module F32Facts.

Lemma SFcompare_antisym (a b : spec_float) :
  SFcompare b a = option_map CompOpp (SFcompare a b).
Proof.
  destruct a as [sa|sa| |sa ma ea], b as [sb|sb| |sb mb eb];
    try reflexivity; try (destruct sa; reflexivity);
    try (destruct sb; reflexivity);
    try (destruct sa, sb; reflexivity).
  simpl. destruct sa, sb; try reflexivity;
    rewrite (Z.compare_antisym ea eb);
    destruct (ea ?= eb); simpl; try reflexivity;
    rewrite (Pos.compare_cont_antisym ma mb Eq); simpl;
    try rewrite CompOpp_involutive; reflexivity.
Qed.

(** [a <= b] excludes [a > b]. *)
Lemma le_not_gt (a b : float) : F32.le a b = true -> F32.gt a b = false.
Proof.
  unfold F32.le, F32.gt, SFleb, SFltb. rewrite (SFcompare_antisym a b).
  by destruct (SFcompare a b) as [[]|].
Qed.

(** [a <= b] excludes [b < a]. *)
Lemma le_not_lt (a b : float) : F32.le a b = true -> F32.lt b a = false.
Proof. apply le_not_gt. Qed.

End F32Facts.

(** ** C strings *)

Module CStrFacts.
Import CStr.

Lemma cstr_app_NUL (s rest : list ascii) :
  Forall (fun c => c <> NUL) s -> cstr (s ++ NUL :: rest) = s.
Proof.
  induction 1 as [|c s Hc _ IH]; simpl.
  - reflexivity.
  - destruct (Ascii.eqb_spec c NUL) as [->|_]; [done|]. by rewrite IH.
Qed.

Lemma strncpy_length (dst src : list ascii) (n : nat) :
  (n <= length dst)%nat -> length (strncpy dst src n) = length dst.
Proof.
  intros Hn. unfold strncpy.
  rewrite length_app, length_take, length_app, length_replicate, length_drop.
  lia.
Qed.

(** [strncpy] of [n] characters followed by [dst[n] = 0]: the buffer holds
    the first [n] characters of the source string. *)
Lemma cstr_strncpy_terminated (dst src : list ascii) (n : nat) :
  (n < length dst)%nat ->
  Forall (fun c => c <> NUL) src ->
  cstr (<[ n := NUL ]> (strncpy dst src n)) = take n src.
Proof.
  intros Hn Hsrc. unfold strncpy.
  assert (Hlen : length (take n (src ++ replicate n NUL)) = n).
  { rewrite length_take, length_app, length_replicate. lia. }
  rewrite insert_app_r_alt by lia. rewrite Hlen, Nat.sub_diag.
  destruct (drop n dst) as [|d rest] eqn:Hd.
  { apply (f_equal length) in Hd. rewrite length_drop in Hd. simpl in Hd. lia. }
  simpl. rewrite take_app.
  destruct (decide (n <= length src)%nat) as [Hle|Hgt].
  - replace (n - length src)%nat with 0%nat by lia.
    rewrite take_0, app_nil_r. apply cstr_app_NUL.
    by apply Forall_take.
  - rewrite !take_ge by lia.
    rewrite take_replicate, <- app_assoc.
    destruct (n - length src)%nat eqn:Hk; [lia|].
    rewrite Nat.min_l by lia. simpl.
    by apply cstr_app_NUL.
Qed.

(** The string held by a buffer does not depend on what follows its
    terminator. *)
Lemma cstr_take_app_NUL (n : nat) (s rest : list ascii) :
  cstr (take n s ++ NUL :: rest) = take n (cstr s).
Proof.
  revert n. induction s as [|c s IH]; intros [|n]; simpl; try reflexivity.
  all: destruct (Ascii.eqb c NUL); [reflexivity|].
  all: simpl; by rewrite ?IH.
Qed.

Lemma cstr_app_padding (s : list ascii) (n : nat) :
  cstr (s ++ replicate n NUL) = cstr s.
Proof.
  induction s as [|c s IH]; simpl.
  - by destruct n.
  - by rewrite IH.
Qed.

(** [strncpy] of [n] characters followed by [dst[n] = 0], for any source
    string: the buffer holds the first [n] characters of the source. *)
Lemma cstr_strncpy_cut (dst src : list ascii) (n : nat) :
  (n < length dst)%nat ->
  cstr (<[ n := NUL ]> (strncpy dst src n)) = take n (cstr src).
Proof.
  intros Hn. unfold strncpy.
  assert (Hlen : length (take n (src ++ replicate n NUL)) = n).
  { rewrite length_take, length_app, length_replicate. lia. }
  rewrite insert_app_r_alt by lia. rewrite Hlen, Nat.sub_diag.
  destruct (drop n dst) as [|d rest] eqn:Hd.
  { apply (f_equal length) in Hd. rewrite length_drop in Hd. simpl in Hd. lia. }
  simpl. rewrite cstr_take_app_NUL, cstr_app_padding. reflexivity.
Qed.

End CStrFacts.

(** ** Circular buffers

    The three modules keep the same kind of ring: a fixed array, a write
    cursor that wraps, and a way to tell whether the array has been
    filled once.  [ring_view] lists the live elements oldest first. *)

Module Ring.

Section Ring.
Context {A : Type}.

Definition ring_view (full : bool) (h : nat) (l : list A) : list A :=
  if full then drop h l ++ take h l else take h l.

Lemma ring_put_view (l : list A) (h : nat) (x : A) (full : bool) :
  (h < length l)%nat ->
  let h' := ((h + 1) mod length l)%nat in
  ring_view (full || (h' =? 0)%nat) h' (<[ h := x ]> l)
  = drop (length (ring_view full h l) + 1 - length l)
      (ring_view full h l ++ [x]).
Proof.
  intros Hh h'.
  assert (Hsplit : <[ h := x ]> l = take h l ++ x :: drop (S h) l)
    by (by apply insert_take_drop).
  assert (Hdrop : drop h l = default x (l !! h) :: drop (S h) l).
  { destruct (lookup_lt_is_Some_2 l h Hh) as [y Hy]. rewrite Hy. simpl.
    by apply drop_S. }
  assert (Hlen : length (ring_view full h l)
                 = if full then length l else h).
  { unfold ring_view. destruct full.
    - rewrite length_app, length_take, length_drop. lia.
    - rewrite length_take. lia. }
  rewrite Hlen. unfold ring_view.
  destruct (decide (S h = length l)) as [Hlast|Hmid].
  - assert (h' = 0)%nat as ->.
    { unfold h'. replace (h + 1)%nat with (length l) by lia.
      apply Nat.Div0.mod_same. }
    rewrite orb_true_r, drop_0, take_0, app_nil_r, Hsplit.
    rewrite (drop_ge l (S h)) by lia.
    destruct full.
    + replace (length l + 1 - length l)%nat with 1%nat by lia.
      rewrite Hdrop, (drop_ge l (S h)) by lia. reflexivity.
    + replace (h + 1 - length l)%nat with 0%nat by lia. by rewrite drop_0.
  - assert (h' = S h) as ->.
    { unfold h'. rewrite Nat.mod_small by lia. lia. }
    rewrite orb_false_r, Hsplit.
    assert (Htake : take (S h) (take h l ++ x :: drop (S h) l)
                    = take h l ++ [x]).
    { rewrite take_app, length_take.
      replace (S h - h `min` length l)%nat with 1%nat by lia.
      rewrite (take_ge (take h l)) by (rewrite length_take; lia).
      reflexivity. }
    rewrite Htake. destruct full.
    + replace (length l + 1 - length l)%nat with 1%nat by lia.
      rewrite drop_app, length_take.
      replace (S h - h `min` length l)%nat with 1%nat by lia.
      rewrite (drop_ge (take h l)) by (rewrite length_take; lia).
      rewrite Hdrop. simpl. rewrite drop_0, <- app_assoc. reflexivity.
    + replace (h + 1 - length l)%nat with 0%nat by lia. by rewrite drop_0.
Qed.
End Ring.

End Ring.

(** ** The telemetry cache *)

Module DataCacheFacts.
Import DataCache.

(** The slot contents written for arguments [a] into a zeroed slot. *)
Definition stored_reading (a : reading_args) : cached_sensor_reading :=
  store_reading zero_reading a.

Definition buffers_ok (c : cached_sensor_reading) : Prop :=
  length (env_mismatch c) = 32%nat /\ length (plant_status c) = 32%nat.

(** The representation invariant of the three file-scope variables. *)
Record wf (st : state) : Prop := {
  wf_length : length (cache st) = 48%nat;
  wf_head : 0 <= cache_head st < MAX_CACHED_ENTRIES;
  wf_count : 0 <= cache_count st <= MAX_CACHED_ENTRIES;
  wf_head_count :
    cache_count st < MAX_CACHED_ENTRIES -> cache_head st = cache_count st;
  wf_buffers : Forall buffers_ok (cache st)
}.

(** The cached readings in logical order, oldest first. *)
Definition entries (st : state) : list cached_sensor_reading :=
  if cache_count st <? MAX_CACHED_ENTRIES
  then take (Z.to_nat (cache_count st)) (cache st)
  else drop (Z.to_nat (cache_head st)) (cache st)
         ++ take (Z.to_nat (cache_head st)) (cache st).

(** The state after a run of [data_cache_add_reading] calls. *)
Definition add_all (st : state) (xs : list reading_args) : state :=
  foldl (fun s a => fst (data_cache_add_reading s a)) st xs.

Lemma store_reading_old (old : cached_sensor_reading) (a : reading_args) :
  buffers_ok old -> store_reading old a = stored_reading a.
Proof.
  intros [He Hp]. unfold stored_reading, store_reading. f_equal.
  - unfold CStr.strncpy. simpl env_mismatch.
    rewrite !insert_app_r_alt by (rewrite length_take, length_app, length_replicate; lia).
    f_equal. rewrite length_take, length_app, length_replicate.
    replace (31 - _)%nat with 0%nat by lia.
    destruct (drop 31 (env_mismatch old)) as [|x [|y l]] eqn:Hd;
      apply (f_equal length) in Hd; rewrite length_drop in Hd; simpl in Hd;
      try lia. reflexivity.
  - unfold CStr.strncpy. simpl plant_status.
    rewrite !insert_app_r_alt by (rewrite length_take, length_app, length_replicate; lia).
    f_equal. rewrite length_take, length_app, length_replicate.
    replace (31 - _)%nat with 0%nat by lia.
    destruct (drop 31 (plant_status old)) as [|x [|y l]] eqn:Hd;
      apply (f_equal length) in Hd; rewrite length_drop in Hd; simpl in Hd;
      try lia. reflexivity.
Qed.

Lemma stored_reading_buffers (a : reading_args) : buffers_ok (stored_reading a).
Proof.
  split; unfold stored_reading, store_reading;
    cbn [env_mismatch plant_status zero_reading];
    rewrite length_insert, CStrFacts.strncpy_length;
    rewrite ?length_replicate; lia.
Qed.

Lemma stored_reading_valid (a : reading_args) : valid (stored_reading a) = true.
Proof. reflexivity. Qed.

Lemma wf_init : wf (fst data_cache_init).
Proof.
  split.
  - reflexivity.
  - simpl. unfold MAX_CACHED_ENTRIES. lia.
  - simpl. unfold MAX_CACHED_ENTRIES. lia.
  - reflexivity.
  - apply Forall_replicate. split; reflexivity.
Qed.

Lemma entries_init : entries (fst data_cache_init) = [].
Proof. reflexivity. Qed.

Lemma entries_length (st : state) :
  wf st -> length (entries st) = Z.to_nat (cache_count st).
Proof.
  intros [Hl Hh Hc Hhc _]. unfold entries, MAX_CACHED_ENTRIES in *.
  destruct (Z.ltb_spec (cache_count st) 48).
  - rewrite length_take. lia.
  - rewrite length_app, length_take, length_drop. lia.
Qed.

(** The slot written by an insertion, under the invariant. *)
Lemma add_reading_cache (st : state) (a : reading_args) :
  wf st ->
  cache (fst (data_cache_add_reading st a))
  = <[ Z.to_nat (cache_head st) := stored_reading a ]> (cache st).
Proof.
  intros Hwf. simpl. f_equal. apply store_reading_old.
  destruct Hwf as [Hl Hh _ _ Hb]. unfold MAX_CACHED_ENTRIES in *.
  destruct (lookup_lt_is_Some_2 (cache st) (Z.to_nat (cache_head st)))
    as [old Hold]; [lia|].
  rewrite Hold. simpl. by eapply Forall_lookup_1 in Hb.
Qed.

Lemma wf_add_reading (st : state) (a : reading_args) :
  wf st -> wf (fst (data_cache_add_reading st a)).
Proof.
  intros Hwf. pose proof (add_reading_cache st a Hwf) as Hcache.
  destruct Hwf as [Hl Hh Hc Hhc Hb]. unfold MAX_CACHED_ENTRIES in *.
  split; unfold MAX_CACHED_ENTRIES.
  - rewrite Hcache, length_insert. done.
  - simpl. unfold MAX_CACHED_ENTRIES. rewrite Z.rem_mod_nonneg by lia.
    apply Z.mod_pos_bound. lia.
  - simpl. unfold MAX_CACHED_ENTRIES. destruct (Z.ltb_spec (cache_count st) 48); lia.
  - simpl. unfold MAX_CACHED_ENTRIES. rewrite Z.rem_mod_nonneg by lia.
    destruct (Z.ltb_spec (cache_count st) 48); [|lia].
    intros Hlt. rewrite Hhc by lia. rewrite Z.mod_small; lia.
  - rewrite Hcache. apply Forall_insert; [done|]. apply stored_reading_buffers.
Qed.

Lemma wf_clear (st : state) : wf (fst (data_cache_clear st)).
Proof. exact wf_init. Qed.

Lemma entries_ring (st : state) :
  wf st ->
  entries st
  = Ring.ring_view (negb (cache_count st <? MAX_CACHED_ENTRIES))
      (Z.to_nat (cache_head st)) (cache st).
Proof.
  intros [_ _ _ Hhc _]. unfold entries, Ring.ring_view.
  destruct (Z.ltb_spec (cache_count st) MAX_CACHED_ENTRIES); simpl; [|done].
  by rewrite Hhc.
Qed.

(** One insertion, seen on the logical contents: the new reading is
    appended and, when the ring was full, the oldest one is dropped. *)
Lemma entries_add_reading (st : state) (a : reading_args) :
  wf st ->
  entries (fst (data_cache_add_reading st a))
  = drop (length (entries st) + 1 - 48) (entries st ++ [stored_reading a]).
Proof.
  intros Hwf. rewrite !entries_ring by (done || by apply wf_add_reading).
  rewrite (add_reading_cache st a Hwf).
  destruct Hwf as [Hl Hh Hc Hhc Hb]. unfold MAX_CACHED_ENTRIES in *.
  pose proof (Ring.ring_put_view (cache st) (Z.to_nat (cache_head st))
                (stored_reading a) (negb (cache_count st <? 48))) as Hput.
  cbv zeta in Hput. rewrite Hl in Hput. rewrite <- Hput by lia. clear Hput.
  simpl cache_head. simpl cache_count.
  unfold MAX_CACHED_ENTRIES. rewrite Z.rem_mod_nonneg by lia.
  assert (Hh' : Z.to_nat ((cache_head st + 1) mod 48)
                = ((Z.to_nat (cache_head st) + 1) mod 48)%nat).
  { rewrite Z2Nat.inj_mod, Z2Nat.inj_add by lia. reflexivity. }
  rewrite Hh'. f_equal.
  destruct (Z.ltb_spec (cache_count st) 48) as [Hlt|Hge]; cbn [negb orb].
  - rewrite Hhc by lia.
    destruct (Z.ltb_spec (cache_count st + 1) 48); cbn [negb]; symmetry.
    + apply Nat.eqb_neq. rewrite Nat.mod_small; lia.
    + apply Nat.eqb_eq. replace (cache_count st) with 47 by lia. reflexivity.
  - destruct (Z.ltb_spec (cache_count st) 48); [lia|done].
Qed.

Lemma count_add_reading (st : state) (a : reading_args) :
  wf st ->
  cache_count (fst (data_cache_add_reading st a))
  = Z.min (cache_count st + 1) MAX_CACHED_ENTRIES.
Proof.
  intros [_ _ Hc _ _]. simpl. unfold MAX_CACHED_ENTRIES in *.
  destruct (Z.ltb_spec (cache_count st) 48); lia.
Qed.

Lemma add_all_snoc (st : state) (xs : list reading_args) (a : reading_args) :
  add_all st (xs ++ [a]) = fst (data_cache_add_reading (add_all st xs) a).
Proof. unfold add_all. by rewrite foldl_snoc. Qed.

(** The ring after any run of insertions into the empty cache: the
    invariant holds and the logical contents are the last 48 readings
    inserted, in insertion order. *)
Lemma add_all_spec (xs : list reading_args) :
  let st := add_all (fst data_cache_init) xs in
  wf st
  /\ cache_count st = Z.min (Z.of_nat (length xs)) MAX_CACHED_ENTRIES
  /\ entries st = drop (length xs - 48) (stored_reading <$> xs).
Proof.
  induction xs as [|a xs IH] using rev_ind.
  - split; [exact wf_init|]. split; reflexivity.
  - destruct IH as (Hwf & Hcount & Hent).
    rewrite add_all_snoc. split; [by apply wf_add_reading|]. split.
    + rewrite count_add_reading by done. rewrite Hcount, length_app. simpl.
      unfold MAX_CACHED_ENTRIES. lia.
    + rewrite entries_add_reading by done.
      rewrite Hent, fmap_app, length_drop, length_fmap, length_app. simpl.
      destruct (decide (length xs < 48)%nat).
      * replace (length xs - 48)%nat with 0%nat by lia.
        replace (length xs - 0 + 1 - 48)%nat with 0%nat by lia.
        replace (length xs + 1 - 48)%nat with 0%nat by lia.
        by rewrite !drop_0.
      * replace (length xs - (length xs - 48) + 1 - 48)%nat with 1%nat by lia.
        rewrite (drop_app_le _ _ (length xs + 1 - 48))
          by (rewrite length_fmap; lia).
        rewrite drop_app_le by (rewrite length_drop, length_fmap; lia).
        rewrite drop_drop. f_equal. f_equal. lia.
Qed.

(** Reading by logical index, under the invariant: slot [index] of the
    logical contents, provided it carries the [valid] mark. *)
Lemma get_reading_entries (st : state) (index : Z)
    (out e : cached_sensor_reading) :
  wf st ->
  entries st !! Z.to_nat index = Some e ->
  0 <= index ->
  valid e = true ->
  data_cache_get_reading st index (Some out) = (0, Some e).
Proof.
  intros Hwf He Hi Hv.
  pose proof (lookup_lt_Some _ _ _ He) as Hlt.
  rewrite entries_length in Hlt by done.
  destruct Hwf as [Hl Hh Hc Hhc _].
  unfold data_cache_get_reading, entries, MAX_CACHED_ENTRIES in *.
  destruct (Z.ltb_spec index 0); [lia|].
  destruct (Z.leb_spec (cache_count st) index); [lia|]. simpl.
  destruct (Z.ltb_spec (cache_count st) 48).
  - rewrite lookup_take_lt in He by lia. rewrite He. simpl. by rewrite Hv.
  - rewrite Z.rem_mod_nonneg by lia.
    destruct (decide (Z.to_nat index < 48 - Z.to_nat (cache_head st))%nat).
    + rewrite lookup_app_l in He by (rewrite length_drop; lia).
      rewrite lookup_drop in He.
      rewrite Z.mod_small by lia.
      replace (Z.to_nat (cache_head st + index))
        with (Z.to_nat (cache_head st) + Z.to_nat index)%nat by lia.
      rewrite He. simpl. by rewrite Hv.
    + rewrite lookup_app_r in He by (rewrite length_drop; lia).
      rewrite length_drop, lookup_take_lt in He by lia.
      replace ((cache_head st + index) mod 48) with (cache_head st + index - 48).
      2:{ apply Z.mod_unique with 1; lia. }
      replace (Z.to_nat (cache_head st + index - 48))
        with (Z.to_nat index - (length (cache st) - Z.to_nat (cache_head st)))%nat
        by lia.
      rewrite He. simpl. by rewrite Hv.
Qed.

(** The states the module can be in: those reached from
    [data_cache_init] by insertions and clears. *)
Inductive reachable : state -> Prop :=
  | reachable_init : reachable (fst data_cache_init)
  | reachable_add st a :
      reachable st -> reachable (fst (data_cache_add_reading st a))
  | reachable_clear st :
      reachable st -> reachable (fst (data_cache_clear st)).

Lemma reachable_add_all (st : state) :
  reachable st -> exists xs, st = add_all (fst data_cache_init) xs.
Proof.
  induction 1 as [|st a _ [xs ->]|st _ _].
  - by exists [].
  - exists (xs ++ [a]). by rewrite add_all_snoc.
  - by exists [].
Qed.

Lemma reachable_wf (st : state) : reachable st -> wf st.
Proof.
  intros [xs ->]%reachable_add_all. apply (add_all_spec xs).
Qed.

Lemma entries_valid (xs : list reading_args) (i : nat)
    (e : cached_sensor_reading) :
  entries (add_all (fst data_cache_init) xs) !! i = Some e -> valid e = true.
Proof.
  destruct (add_all_spec xs) as (_ & _ & ->).
  rewrite lookup_drop, list_lookup_fmap.
  destruct (xs !! _); simpl; [|done]. by intros [= <-].
Qed.

(** [data_cache_get_reading] on a reachable state, in terms of the
    readings inserted so far. *)
Lemma get_reading_add_all (xs : list reading_args) (index : Z)
    (out : cached_sensor_reading) (a : reading_args) :
  0 <= index ->
  xs !! (length xs - 48 + Z.to_nat index)%nat = Some a ->
  data_cache_get_reading (add_all (fst data_cache_init) xs) index (Some out)
  = (0, Some (stored_reading a)).
Proof.
  intros Hi Ha. destruct (add_all_spec xs) as (Hwf & _ & Hent).
  apply get_reading_entries; try done.
  rewrite Hent, lookup_drop, list_lookup_fmap, Ha. done.
Qed.

Lemma add_all_reachable (xs : list reading_args) :
  reachable (add_all (fst data_cache_init) xs).
Proof.
  induction xs as [|a xs IH] using rev_ind.
  - constructor.
  - rewrite add_all_snoc. by constructor.
Qed.

(** Sample readings used to exercise the statements below: reading [i]
    is taken at hour [i] and reports [i] percent soil moisture. *)
Definition sample_reading (i : nat) : reading_args :=
  {| a_soil_moisture := F32.of_Z (Z.of_nat i);
     a_light_level := F32.of_Z 60;
     a_temperature := F32.of_Z 22;
     a_humidity := F32.of_Z 55;
     a_air_movement := F32.of_Z 10;
     a_timestamp := 3600 * Z.of_nat i;
     a_health_status := 0;
     a_env_mismatch := CStr.lit "none";
     a_plant_status := CStr.lit "Healthy" |}.

Definition sample_readings (n : nat) : list reading_args :=
  sample_reading <$> seq 0 n.

(** What a cache entry [e] holds when it is the stored form of the
    inserted reading [a]: the five values, the timestamp and the health
    status of [a], the first 31 characters of each of its two strings in
    a 32-byte field, and the valid flag. *)
Definition entry_of (a : reading_args) (e : cached_sensor_reading) : Prop :=
  soil_moisture e = a_soil_moisture a
  /\ light_level e = a_light_level a
  /\ temperature e = a_temperature a
  /\ humidity e = a_humidity a
  /\ air_movement e = a_air_movement a
  /\ timestamp e = a_timestamp a
  /\ health_status e = a_health_status a
  /\ (length (env_mismatch e) = 32%nat
      /\ CStr.cstr (env_mismatch e) = take 31 (CStr.cstr (a_env_mismatch a)))
  /\ (length (plant_status e) = 32%nat
      /\ CStr.cstr (plant_status e) = take 31 (CStr.cstr (a_plant_status a)))
  /\ valid e = true.

Lemma stored_reading_entry (a : reading_args) : entry_of a (stored_reading a).
Proof.
  unfold entry_of, stored_reading, store_reading.
  cbn [soil_moisture light_level temperature humidity air_movement timestamp
       health_status env_mismatch plant_status valid zero_reading].
  repeat split.
  - rewrite length_insert, CStrFacts.strncpy_length;
      rewrite length_replicate; lia.
  - apply CStrFacts.cstr_strncpy_cut. rewrite length_replicate. lia.
  - rewrite length_insert, CStrFacts.strncpy_length;
      rewrite length_replicate; lia.
  - apply CStrFacts.cstr_strncpy_cut. rewrite length_replicate. lia.
Qed.

(** C2. The invariants of the telemetry cache hold in every state the
    module reaches (after [data_cache_init], every insertion and every
    clear): the write cursor lies in [0, 48) and the count in [0, 48].
    Every insertion returns 0.  When the count is 48, one more insertion
    leaves it at 48 and overwrites the logically oldest reading: logical
    index [i] of the new state is logical index [i + 1] of the old one,
    and index 47 returns the reading just inserted, field by field (its
    five values, timestamp, health status, the first 31 characters of
    its two strings, valid).  After [48 + k] insertions into the empty
    cache the count is 48 and logical index 0 returns, field by field,
    the [(k+1)]-th reading inserted. *)
Theorem cache_ring_contract (st : state) (a : reading_args)
    (out : cached_sensor_reading) (xs : list reading_args) (k : nat) :
  reachable st ->
  let st' := fst (data_cache_add_reading st a) in
  (0 <= cache_head st < MAX_CACHED_ENTRIES
   /\ 0 <= data_cache_count st <= MAX_CACHED_ENTRIES)
  /\ snd (data_cache_add_reading st a) = 0
  /\ (data_cache_count st = MAX_CACHED_ENTRIES ->
      data_cache_count st' = MAX_CACHED_ENTRIES
      /\ (forall i, 0 <= i < 47 ->
            data_cache_get_reading st' i (Some out)
            = data_cache_get_reading st (i + 1) (Some out))
      /\ exists e,
           data_cache_get_reading st' 47 (Some out) = (0, Some e)
           /\ soil_moisture e = a_soil_moisture a
           /\ light_level e = a_light_level a
           /\ temperature e = a_temperature a
           /\ humidity e = a_humidity a
           /\ air_movement e = a_air_movement a
           /\ timestamp e = a_timestamp a
           /\ health_status e = a_health_status a
           /\ CStr.cstr (env_mismatch e)
              = take 31 (CStr.cstr (a_env_mismatch a))
           /\ CStr.cstr (plant_status e)
              = take 31 (CStr.cstr (a_plant_status a))
           /\ valid e = true)
  /\ (length xs = (48 + k)%nat ->
      let full := add_all (fst data_cache_init) xs in
      data_cache_count full = MAX_CACHED_ENTRIES
      /\ exists x e,
           xs !! k = Some x
           /\ data_cache_get_reading full 0 (Some out) = (0, Some e)
           /\ soil_moisture e = a_soil_moisture x
           /\ light_level e = a_light_level x
           /\ temperature e = a_temperature x
           /\ humidity e = a_humidity x
           /\ air_movement e = a_air_movement x
           /\ timestamp e = a_timestamp x
           /\ health_status e = a_health_status x
           /\ CStr.cstr (env_mismatch e)
              = take 31 (CStr.cstr (a_env_mismatch x))
           /\ CStr.cstr (plant_status e)
              = take 31 (CStr.cstr (a_plant_status x))
           /\ valid e = true).
Proof.
  intros Hr st'. pose proof (reachable_wf st Hr) as Hwf.
  split; [split; apply Hwf|]. split; [reflexivity|]. split.
  - intros Hfull. unfold data_cache_count in *.
    destruct (reachable_add_all st Hr) as [ys Hys].
    destruct (add_all_spec ys) as (_ & Hcount & _).
    rewrite <- Hys in Hcount. unfold MAX_CACHED_ENTRIES in *.
    assert (Hlen : (48 <= length ys)%nat) by lia.
    assert (Hst' : st' = add_all (fst data_cache_init) (ys ++ [a])).
    { unfold st'. by rewrite add_all_snoc, Hys. }
    split; [|split].
    + unfold st'. rewrite count_add_reading by done.
      unfold MAX_CACHED_ENTRIES. lia.
    + intros i Hi.
      destruct (lookup_lt_is_Some_2 ys (length ys - 48 + Z.to_nat (i + 1)))
        as [y Hy]; [lia|].
      rewrite Hst', Hys.
      rewrite (get_reading_add_all ys (i + 1) out y) by (done || lia).
      apply get_reading_add_all; [lia|].
      rewrite lookup_app_l by (rewrite length_app; simpl; lia).
      rewrite <- Hy. f_equal. rewrite length_app. simpl. lia.
    + exists (stored_reading a).
      destruct (stored_reading_entry a)
        as (? & ? & ? & ? & ? & ? & ? & [_ ?] & [_ ?] & ?).
      split; [|done].
      rewrite Hst'. apply get_reading_add_all; [lia|].
      rewrite length_app. simpl.
      replace (length ys + 1 - 48 + Z.to_nat 47)%nat with (length ys + 0)%nat
        by lia.
      by rewrite lookup_app_r, Nat.add_0_r, Nat.sub_diag by lia.
  - intros Hlen full. destruct (add_all_spec xs) as (_ & Hcount & _).
    split.
    + unfold data_cache_count, full. rewrite Hcount.
      unfold MAX_CACHED_ENTRIES. lia.
    + destruct (lookup_lt_is_Some_2 xs k) as [x Hx]; [lia|].
      exists x, (stored_reading x).
      destruct (stored_reading_entry x)
        as (? & ? & ? & ? & ? & ? & ? & [_ ?] & [_ ?] & ?).
      split; [done|]. split; [|done].
      apply get_reading_add_all; [lia|].
      rewrite <- Hx. f_equal. lia.
Qed.

(** Fifty insertions into the empty cache: the count is 48 and logical
    index 0 returns the third reading inserted: 2 percent soil moisture
    taken at 7200 s, with the texts none and Healthy. *)
Lemma cache_ring_contract_witness :
  data_cache_count (add_all (fst data_cache_init) (sample_readings 50)) = 48
  /\ exists e,
       data_cache_get_reading
         (add_all (fst data_cache_init) (sample_readings 50))
         0 (Some zero_reading) = (0, Some e)
       /\ soil_moisture e = F32.of_Z 2
       /\ light_level e = F32.of_Z 60
       /\ temperature e = F32.of_Z 22
       /\ humidity e = F32.of_Z 55
       /\ air_movement e = F32.of_Z 10
       /\ timestamp e = 7200
       /\ health_status e = 0
       /\ CStr.cstr (env_mismatch e) = CStr.lit "none"
       /\ CStr.cstr (plant_status e) = CStr.lit "Healthy"
       /\ valid e = true.
Proof.
  destruct (cache_ring_contract
              (add_all (fst data_cache_init) (sample_readings 50))
              (sample_reading 50) zero_reading (sample_readings 50) 2
              (add_all_reachable _)) as (_ & _ & _ & H).
  destruct (H eq_refl) as (Hcount & x & e & Hx & Hget & Hfields).
  split; [exact Hcount|].
  injection Hx as <-. exists e. split; [exact Hget|]. exact Hfields.
Defined.

End DataCacheFacts.

(** ** Draining the cache (main.c) *)

Module MainFacts.
Import DataCache DataCacheFacts Main.

Section Drain.

Context {world : Type}.
Variable send : world -> sensor_upload -> world * Z.
Variable save : world -> list ascii -> stored_value -> world * Z.
Variable dev : device_info.

(** Uploading a list of payloads in order, stopping at the first upload
    that reports a failure: the flag tells whether all were accepted. *)
Fixpoint send_until_failure (w : world) (ups : list sensor_upload)
  : bool * world :=
  match ups with
  | [] => (true, w)
  | u :: rest =>
      let '(w', ret) := send w u in
      if ret <? 0 then (false, w') else send_until_failure w' rest
  end.

(** Uploading every payload of a list, in order. *)
Definition send_each (w : world) (ups : list sensor_upload) : world :=
  foldl (fun w u => fst (send w u)) w ups.

(** The payloads of the cached readings, oldest first. *)
Definition cached_uploads (st : state) (recommendation : list ascii)
  : list sensor_upload :=
  upload_of_cached dev recommendation <$> entries st.

Lemma send_cached_loop_spec (st : state) (recommendation : list ascii)
    (es : list cached_sensor_reading) :
  wf st ->
  Forall (fun e => valid e = true) es ->
  forall (i : Z) (w : world),
    0 <= i ->
    drop (Z.to_nat i) (entries st) = es ->
    send_cached_loop send dev (length es) i st recommendation w
    = send_until_failure w (upload_of_cached dev recommendation <$> es).
Proof.
  intros Hwf Hvalid. induction Hvalid as [|e es He _ IH]; intros i w Hi Hdrop.
  - reflexivity.
  - assert (Hlook : entries st !! Z.to_nat i = Some e).
    { rewrite <- (Nat.add_0_r (Z.to_nat i)), <- lookup_drop, Hdrop. done. }
    cbn [length send_cached_loop fmap list_fmap send_until_failure].
    rewrite (get_reading_entries st i zero_reading e) by done.
    change (0 =? 0) with true. cbv iota. simpl default.
    destruct (send w _) as [w' ret].
    destruct (ret <? 0); [done|].
    apply IH; [lia|].
    replace (Z.to_nat (i + 1)) with (Z.to_nat i + 1)%nat by lia.
    rewrite <- drop_drop, Hdrop. reflexivity.
Qed.

(** The cached-data part of the handler on a reachable, non-empty cache:
    the cached readings are uploaded oldest first up to the first
    failure; the cache is cleared and saved exactly when none failed,
    and is left as it was otherwise. *)
Lemma send_cached_data_spec (xs : list reading_args)
    (recommendation : list ascii) (w : world) :
  (0 < length xs)%nat ->
  let st := add_all (fst data_cache_init) xs in
  let ups :=
    upload_of_cached dev recommendation
      <$> drop (length xs - 48) (stored_reading <$> xs) in
  send_cached_data send save dev st recommendation w
  = let '(all_sent, w1) := send_until_failure w ups in
    if all_sent
    then (fst (data_cache_clear st),
          fst (data_cache_save save dev (fst (data_cache_clear st)) w1))
    else (st, w1).
Proof.
  intros Hpos st ups. destruct (add_all_spec xs) as (Hwf & Hcount & Hent).
  fold st in Hwf, Hcount, Hent.
  unfold send_cached_data, data_cache_count. rewrite Hcount.
  unfold MAX_CACHED_ENTRIES.
  destruct (Z.ltb_spec 0 (Z.min (Z.of_nat (length xs)) 48)); [|lia].
  assert (Hn : Z.to_nat (Z.min (Z.of_nat (length xs)) 48)
               = length (entries st)).
  { rewrite entries_length by done. rewrite Hcount. done. }
  rewrite Hn.
  rewrite (send_cached_loop_spec st recommendation (entries st)); try done.
  - unfold ups. rewrite <- Hent.
    destruct (send_until_failure w _) as [[] w1]; [|done].
    unfold data_cache_clear. cbv beta iota. cbn [fst].
    by destruct (data_cache_save _ _ _ _).
  - apply Forall_lookup_2. intros i e. apply entries_valid.
Qed.

Lemma connected_branch_spec (xs : list reading_args) (l : live_reading)
    (w : world) :
  (0 < length xs)%nat ->
  let st := add_all (fst data_cache_init) xs in
  let r :=
    send_until_failure w
      (upload_of_cached dev (l_recommendation l)
         <$> drop (length xs - 48) (stored_reading <$> xs)) in
  let w1 :=
    if fst r
    then fst (data_cache_save save dev (fst (data_cache_clear st)) (snd r))
    else snd r in
  connected_branch send save dev st l w
  = (if fst r then fst (data_cache_clear st) else st,
     fst (send w1 (upload_of_live dev l)),
     snd (send w1 (upload_of_live dev l))).
Proof.
  intros Hpos. cbv zeta. unfold connected_branch.
  rewrite (send_cached_data_spec xs) by done. cbv zeta.
  destruct (send_until_failure w _) as [[] w1]; cbn [fst snd];
    by destruct (send _ _).
Qed.

End Drain.

(** A scripted sink and store for exercising the handler: the sink
    counts its calls, logs the payloads it accepts and rejects the calls
    whose number is listed in [rejected]; the store logs what it is asked
    to save. *)
Record test_world := {
  calls : nat;
  accepted : list sensor_upload;
  saved : list (list ascii * stored_value)
}.

Definition fresh_world : test_world :=
  {| calls := 0; accepted := []; saved := [] |}.

Definition scripted_send (rejected : list nat) (w : test_world)
    (u : sensor_upload) : test_world * Z :=
  let n := S (calls w) in
  if bool_decide (n ∈ rejected)
  then ({| calls := n; accepted := accepted w; saved := saved w |}, -5)
  else ({| calls := n; accepted := accepted w ++ [u]; saved := saved w |}, 0).

Definition logging_save (w : test_world) (key : list ascii)
    (v : stored_value) : test_world * Z :=
  ({| calls := calls w; accepted := accepted w;
      saved := saved w ++ [(key, v)] |}, 0).

Definition test_device : device_info :=
  {| serial_number := CStr.lit "GROW0001";
     plant_name := CStr.lit "Basil";
     plant_variety := CStr.lit "Genovese" |}.

Definition test_live : live_reading :=
  {| l_soil_moisture := F32.of_Z 40;
     l_light_level := F32.of_Z 60;
     l_temperature := F32.of_Z 22;
     l_humidity := F32.of_Z 55;
     l_air_movement := F32.of_Z 10;
     l_timestamp := 3600 * 99;
     l_health_status := 0;
     l_mismatch_str := CStr.lit "none";
     l_recommendation := CStr.lit "Plant is healthy. ";
     l_plant_status := CStr.lit "Healthy" |}.

Lemma send_until_failure_never_fails {world : Type}
    (send : world -> sensor_upload -> world * Z)
    (ups : list sensor_upload) (w : world) :
  (forall w u, 0 <= snd (send w u)) ->
  send_until_failure send w ups = (true, send_each send w ups).
Proof.
  intros Hok. revert w. induction ups as [|u ups IH]; intros w; [done|].
  simpl. specialize (Hok w u). destruct (send w u) as [w' ret].
  simpl in Hok. destruct (Z.ltb_spec ret 0); [lia|]. apply IH.
Qed.

(** C1, as the handler implements it.  On a cache holding [n > 0]
    readings the handler uploads the cached readings oldest first and
    stops at the first upload that fails.  If one fails the cache is left
    exactly as it was (same slots, same count); if none fails the cache
    is cleared and the empty state is saved -- this happens before the
    current live reading is uploaded and whatever the result of that
    upload.  Running the handler again on the untouched cache with a
    sink that never fails uploads all [n] cached readings in order and
    clears the cache. *)
Theorem drain_all_or_nothing {world : Type}
    (send resend : world -> sensor_upload -> world * Z)
    (save : world -> list ascii -> stored_value -> world * Z)
    (dev : device_info) (xs : list reading_args)
    (l l' : live_reading) (w : world) :
  (0 < length xs)%nat ->
  (forall w u, 0 <= snd (resend w u)) ->
  let st := add_all (fst data_cache_init) xs in
  let ups recommendation :=
    upload_of_cached dev recommendation
      <$> drop (length xs - 48) (stored_reading <$> xs) in
  let cleared := fst (data_cache_clear st) in
  let first := send_until_failure send w (ups (l_recommendation l)) in
  let after := connected_branch send save dev st l w in
  data_cache_count st = Z.min (Z.of_nat (length xs)) 48
  /\ fst (fst after) = (if fst first then cleared else st)
  /\ snd (fst after)
     = fst (send (if fst first
                  then fst (data_cache_save save dev cleared (snd first))
                  else snd first)
                 (upload_of_live dev l))
  /\ (fst first = false ->
      data_cache_count (fst (fst after)) = data_cache_count st
      /\ let again :=
           connected_branch resend save dev (fst (fst after)) l'
             (snd (fst after)) in
         fst (fst again) = cleared
         /\ data_cache_count (fst (fst again)) = 0
         /\ snd (fst again)
            = fst (resend
                     (fst (data_cache_save save dev cleared
                             (send_each resend (snd (fst after))
                                (ups (l_recommendation l')))))
                     (upload_of_live dev l'))).
Proof.
  intros Hpos Hnever. cbv zeta.
  rewrite (connected_branch_spec send save dev xs l w Hpos). cbv zeta.
  cbn [fst snd].
  split; [apply (add_all_spec xs)|].
  split; [done|]. split; [done|].
  intros ->. split; [done|].
  rewrite (connected_branch_spec resend save dev xs l' _ Hpos). cbv zeta.
  rewrite send_until_failure_never_fails by done.
  cbn [fst snd]. done.
Qed.

(** Five cached readings, a sink that rejects the third upload: two
    readings reach the sink, the cache still holds the five readings;
    the next tick, with every upload accepted, delivers the five cached
    readings oldest first and leaves the cache empty. *)
Lemma drain_all_or_nothing_witness :
  let st := add_all (fst data_cache_init) (sample_readings 5) in
  let after :=
    connected_branch (scripted_send [3%nat]) logging_save test_device st
      test_live fresh_world in
  let again :=
    connected_branch (scripted_send []) logging_save test_device
      (fst (fst after)) test_live (snd (fst after)) in
  fst (fst after) = st
  /\ data_cache_count (fst (fst after)) = 5
  /\ data_cache_count (fst (fst again)) = 0
  /\ u_timestamp <$> accepted (snd (fst again))
     = [0; 3600; 3600 * 99; 0; 3600; 7200; 10800; 14400; 3600 * 99].
Proof.
  cbv zeta.
  assert (Hnever : forall (w : test_world) (u : sensor_upload),
             0 <= snd (scripted_send [] w u)).
  { intros w u. unfold scripted_send.
    rewrite bool_decide_eq_false_2 by apply not_elem_of_nil. simpl. lia. }
  destruct (drain_all_or_nothing (scripted_send [3%nat]) (scripted_send [])
              logging_save test_device (sample_readings 5)
              test_live test_live fresh_world)
    as (Hcount & Hcache & _ & Hrerun); [simpl; lia|exact Hnever|].
  assert (Hfirst : fst (send_until_failure (scripted_send [3%nat]) fresh_world
                     (upload_of_cached test_device (l_recommendation test_live)
                        <$> drop (length (sample_readings 5) - 48)
                              (stored_reading <$> sample_readings 5)))
                   = false) by reflexivity.
  destruct (Hrerun Hfirst) as (Hsame & Hclear & Hzero & Hworld).
  rewrite Hfirst in Hcache.
  split; [exact Hcache|]. split; [rewrite Hsame; exact Hcount|].
  split; [exact Hzero|].
  rewrite Hworld. vm_compute. reflexivity.
Defined.

(** C1, counterexample to the clause that the cache is cleared only when
    the current live reading is uploaded successfully as well: with one
    cached reading and a sink that accepts the cached reading but rejects
    the live one, the handler has cleared the cache and saved the empty
    state although the live upload failed. *)
Lemma drain_clears_before_live_upload :
  let st := add_all (fst data_cache_init) (sample_readings 1) in
  let after :=
    connected_branch (scripted_send [2%nat]) logging_save test_device st
      test_live fresh_world in
  data_cache_count st = 1
  /\ snd after < 0
  /\ data_cache_count (fst (fst after)) = 0
  /\ snd <$> saved (snd (fst after))
     = [CacheMeta 0 0; CacheData (replicate 48 zero_reading)].
Proof. vm_compute. repeat split; reflexivity. Qed.

End MainFacts.

(** ** The status string (plant_analysis.c) *)

Module PlantAnalysisFacts.
Import CStr MlAnalysis PlantAnalysis.

(** The status of an analysis result, case by case. *)
Definition status_text (r : ml_analysis_result) : string :=
  if decide (health_status r = ML_HEALTH_CRITICAL) then "Critical"%string
  else if decide (health_status r = ML_HEALTH_STRESSED) then "Stressed"%string
  else
    let flags := environmental_mismatch r in
    if decide (mismatch_temperature flags = true
               \/ mismatch_humidity flags = true
               \/ mismatch_soil_moisture flags = true
               \/ mismatch_light_level flags = true)
    then "Adjustment Needed"%string
    else "Healthy"%string.

Definition no_nul (s : list ascii) : bool :=
  forallb (fun c => negb (Ascii.eqb c NUL)) s.

Lemma no_nul_Forall (s : list ascii) :
  no_nul s = true -> Forall (fun c => c <> NUL) s.
Proof.
  unfold no_nul. rewrite forallb_forall, Forall_forall.
  intros H c Hc%list_elem_of_In%H.
  destruct (Ascii.eqb_spec c NUL); [discriminate|done].
Qed.

Lemma status_text_cases (r : ml_analysis_result) :
  status_text r = "Critical"%string \/ status_text r = "Stressed"%string
  \/ status_text r = "Adjustment Needed"%string
  \/ status_text r = "Healthy"%string.
Proof. unfold status_text. repeat case_decide; auto. Qed.

Lemma status_text_no_nul (r : ml_analysis_result) :
  Forall (fun c => c <> NUL) (lit (status_text r)).
Proof.
  apply no_nul_Forall.
  destruct (status_text_cases r) as [-> | [-> | [-> | ->]]]; reflexivity.
Qed.

Lemma status_text_length (r : ml_analysis_result) :
  (length (lit (status_text r)) <= 17)%nat.
Proof.
  destruct (status_text_cases r) as [-> | [-> | [-> | ->]]]; simpl; lia.
Qed.

(** The text the function copies is the one [status_text] names. *)
Lemma get_status_string_text (r : ml_analysis_result) (buf : list ascii)
    (output_size : Z) :
  output_size <> 0 ->
  plant_analysis_get_status_string (Some r) (Some buf) output_size
  = (0, Some (<[ Z.to_nat (output_size - 1) := NUL ]>
                (strncpy buf (lit (status_text r))
                   (Z.to_nat (output_size - 1))))).
Proof.
  intros Hsize. unfold plant_analysis_get_status_string, status_text.
  destruct (Z.eqb_spec output_size 0); [done|].
  do 3 f_equal.
  destruct (Z.eqb_spec (health_status r) ML_HEALTH_CRITICAL);
    destruct (decide (health_status r = ML_HEALTH_CRITICAL)); try done.
  destruct (Z.eqb_spec (health_status r) ML_HEALTH_STRESSED);
    destruct (decide (health_status r = ML_HEALTH_STRESSED)); try done.
  destruct (mismatch_temperature _), (mismatch_humidity _),
    (mismatch_soil_moisture _), (mismatch_light_level _);
    cbn [orb]; destruct (decide _) as [Hd|Hd]; try reflexivity;
    exfalso; try (apply Hd; auto; fail);
    destruct Hd as [Hd | [Hd | [Hd | Hd]]]; discriminate.
Qed.

(** C10. [plant_analysis_get_status_string] returns [-EINVAL] and leaves
    the buffer alone for a null result, a null buffer or a zero size.
    Otherwise it returns 0 and the buffer is NUL-terminated at its last
    position, holding "Critical" for a Critical result, "Stressed" for a
    Stressed one, and otherwise "Adjustment Needed" if a mismatch flag is
    set and "Healthy" if none is (cut to [output_size - 1] characters when
    the buffer is shorter).  With the 32-byte buffer of the handler the
    text is complete, and so is the copy that
    [data_cache_add_reading] stores in the cached reading. *)
Theorem status_string_contract (result : option ml_analysis_result)
    (output_str : option (list ascii)) (output_size : Z)
    (r : ml_analysis_result) (buf : list ascii)
    (a : DataCache.reading_args) :
  (result = None \/ output_str = None \/ output_size = 0 ->
   plant_analysis_get_status_string result output_str output_size
   = (- EINVAL, output_str))
  /\ (0 < output_size <= Z.of_nat (length buf) ->
      exists buf',
        plant_analysis_get_status_string (Some r) (Some buf) output_size
        = (0, Some buf')
        /\ length buf' = length buf
        /\ buf' !! Z.to_nat (output_size - 1) = Some NUL
        /\ cstr buf'
           = take (Z.to_nat (output_size - 1)) (lit (status_text r))
        /\ (18 <= output_size ->
            cstr buf' = lit (status_text r)
            /\ (DataCache.a_plant_status a = cstr buf' ->
                cstr (DataCache.plant_status
                        (DataCacheFacts.stored_reading a))
                = lit (status_text r)))).
Proof.
  split.
  - intros [-> | [-> | ->]].
    + reflexivity.
    + destruct result; reflexivity.
    + destruct result, output_str; reflexivity.
  - intros Hsize. eexists. split; [apply get_status_string_text; lia|].
    pose proof (status_text_no_nul r) as Hnn.
    pose proof (status_text_length r) as Hlen.
    assert (Hcstr : cstr (<[ Z.to_nat (output_size - 1) := NUL ]>
                      (strncpy buf (lit (status_text r))
                         (Z.to_nat (output_size - 1))))
                    = take (Z.to_nat (output_size - 1)) (lit (status_text r))).
    { apply CStrFacts.cstr_strncpy_terminated; [lia|done]. }
    split; [|split; [|split; [exact Hcstr|]]].
    + rewrite length_insert, CStrFacts.strncpy_length; lia.
    + apply list_lookup_insert_eq.
      rewrite CStrFacts.strncpy_length; lia.
    + intros Hbig. rewrite Hcstr, take_ge by lia. split; [done|].
      intros Ha. unfold DataCacheFacts.stored_reading, DataCache.store_reading.
      cbn [DataCache.plant_status].
      rewrite CStrFacts.cstr_strncpy_terminated.
      * rewrite Ha, !take_ge by lia. done.
      * simpl. lia.
      * rewrite Ha, ?take_ge by lia. done.
Qed.

Definition healthy_mismatched : ml_analysis_result :=
  {| health_status := ML_HEALTH_HEALTHY;
     confidence := F32.lit 9 10;
     environmental_mismatch :=
       {| mismatch_temperature := false; mismatch_humidity := true;
          mismatch_soil_moisture := false; mismatch_light_level := false |};
     recommendation := replicate 256 NUL |}.

(** The handler's call on a Healthy result that carries a humidity
    mismatch: "Adjustment Needed" is written, and cached. *)
Lemma status_string_contract_witness :
  exists buf',
    plant_analysis_get_status_string (Some healthy_mismatched)
      (Some (replicate 32 "x"%char)) 32 = (0, Some buf')
    /\ cstr buf' = lit "Adjustment Needed"
    /\ cstr (DataCache.plant_status
               (DataCacheFacts.stored_reading
                  {| DataCache.a_soil_moisture := F32.of_Z 40;
                     DataCache.a_light_level := F32.of_Z 60;
                     DataCache.a_temperature := F32.of_Z 22;
                     DataCache.a_humidity := F32.of_Z 90;
                     DataCache.a_air_movement := F32.of_Z 10;
                     DataCache.a_timestamp := 60;
                     DataCache.a_health_status := ML_HEALTH_HEALTHY;
                     DataCache.a_env_mismatch := lit "humid";
                     DataCache.a_plant_status := lit "Adjustment Needed" |}))
      = lit "Adjustment Needed".
Proof.
  destruct (status_string_contract None None 32 healthy_mismatched
              (replicate 32 "x"%char)
              {| DataCache.a_soil_moisture := F32.of_Z 40;
                 DataCache.a_light_level := F32.of_Z 60;
                 DataCache.a_temperature := F32.of_Z 22;
                 DataCache.a_humidity := F32.of_Z 90;
                 DataCache.a_air_movement := F32.of_Z 10;
                 DataCache.a_timestamp := 60;
                 DataCache.a_health_status := ML_HEALTH_HEALTHY;
                 DataCache.a_env_mismatch := lit "humid";
                 DataCache.a_plant_status := lit "Adjustment Needed" |})
    as [_ H].
  destruct H as (buf' & Hcall & _ & _ & _ & Hfull); [simpl; lia|].
  destruct Hfull as [Htext Hcache]; [lia|].
  exists buf'. split; [exact Hcall|]. split; [exact Htext|].
  apply Hcache. rewrite Htext. reflexivity.
Defined.

End PlantAnalysisFacts.

(** ** The hourly history and the feature vector (ml_analysis.c) *)

Module MlAnalysisFacts.
Import CStr MlAnalysis.

(** What [memset(&sensor_data, 0, ..)] of plant_analysis_init leaves. *)
Definition zero_sensor_data : sensor_data_with_history :=
  {| soil_moisture := F32.zero; light_level := F32.zero;
     temperature := F32.zero; humidity := F32.zero;
     air_movement := F32.zero; timestamp := 0;
     history := replicate 5 no_history |}.

(** The gate of [ml_add_sensor_reading], as written in the source. *)
Definition gate_open (last_hourly_update now : Z) : Prop :=
  last_hourly_update = 0 \/ 3600 <= now - last_hourly_update.

#[local] Instance gate_open_dec last now : Decision (gate_open last now).
Proof. unfold gate_open. apply _. Defined.

Lemma alter_five (f0 f1 f2 f3 f4 : channel_history -> channel_history)
    (hs : list channel_history) :
  length hs = 5%nat ->
  alter f4 4%nat (alter f3 3%nat (alter f2 2%nat (alter f1 1%nat
    (alter f0 0%nat hs))))
  = zip_with (fun f h => f h) [f0; f1; f2; f3; f4] hs.
Proof.
  intros Hlen.
  destruct hs as [|h0 [|h1 [|h2 [|h3 [|h4 [|h5 hs]]]]]]; try discriminate.
  reflexivity.
Qed.

Lemma gate_test (last_hourly_update now : Z) :
  (last_hourly_update =? 0) || (3600 <=? now - last_hourly_update)
  = bool_decide (gate_open last_hourly_update now).
Proof.
  unfold gate_open. destruct (Z.eqb_spec last_hourly_update 0);
    destruct (Z.leb_spec 3600 (now - last_hourly_update)); simpl;
    symmetry; (apply bool_decide_eq_true_2 || apply bool_decide_eq_false_2);
    lia.
Qed.

Lemma append_five (soil light temp hum air : float)
    (hs : list channel_history) :
  length hs = 5%nat ->
  alter (history_append air) 4%nat
    (alter (history_append hum) 3%nat
       (alter (history_append temp) 2%nat
          (alter (history_append light) 1%nat
             (alter (history_append soil) 0%nat hs))))
  = zip_with history_append [soil; light; temp; hum; air] hs.
Proof.
  intros Hlen. rewrite alter_five by done.
  by destruct hs as [|? [|? [|? [|? [|? ?]]]]].
Qed.

(** A call that passes the gate appends to the five histories. *)
Lemma add_sensor_reading_appends (last_hourly_update uptime_ms : Z)
    (sd : sensor_data_with_history) (soil light temp hum air : float) :
  length (history sd) = 5%nat ->
  gate_open last_hourly_update (Z.quot uptime_ms 1000) ->
  exists sd',
    ml_add_sensor_reading last_hourly_update uptime_ms (Some sd)
      soil light temp hum air = (Z.quot uptime_ms 1000, Some sd', 0)
    /\ history sd'
       = zip_with history_append [soil; light; temp; hum; air] (history sd).
Proof.
  intros Hlen Hopen. unfold ml_add_sensor_reading.
  rewrite gate_test, bool_decide_eq_true_2 by done.
  eexists. split; [reflexivity|]. by apply append_five.
Qed.

(** One call, for any value of the static timestamp: it returns 0 and
    sets the five current values; the test of the source decides whether
    the five histories and the timestamp all change or all stay. *)
Lemma add_sensor_reading_gate (last_hourly_update uptime_ms : Z)
    (sd : sensor_data_with_history) (soil light temp hum air : float) :
  length (history sd) = 5%nat ->
  let now := Z.quot uptime_ms 1000 in
  exists sd',
    ml_add_sensor_reading last_hourly_update uptime_ms (Some sd)
      soil light temp hum air
    = (if decide (gate_open last_hourly_update now)
       then now else last_hourly_update, Some sd', 0)
    /\ (soil_moisture sd' = soil /\ light_level sd' = light
        /\ temperature sd' = temp /\ humidity sd' = hum
        /\ air_movement sd' = air)
    /\ history sd'
       = (if decide (gate_open last_hourly_update now)
          then zip_with history_append [soil; light; temp; hum; air]
                 (history sd)
          else history sd)
    /\ (forall i h', history sd' !! i = Some h' ->
        exists h, history sd !! i = Some h
          /\ index h'
             = if decide (gate_open last_hourly_update now)
               then Z.rem (index h + 1) 24 else index h).
Proof.
  intros Hlen now. unfold ml_add_sensor_reading. fold now.
  rewrite gate_test.
  destruct (decide (gate_open last_hourly_update now)) as [Hopen|Hshut];
    [rewrite bool_decide_eq_true_2 by done
    |rewrite bool_decide_eq_false_2 by done];
    eexists; (split; [reflexivity|]); cbn [soil_moisture light_level
      temperature humidity air_movement history]; (split; [done|]).
  - rewrite append_five by done. split; [done|].
    intros i h' Hi. apply lookup_zip_with_Some in Hi
      as (v & h & -> & _ & Hh). by exists h.
  - split; [done|]. intros i h' Hi. by exists h'.
Qed.

Definition sample_sensor_data : sensor_data_with_history :=
  {| soil_moisture := F32.of_Z 40; light_level := F32.of_Z 60;
     temperature := F32.of_Z 22; humidity := F32.of_Z 55;
     air_movement := F32.of_Z 10; timestamp := 0;
     history := replicate 5 no_history |}.

(** C8, counterexample to "appends only when
    [now - last_hourly_update >= 3600]": the first call after boot, 10 s
    of uptime, finds the static timestamp at 0; the difference is 10, yet
    all five cursors advance. *)
Lemma hourly_gate_first_call :
  let now := Z.quot 10000 1000 in
  now - 0 < 3600
  /\ exists sd',
       ml_add_sensor_reading 0 10000 (Some zero_sensor_data)
         (F32.of_Z 40) (F32.of_Z 60) (F32.of_Z 22) (F32.of_Z 55) (F32.of_Z 10)
       = (now, Some sd', 0)
       /\ index <$> history zero_sensor_data = [0; 0; 0; 0; 0]
       /\ index <$> history sd' = [1; 1; 1; 1; 1].
Proof.
  split; [reflexivity|]. eexists. split; [reflexivity|].
  split; reflexivity.
Qed.

(** The habitat range and the reading of the worked example; the range
    is also the device-wide default of plant_analysis.c. *)
Definition example_habitat : habitat_data :=
  {| ideal_temperature_min := F32.of_Z 18;
     ideal_temperature_max := F32.of_Z 26;
     ideal_humidity_min := F32.of_Z 40;
     ideal_humidity_max := F32.of_Z 70;
     ideal_soil_moisture_min := F32.of_Z 30;
     ideal_soil_moisture_max := F32.of_Z 70;
     ideal_light_level_min := F32.of_Z 30;
     ideal_light_level_max := F32.of_Z 80 |}.

(** The vector the specification lists for the example; -2.5 is -5/2. *)
Definition listed_vector : list float :=
  [ F32.of_Z 40; F32.of_Z 60; F32.of_Z 22; F32.of_Z 55; F32.of_Z 10;
    F32.of_Z (-10); F32.of_Z 5; F32.zero; F32.lit (-5) 2; F32.zero;
    F32.of_Z 40; F32.of_Z 60; F32.of_Z 22; F32.of_Z 55; F32.of_Z 10 ].

(** C6, counterexample: for the reading and the range of the example the
    humidity offset (index 8) is 55 - (40 + 70) / 2 = 0, not -2.5, so the
    vector assembled differs from the one listed. *)
Lemma feature_vector_humidity_offset :
  model_input sample_sensor_data example_habitat !! 8%nat = Some F32.zero
  /\ listed_vector !! 8%nat = Some (F32.lit (-5) 2)
  /\ model_input sample_sensor_data example_habitat <> listed_vector.
Proof.
  split; [reflexivity|]. split; [reflexivity|].
  intros H. apply (f_equal (fun v => v !! 8%nat)) in H.
  vm_compute in H. discriminate.
Qed.

(** C6, as the classifier implements it.  The model input has 15
    elements: the five current values (moisture, light, temperature,
    humidity, air), the four offsets from the midpoints of the habitat
    ranges and the constant 0 for air, and the five averages of the hourly
    histories, each replaced by the current value while its history is
    empty.  This is the vector handed to the inference capability.  For
    the example reading and range without history it is
    [40,60,22,55,10, -10,5,0,0,0, 40,60,22,55,10], and the same after the
    first [ml_add_sensor_reading] of that reading. *)
Theorem feature_vector_layout :
  (forall (sd : sensor_data_with_history) (hd : habitat_data),
     model_input sd hd
     = [ soil_moisture sd; light_level sd; temperature sd; humidity sd;
         air_movement sd;
         compute_moisture_diff (soil_moisture sd) hd;
         compute_light_diff (light_level sd) hd;
         compute_temp_diff (temperature sd) hd;
         compute_humidity_diff (humidity sd) hd;
         F32.zero;
         history_average (default no_history (history sd !! 0%nat))
           (soil_moisture sd);
         history_average (default no_history (history sd !! 1%nat))
           (light_level sd);
         history_average (default no_history (history sd !! 2%nat))
           (temperature sd);
         history_average (default no_history (history sd !! 3%nat))
           (humidity sd);
         history_average (default no_history (history sd !! 4%nat))
           (air_movement sd) ])
  /\ (forall infer sd hd out,
        ml_analyze_plant_health infer (Some sd) (Some hd) (Some out)
        = ml_analyze_plant_health (fun _ => infer (model_input sd hd))
            (Some sd) (Some hd) (Some out))
  /\ model_input sample_sensor_data example_habitat
     = [ F32.of_Z 40; F32.of_Z 60; F32.of_Z 22; F32.of_Z 55; F32.of_Z 10;
         F32.of_Z (-10); F32.of_Z 5; F32.zero; F32.zero; F32.zero;
         F32.of_Z 40; F32.of_Z 60; F32.of_Z 22; F32.of_Z 55; F32.of_Z 10 ]
  /\ (exists sd',
        ml_add_sensor_reading 0 10000 (Some zero_sensor_data)
          (F32.of_Z 40) (F32.of_Z 60) (F32.of_Z 22) (F32.of_Z 55)
          (F32.of_Z 10) = (10, Some sd', 0)
        /\ model_input sd' example_habitat
           = model_input sample_sensor_data example_habitat).
Proof.
  split; [reflexivity|]. split; [reflexivity|]. split; [reflexivity|].
  eexists. split; reflexivity.
Qed.

(** *** Mismatch flags and the recommendation text *)

(** A reading inside all four habitat ranges. *)
Definition in_all_ranges (sd : sensor_data_with_history) (hd : habitat_data)
  : bool :=
  F32.le (ideal_temperature_min hd) (temperature sd)
  && F32.le (temperature sd) (ideal_temperature_max hd)
  && F32.le (ideal_humidity_min hd) (humidity sd)
  && F32.le (humidity sd) (ideal_humidity_max hd)
  && F32.le (ideal_soil_moisture_min hd) (soil_moisture sd)
  && F32.le (soil_moisture sd) (ideal_soil_moisture_max hd)
  && F32.le (ideal_light_level_min hd) (light_level sd)
  && F32.le (light_level sd) (ideal_light_level_max hd).

Definition range_flags (sd : sensor_data_with_history) (hd : habitat_data)
  : mismatch :=
  {| mismatch_temperature := is_temp_mismatch (temperature sd) hd;
     mismatch_humidity := is_humidity_mismatch (humidity sd) hd;
     mismatch_soil_moisture := is_moisture_mismatch (soil_moisture sd) hd;
     mismatch_light_level := is_light_mismatch (light_level sd) hd |}.

Definition no_mismatch : mismatch :=
  {| mismatch_temperature := false; mismatch_humidity := false;
     mismatch_soil_moisture := false; mismatch_light_level := false |}.

Lemma in_all_ranges_no_mismatch (sd : sensor_data_with_history)
    (hd : habitat_data) :
  in_all_ranges sd hd = true -> range_flags sd hd = no_mismatch.
Proof.
  unfold in_all_ranges. rewrite !andb_true_iff.
  intros [[[[[[[H1 H2] H3] H4] H5] H6] H7] H8].
  unfold range_flags, no_mismatch, is_temp_mismatch, is_humidity_mismatch,
    is_moisture_mismatch, is_light_mismatch.
  by rewrite (F32Facts.le_not_lt _ _ H1), (F32Facts.le_not_gt _ _ H2),
    (F32Facts.le_not_lt _ _ H3), (F32Facts.le_not_gt _ _ H4),
    (F32Facts.le_not_lt _ _ H5), (F32Facts.le_not_gt _ _ H6),
    (F32Facts.le_not_lt _ _ H7), (F32Facts.le_not_gt _ _ H8).
Qed.

(** Whatever the inference capability answers, a successful analysis
    stores the flags of the range comparison. *)
Lemma mismatch_flags_from_ranges (infer : list float -> Z * list float)
    (sd : sensor_data_with_history) (hd : habitat_data)
    (out res : ml_analysis_result) :
  ml_analyze_plant_health infer (Some sd) (Some hd) (Some out)
  = (0, Some res) ->
  environmental_mismatch res = range_flags sd hd.
Proof.
  unfold ml_analyze_plant_health.
  destruct (infer _) as [ret model_output].
  destruct (Z.ltb_spec ret 0); [intros [= ? ?]; lia|].
  destruct (foldl _ _ _) as [max_prob health_class].
  intros [= <-]. unfold generate_recommendations. cbn [environmental_mismatch].
  by destruct (if _ =? _ then _ else _).
Qed.

(** The phrases for the flags that are set, in the order of the source. *)
Definition phrases (flags : mismatch) : list ascii :=
  (if mismatch_temperature flags then lit "Adjust temperature. " else [])
  ++ (if mismatch_humidity flags then lit "Adjust humidity level. " else [])
  ++ (if mismatch_soil_moisture flags
      then lit "Adjust watering schedule. " else [])
  ++ (if mismatch_light_level flags then lit "Adjust light exposure. " else []).

(** On a result whose text buffer is zeroed (as the handler's static
    result is at boot) the text is "Plant is healthy. " for the Healthy
    class and the phrases of the set flags for any other class. *)
Lemma recommendation_on_zeroed_buffer (status : Z) (conf : float)
    (flags : mismatch) :
  cstr (recommendation
          (generate_recommendations
             {| health_status := status; confidence := conf;
                environmental_mismatch := flags;
                recommendation := replicate 256 NUL |}))
  = if decide (status = ML_HEALTH_HEALTHY) then lit "Plant is healthy. "
    else phrases flags.
Proof.
  unfold generate_recommendations. cbn [health_status environmental_mismatch].
  destruct (Z.eqb_spec status ML_HEALTH_HEALTHY);
    destruct (decide (status = ML_HEALTH_HEALTHY)); try contradiction.
  - clear. vm_compute. reflexivity.
  - clear. destruct flags as [[] [] [] []]; vm_compute; reflexivity.
Qed.

(** An inference capability that always answers with the given
    probabilities. *)
Definition answers (p_healthy p_stressed p_critical : float)
  : list float -> Z * list float :=
  fun _ => (0, [p_healthy; p_stressed; p_critical]).

Definition zero_result : ml_analysis_result :=
  {| health_status := 0; confidence := F32.zero;
     environmental_mismatch := no_mismatch;
     recommendation := replicate 256 NUL |}.

(** C9, the failing run: two ticks on the handler's one result
    structure, the reading inside all ranges both times.  The first tick
    is classified Healthy and writes "Plant is healthy. ".  The second is
    classified Stressed; its flags are all false, no phrase is written and
    no terminator either, so the result still carries
    "Plant is healthy. " -- which the handler uploads as the
    recommendation of the Stressed reading. *)
Theorem stressed_reading_keeps_healthy_text :
  in_all_ranges sample_sensor_data example_habitat = true
  /\ exists first second,
       ml_analyze_plant_health
         (answers (F32.lit 8 10) (F32.lit 1 10) (F32.lit 1 10))
         (Some sample_sensor_data) (Some example_habitat) (Some zero_result)
       = (0, Some first)
       /\ health_status first = ML_HEALTH_HEALTHY
       /\ ml_analyze_plant_health
            (answers (F32.lit 1 10) (F32.lit 8 10) (F32.lit 1 10))
            (Some sample_sensor_data) (Some example_habitat) (Some first)
          = (0, Some second)
       /\ health_status second = ML_HEALTH_STRESSED
       /\ environmental_mismatch second = no_mismatch
       /\ cstr (recommendation second) = lit "Plant is healthy. ".
Proof.
  split; [reflexivity|]. eexists. eexists.
  split; [reflexivity|]. split; [reflexivity|].
  split; [reflexivity|]. split; [reflexivity|].
  split; [reflexivity|]. vm_compute. reflexivity.
Qed.

(** *** Rolling averages *)

(** The single-precision mean as the code computes it: the values are
    added from left to right, starting from 0.0f, and the sum is divided
    by their number. *)
Definition fsum (l : list float) : float := foldl F32.add F32.zero l.

Definition fmean (l : list float) : float :=
  F32.div (fsum l) (F32.of_Z (Z.of_nat (length l))).

(** The populated slots of a channel history, in slot order. *)
Definition populated (h : channel_history) : list float :=
  take (if filled h then 24 else Z.to_nat (index h)) (values h).

Record history_wf (h : channel_history) : Prop := {
  history_wf_length : length (values h) = 24%nat;
  history_wf_index : 0 <= index h < 24
}.

Lemma history_sum_loop_spec (vals : list float) (n : nat) :
  forall (j : nat) (sum : float) (count : Z),
    (j + n <= length vals)%nat ->
    history_sum_loop n j vals sum count
    = (foldl F32.add sum (take n (drop j vals)), count + Z.of_nat n).
Proof.
  induction n as [|n IH]; intros j sum count Hlen.
  - simpl. f_equal. lia.
  - cbn [history_sum_loop]. rewrite IH by lia.
    destruct (lookup_lt_is_Some_2 vals j) as [v Hv]; [lia|].
    rewrite Hv, (drop_S vals v j Hv). simpl. f_equal. lia.
Qed.

Lemma history_average_spec (h : channel_history) (current : float) :
  history_wf h ->
  history_average h current
  = if decide (populated h = []) then current else fmean (populated h).
Proof.
  intros [Hlen Hidx]. unfold history_average, populated, fmean, fsum.
  set (n := if filled h then 24 else index h).
  assert (Hn : (if filled h then 24%nat else Z.to_nat (index h)) = Z.to_nat n)
    by (unfold n; by destruct (filled h)).
  rewrite Hn.
  assert (Hbound : (Z.to_nat n <= 24)%nat) by (unfold n; destruct (filled h); lia).
  rewrite history_sum_loop_spec by lia. rewrite drop_0, length_take, Hlen.
  replace (0 + Z.of_nat (Z.to_nat n)) with (Z.of_nat (Z.to_nat n)) by lia.
  destruct (decide (take (Z.to_nat n) (values h) = [])) as [Hnil|Hcons].
  - apply (f_equal length) in Hnil. rewrite length_take in Hnil. simpl in Hnil.
    destruct (Z.ltb_spec 0 (Z.of_nat (Z.to_nat n))); [lia|done].
  - destruct (Z.ltb_spec 0 (Z.of_nat (Z.to_nat n))) as [Hpos|Hzero].
    + by rewrite Nat.min_l by lia.
    + exfalso. apply Hcons. replace (Z.to_nat n) with 0%nat by lia. done.
Qed.

(** The history of a channel after the values [vs] were appended to the
    empty history, oldest first. *)
Definition appended_to (h : channel_history) (vs : list float)
  : channel_history :=
  foldl (fun h v => history_append v h) h vs.

(** The live values of a history, oldest first. *)
Definition chronological (h : channel_history) : list float :=
  Ring.ring_view (filled h) (Z.to_nat (index h)) (values h).

Lemma history_append_wf (v : float) (h : channel_history) :
  history_wf h -> history_wf (history_append v h).
Proof.
  intros [Hlen Hidx]. split; simpl.
  - by rewrite length_insert.
  - rewrite Z.rem_mod_nonneg by lia. apply Z.mod_pos_bound. lia.
Qed.

Lemma history_append_chronological (v : float) (h : channel_history) :
  history_wf h ->
  chronological (history_append v h)
  = drop (length (chronological h) + 1 - 24) (chronological h ++ [v]).
Proof.
  intros [Hlen Hidx]. unfold chronological.
  pose proof (Ring.ring_put_view (values h) (Z.to_nat (index h)) v (filled h))
    as Hput.
  cbv zeta in Hput. rewrite Hlen in Hput. rewrite <- Hput by lia. clear Hput.
  cbn [history_append values index filled].
  rewrite Z.rem_mod_nonneg by lia.
  assert (Hi : Z.to_nat ((index h + 1) mod 24)
               = ((Z.to_nat (index h) + 1) mod 24)%nat).
  { rewrite Z2Nat.inj_mod, Z2Nat.inj_add by lia. reflexivity. }
  rewrite Hi. f_equal.
  assert (Hz : ((index h + 1) mod 24 =? 0)
               = ((Z.to_nat (index h) + 1) mod 24 =? 0)%nat).
  { rewrite <- Hi.
    pose proof (Z.mod_pos_bound (index h + 1) 24 ltac:(lia)).
    destruct (Z.eqb_spec ((index h + 1) mod 24) 0) as [->|Hne]; [done|].
    symmetry. apply Nat.eqb_neq. lia. }
  rewrite <- Hz. destruct (_ =? 0), (filled h); reflexivity.
Qed.

Lemma appended_to_snoc (h : channel_history) (vs : list float) (v : float) :
  appended_to h (vs ++ [v]) = history_append v (appended_to h vs).
Proof. unfold appended_to. by rewrite foldl_snoc. Qed.

Lemma no_history_wf : history_wf no_history.
Proof. split; simpl; [done|lia]. Qed.

(** After [N] appends the cursor is at [N mod 24], the filled mark is set
    once [N >= 24], and the live values are the last 24 appended. *)
Lemma appended_spec (vs : list float) :
  let h := appended_to no_history vs in
  history_wf h
  /\ index h = Z.of_nat (length vs mod 24)
  /\ filled h = bool_decide (24 <= length vs)%nat
  /\ chronological h = drop (length vs - 24) vs.
Proof.
  induction vs as [|v vs IH] using rev_ind.
  - split; [exact no_history_wf|]. by repeat split.
  - destruct IH as (Hwf & Hidx & Hfill & Hchr).
    rewrite appended_to_snoc.
    split; [by apply history_append_wf|].
    assert (Hidx' : index (history_append v (appended_to no_history vs))
                    = Z.of_nat (length (vs ++ [v]) mod 24)).
    { cbn [history_append index]. rewrite Hidx, length_app. simpl length.
      rewrite Z.rem_mod_nonneg by lia.
      change 24 with (Z.of_nat 24). change 1 with (Z.of_nat 1).
      rewrite <- Nat2Z.inj_add, <- Nat2Z.inj_mod.
      by rewrite Nat.Div0.add_mod_idemp_l. }
    split; [exact Hidx'|]. split.
    + cbn [history_append filled]. fold (index (history_append v (appended_to no_history vs))).
      change (Z.rem (index (appended_to no_history vs) + 1) 24)
        with (index (history_append v (appended_to no_history vs))).
      rewrite Hidx', Hfill, length_app. simpl length.
      pose proof (Nat.mod_upper_bound (length vs + 1) 24 ltac:(lia)).
      destruct (Z.eqb_spec (Z.of_nat ((length vs + 1) mod 24)) 0) as [Hz|Hnz].
      * symmetry. apply bool_decide_eq_true_2.
        assert ((length vs + 1) mod 24 = 0)%nat as Hm by lia.
        apply Nat.Div0.mod_divides in Hm as [c Hc]. lia.
      * apply bool_decide_ext. split; [lia|]. intros Hge.
        destruct (decide (24 <= length vs)%nat); [done|].
        exfalso. apply Hnz. replace (length vs + 1)%nat with 24%nat by lia.
        reflexivity.
    + rewrite history_append_chronological by done.
      rewrite Hchr, length_drop, length_app. simpl length.
      destruct (decide (length vs < 24)%nat).
      * replace (length vs - 24)%nat with 0%nat by lia.
        replace (length vs - 0 + 1 - 24)%nat with 0%nat by lia.
        replace (length vs + 1 - 24)%nat with 0%nat by lia.
        by rewrite !drop_0.
      * replace (length vs - (length vs - 24) + 1 - 24)%nat with 1%nat by lia.
        rewrite (drop_app_le _ _ (length vs + 1 - 24)) by lia.
        rewrite drop_app_le by (rewrite length_drop; lia).
        rewrite drop_drop. f_equal. f_equal. lia.
Qed.

(** The last [min N 24] of [N] appended values in the order of the slots
    that hold them: up to 24 values in the order written, beyond that
    the last 24 rotated so that slot 0 comes first. *)
Definition slot_order (vs : list float) : list float :=
  if decide (length vs < 24)%nat then vs
  else
    let last24 := drop (length vs - 24) vs in
    let r := (length vs mod 24)%nat in
    drop (24 - r) last24 ++ take (24 - r) last24.

Lemma slot_order_permutation (vs : list float) :
  slot_order vs ≡ₚ drop (length vs - 24) vs.
Proof.
  unfold slot_order. case_decide.
  - by replace (length vs - 24)%nat with 0%nat by lia.
  - rewrite Permutation_app_comm. by rewrite take_drop.
Qed.

Lemma slot_order_short (vs : list float) :
  (length vs <= 24)%nat -> slot_order vs = vs.
Proof.
  intros Hle. unfold slot_order. case_decide; [done|].
  assert (length vs = 24%nat) as Hlen by lia. rewrite Hlen.
  change (24 mod 24)%nat with 0%nat. change (24 - 24)%nat with 0%nat.
  rewrite drop_0, Nat.sub_0_r, drop_ge, take_ge by lia. done.
Qed.

Lemma populated_appended (vs : list float) :
  populated (appended_to no_history vs) = slot_order vs.
Proof.
  destruct (appended_spec vs) as ([Hlen Hi] & Hidx & Hfill & Hchr).
  unfold populated, slot_order, chronological, Ring.ring_view in *.
  rewrite Hfill in *. rewrite Hidx in *. rewrite Nat2Z.id in *.
  pose proof (Nat.mod_upper_bound (length vs) 24 ltac:(lia)) as Hr.
  destruct (decide (length vs < 24)%nat) as [Hshort|Hlong].
  - rewrite bool_decide_eq_false_2 in * by lia.
    rewrite Hchr. replace (length vs - 24)%nat with 0%nat by lia. done.
  - rewrite bool_decide_eq_true_2 in * by lia.
    rewrite <- Hchr. set (r := (length vs mod 24)%nat) in *.
    set (l := values (appended_to no_history vs)) in *.
    rewrite take_ge by lia.
    rewrite drop_app_length', take_app_length'
      by (rewrite length_drop; lia).
    by rewrite take_drop.
Qed.

(** One sampling tick as the history store sees it. *)
Record reading := {
  r_uptime_ms : Z;
  r_soil_moisture : float;
  r_light_level : float;
  r_temperature : float;
  r_humidity : float;
  r_air_movement : float
}.

Definition channel_value (i : nat) (r : reading) : float :=
  match i with
  | 0%nat => r_soil_moisture r
  | 1%nat => r_light_level r
  | 2%nat => r_temperature r
  | 3%nat => r_humidity r
  | _ => r_air_movement r
  end.

(** [ml_add_sensor_reading] on the static timestamp and the sensor data
    of plant_analysis.c. *)
Definition record_reading (st : Z * sensor_data_with_history) (r : reading)
  : Z * sensor_data_with_history :=
  let '(last_hourly_update, sensor_data, _) :=
    ml_add_sensor_reading (fst st) (r_uptime_ms r) (Some (snd st))
      (r_soil_moisture r) (r_light_level r) (r_temperature r)
      (r_humidity r) (r_air_movement r) in
  (last_hourly_update, default (snd st) sensor_data).

Definition record_all (st : Z * sensor_data_with_history)
    (rs : list reading) : Z * sensor_data_with_history :=
  foldl record_reading st rs.

(** Consecutive readings are at least one hour apart (in the whole
    seconds the function computes with). *)
Fixpoint hourly_spaced (uptimes : list Z) : bool :=
  match uptimes with
  | t :: ((t' :: _) as rest) =>
      (3600 <=? Z.quot t' 1000 - Z.quot t 1000) && hourly_spaced rest
  | _ => true
  end.

Lemma record_all_history (rs : list reading) :
  forall (last : Z) (sd : sensor_data_with_history),
    length (history sd) = 5%nat ->
    hourly_spaced (r_uptime_ms <$> rs) = true ->
    match rs with
    | [] => True
    | r :: _ => gate_open last (Z.quot (r_uptime_ms r) 1000)
    end ->
    history (snd (record_all (last, sd) rs))
    = imap (fun i h => appended_to h (channel_value i <$> rs)) (history sd).
Proof.
  induction rs as [|r rs IH]; intros last sd Hlen Hspaced Hgate.
  - simpl. by destruct (history sd) as [|? [|? [|? [|? [|? [|? ?]]]]]].
  - cbn [record_all foldl]. fold (record_all (record_reading (last, sd) r) rs).
    destruct (add_sensor_reading_appends last (r_uptime_ms r) sd
                (r_soil_moisture r) (r_light_level r) (r_temperature r)
                (r_humidity r) (r_air_movement r) Hlen Hgate)
      as (sd' & Hcall & Hhist).
    unfold record_reading. cbn [fst snd]. rewrite Hcall. cbn [default].
    assert (Hlen' : length (history sd') = 5%nat).
    { rewrite Hhist.
      by destruct (history sd) as [|? [|? [|? [|? [|? [|? ?]]]]]]. }
    rewrite IH; [| done | |].
    + unfold id. rewrite Hhist.
      by destruct (history sd) as [|? [|? [|? [|? [|? [|? ?]]]]]].
    + destruct rs as [|r' rs]; [done|].
      simpl in Hspaced. by apply andb_true_iff in Hspaced as [_ ?].
    + destruct rs as [|r' rs]; [done|].
      simpl in Hspaced. apply andb_true_iff in Hspaced as [Hstep _].
      right. by apply Z.leb_le.
Qed.

Lemma record_reading_gate (last : Z) (sd : sensor_data_with_history)
    (r : reading) :
  fst (record_reading (last, sd) r)
  = if decide (gate_open last (Z.quot (r_uptime_ms r) 1000))
    then Z.quot (r_uptime_ms r) 1000 else last.
Proof.
  unfold record_reading, ml_add_sensor_reading. cbn [fst snd].
  rewrite gate_test.
  destruct (decide (gate_open last (Z.quot (r_uptime_ms r) 1000)));
    [rewrite bool_decide_eq_true_2 by done
    |rewrite bool_decide_eq_false_2 by done]; reflexivity.
Qed.

Lemma record_reading_length (st : Z * sensor_data_with_history)
    (r : reading) :
  length (history (snd (record_reading st r))) = length (history (snd st)).
Proof.
  unfold record_reading, ml_add_sensor_reading.
  destruct ((fst st =? 0) || _); cbn [snd default id history];
    by rewrite ?length_alter.
Qed.

Lemma record_all_length (rs : list reading) :
  forall st : Z * sensor_data_with_history,
    length (history (snd (record_all st rs))) = length (history (snd st)).
Proof.
  induction rs as [|r rs IH]; intros st; [done|].
  cbn [record_all foldl]. fold (record_all (record_reading st r) rs).
  by rewrite IH, record_reading_length.
Qed.

(** The static timestamp is 0 only before the first call or after an
    append made during uptime second 0. *)
Lemma record_all_timestamp (rs : list reading) :
  forall (last : Z) (sd : sensor_data_with_history),
    Forall (fun r => Z.quot (r_uptime_ms r) 1000 <> 0) rs ->
    last <> 0 \/ rs <> [] ->
    fst (record_all (last, sd) rs) <> 0.
Proof.
  induction rs as [|r rs IH]; intros last sd Hrs Hne.
  - simpl. by destruct Hne.
  - apply Forall_cons in Hrs as [Hr Hrs].
    cbn [record_all foldl]. fold (record_all (record_reading (last, sd) r) rs).
    pose proof (record_reading_gate last sd r) as Hfst.
    destruct (record_reading (last, sd) r) as [last1 sd1]. cbn [fst] in Hfst.
    apply IH; [done|]. left. subst last1.
    destruct (decide (gate_open last (Z.quot (r_uptime_ms r) 1000)))
      as [_|Hshut]; [done|].
    intros ->. apply Hshut. by left.
Qed.

(** C8, as the function implements it.  The static timestamp
    [last_hourly_update] is 0 at boot and is set to [now] by each append;
    the statement is about a call made after any run [rs] of earlier
    calls since boot.  The call returns 0 and sets the five current
    values to its arguments.  The one timestamp gates the five channels
    together: either each of the five histories receives its value and
    moves its cursor to [(index + 1) % 24] and the timestamp becomes
    [now], or the five histories (so their cursors) and the timestamp
    stay as they are.  The first call after boot appends.  When the
    latest append was recorded at a non-zero uptime second
    ([last_hourly_update <> 0]), the call appends if
    [now - last_hourly_update >= 3600] and advances no cursor if
    [now - last_hourly_update < 3600].  The timestamp is non-zero after
    at least one call when no call was made during uptime second 0. *)
Theorem hourly_gate (sd0 : sensor_data_with_history) (rs : list reading)
    (uptime_ms : Z) (soil light temp hum air : float) :
  length (history sd0) = 5%nat ->
  let last_hourly_update := fst (record_all (0, sd0) rs) in
  let sd := snd (record_all (0, sd0) rs) in
  let now := Z.quot uptime_ms 1000 in
  exists last' sd',
    ml_add_sensor_reading last_hourly_update uptime_ms (Some sd)
      soil light temp hum air = (last', Some sd', 0)
    /\ (soil_moisture sd' = soil /\ light_level sd' = light
        /\ temperature sd' = temp /\ humidity sd' = hum
        /\ air_movement sd' = air)
    /\ let all_advance :=
         last' = now
         /\ history sd'
            = zip_with history_append [soil; light; temp; hum; air]
                (history sd)
         /\ Forall2 (fun h h' => index h' = Z.rem (index h + 1) 24)
              (history sd) (history sd') in
       let none_advances :=
         last' = last_hourly_update
         /\ history sd' = history sd
         /\ Forall2 (fun h h' => index h' = index h)
              (history sd) (history sd') in
       length (history sd) = 5%nat
       /\ (all_advance \/ none_advances)
       /\ (rs = [] -> all_advance)
       /\ (last_hourly_update <> 0 -> 3600 <= now - last_hourly_update ->
           all_advance)
       /\ (last_hourly_update <> 0 -> now - last_hourly_update < 3600 ->
           none_advances)
       /\ (rs <> [] ->
           Forall (fun r => Z.quot (r_uptime_ms r) 1000 <> 0) rs ->
           last_hourly_update <> 0).
Proof.
  intros Hlen0 last sd now.
  assert (Hlen : length (history sd) = 5%nat).
  { unfold sd. by rewrite record_all_length. }
  assert (Hfirst : rs = [] -> last = 0).
  { intros ->. reflexivity. }
  destruct (add_sensor_reading_gate last uptime_ms sd soil light temp hum air
              Hlen) as (sd' & Hcall & Hcur & Hhist & _).
  fold now in Hcall, Hhist.
  exists (if decide (gate_open last now) then now else last), sd'.
  split; [exact Hcall|]. split; [exact Hcur|]. cbv zeta.
  split; [exact Hlen|].
  assert (Hopen : gate_open last now ->
            (if decide (gate_open last now) then now else last) = now
            /\ history sd'
               = zip_with history_append [soil; light; temp; hum; air]
                   (history sd)
            /\ Forall2 (fun h h' => index h' = Z.rem (index h + 1) 24)
                 (history sd) (history sd')).
  { intros Hg. rewrite Hhist. rewrite !decide_True by done.
    split; [done|]. split; [done|].
    destruct (history sd) as [|h0 [|h1 [|h2 [|h3 [|h4 [|h5 hs]]]]]];
      try discriminate.
    repeat constructor. }
  assert (Hshut : ~ gate_open last now ->
            (if decide (gate_open last now) then now else last) = last
            /\ history sd' = history sd
            /\ Forall2 (fun h h' => index h' = index h)
                 (history sd) (history sd')).
  { intros Hg. rewrite Hhist. rewrite !decide_False by done.
    split; [done|]. split; [done|].
    apply Forall2_same_length_lookup_2; [done|].
    intros i h h' Hh Hh'. congruence. }
  split; [|split; [|split; [|split]]].
  - destruct (decide (gate_open last now)); [left|right]; auto.
  - intros Hrs. apply Hopen. left. by apply Hfirst.
  - intros _ Hdue. apply Hopen. by right.
  - intros Hlast Hearly. apply Hshut. unfold gate_open. lia.
  - intros Hne Hrs. apply record_all_timestamp; [done|by right].
Qed.

(** The first reading, 100 s after boot, and a reading 20 minutes after
    it. *)
Definition first_reading : reading :=
  {| r_uptime_ms := 100000;
     r_soil_moisture := F32.of_Z 40; r_light_level := F32.of_Z 60;
     r_temperature := F32.of_Z 22; r_humidity := F32.of_Z 55;
     r_air_movement := F32.of_Z 10 |}.

(** After the first reading the timestamp is 100 and the five cursors are
    at 1; the reading 20 minutes later changes the current values and
    leaves the timestamp and the five cursors where they are. *)
Lemma hourly_gate_witness :
  record_all (0, zero_sensor_data) [first_reading]
  = (100, snd (record_all (0, zero_sensor_data) [first_reading]))
  /\ index <$> history (snd (record_all (0, zero_sensor_data) [first_reading]))
     = [1; 1; 1; 1; 1]
  /\ exists sd',
       ml_add_sensor_reading 100 1300000
         (Some (snd (record_all (0, zero_sensor_data) [first_reading])))
         (F32.of_Z 41) (F32.of_Z 61) (F32.of_Z 23) (F32.of_Z 56) (F32.of_Z 11)
       = (100, Some sd', 0)
       /\ soil_moisture sd' = F32.of_Z 41
       /\ index <$> history sd' = [1; 1; 1; 1; 1].
Proof.
  split; [reflexivity|]. split; [reflexivity|].
  destruct (hourly_gate zero_sensor_data [first_reading] 1300000
              (F32.of_Z 41) (F32.of_Z 61) (F32.of_Z 23) (F32.of_Z 56)
              (F32.of_Z 11) eq_refl)
    as (last' & sd' & Hcall & (Hsoil & _) & _ & _ & _ & _ & Hshut & _).
  destruct Hshut as (Hlast & Hhist & _);
    [change (100 <> 0); lia | change (1300 - 100 < 3600); lia |].
  exists sd'. split; [|split; [exact Hsoil|]].
  - rewrite Hlast in Hcall. exact Hcall.
  - rewrite Hhist. reflexivity.
Defined.

Lemma slot_order_length (vs : list float) :
  length (slot_order vs) = Nat.min (length vs) 24.
Proof.
  rewrite (Permutation_length (slot_order_permutation vs)), length_drop. lia.
Qed.

Lemma record_all_channel (rs : list reading) (i : nat) :
  hourly_spaced (r_uptime_ms <$> rs) = true ->
  (i < 5)%nat ->
  history (snd (record_all (0, zero_sensor_data) rs)) !! i
  = Some (appended_to no_history (channel_value i <$> rs)).
Proof.
  intros Hspaced Hi.
  rewrite record_all_history; [| done | done |].
  - by repeat (destruct i as [|i]; [reflexivity|]); lia.
  - destruct rs; [done|]. by left.
Qed.

(** C7.  For a channel history whose cursor is in range, the rolling
    average handed to the model is the single-precision mean of the
    populated slots (24 slots once filled, else the slots below the
    cursor), summed in slot order, and the channel's current value when no
    slot is populated.  After [N] readings spaced at least one hour apart,
    starting from the zeroed state, the populated slots of every channel
    hold the last [min N 24] values written to it (in the order written
    for [N <= 24], rotated to slot order beyond), and the average feature
    is their mean. *)
Theorem rolling_average_mean (h : channel_history) (current : float)
    (rs : list reading) (i : nat) (hd : habitat_data) :
  (history_wf h ->
   history_average h current
   = if decide (populated h = []) then current else fmean (populated h))
  /\ (hourly_spaced (r_uptime_ms <$> rs) = true ->
      (i < 5)%nat ->
      let vs := channel_value i <$> rs in
      let sd := snd (record_all (0, zero_sensor_data) rs) in
      exists hi,
        history sd !! i = Some hi
        /\ populated hi = slot_order vs
        /\ slot_order vs ≡ₚ drop (length vs - 24) vs
        /\ length (slot_order vs) = Nat.min (length rs) 24
        /\ ((length rs <= 24)%nat -> slot_order vs = vs)
        /\ history_average hi current
           = (if decide (rs = []) then current else fmean (slot_order vs))
        /\ model_input sd hd !! (10 + i)%nat
           = if decide (rs = []) then model_input sd hd !! i
             else Some (fmean (slot_order vs))).
Proof.
  split; [apply history_average_spec|].
  intros Hspaced Hi vs sd.
  exists (appended_to no_history vs).
  assert (Hhi : history sd !! i = Some (appended_to no_history vs))
    by (by apply record_all_channel).
  assert (Hlen : length vs = length rs) by apply length_fmap.
  assert (Havg : forall cur,
            history_average (appended_to no_history vs) cur
            = if decide (rs = []) then cur else fmean (slot_order vs)).
  { intros cur. rewrite history_average_spec by apply appended_spec.
    rewrite populated_appended.
    pose proof (slot_order_length vs) as Hso.
    destruct (decide (slot_order vs = [])) as [Hnil|Hcons];
      destruct (decide (rs = [])) as [->|Hrs]; try done.
    rewrite Hnil in Hso. simpl in Hso. destruct rs; [done|]. simpl in *. lia. }
  split; [done|]. split; [apply populated_appended|].
  split; [apply slot_order_permutation|].
  split; [by rewrite slot_order_length, Hlen|].
  split; [intros; apply slot_order_short; lia|].
  split; [apply Havg|].
  assert (Hfeat : model_input sd hd !! (10 + i)%nat
            = Some (history_average (default no_history (history sd !! i))
                      (default F32.zero (model_input sd hd !! i)))).
  { by repeat (destruct i as [|i]; [reflexivity|]); lia. }
  rewrite Hfeat, Hhi. cbn [default from_option]. unfold id. rewrite Havg.
  destruct (decide (rs = [])); [|done].
  by repeat (destruct i as [|i]; [reflexivity|]); lia.
Qed.

(** Thirty hourly readings reporting 1, 2, ..., 30 percent soil moisture. *)
Definition hourly_reading (k : nat) : reading :=
  {| r_uptime_ms := 3600000 * Z.of_nat k;
     r_soil_moisture := F32.of_Z (Z.of_nat k);
     r_light_level := F32.of_Z 60;
     r_temperature := F32.of_Z 22;
     r_humidity := F32.of_Z 55;
     r_air_movement := F32.of_Z 10 |}.

Definition thirty_readings : list reading := hourly_reading <$> seq 1 30.

(** After the thirty readings the moisture history holds the values
    7 .. 30, and the moisture average handed to the model is 18.5. *)
Lemma rolling_average_mean_witness :
  model_input (snd (record_all (0, zero_sensor_data) thirty_readings))
    example_habitat !! 10%nat
  = Some (F32.lit 37 2)
  /\ slot_order (channel_value 0 <$> thirty_readings)
     ≡ₚ (fun k => F32.of_Z (Z.of_nat k)) <$> seq 7 24.
Proof.
  destruct (rolling_average_mean no_history F32.zero thirty_readings 0
              example_habitat) as [_ H].
  destruct H as (hi & _ & _ & Hperm & _ & _ & _ & Hfeat);
    [reflexivity|lia|].
  split.
  - etransitivity; [exact Hfeat|]. vm_compute. reflexivity.
  - etransitivity; [exact Hperm|]. reflexivity.
Defined.

End MlAnalysisFacts.

(** ** The watering forecast (water_analysis.c) *)

Module WaterAnalysisFacts.
Import WaterAnalysis.

(** The state after a run of [water_analysis_add_reading] calls; a sample
    is a moisture value with its timestamp. *)
Definition add_samples (wp : water_consumption_pattern)
    (samples : list (float * Z)) : water_consumption_pattern :=
  foldl (fun wp s => fst (water_analysis_add_reading wp (fst s) (snd s)))
    wp samples.

(** Whole-percent moisture values sampled one hour apart, the first one
    at time 0. *)
Definition hourly_samples (percent : list Z) : list (float * Z) :=
  imap (fun k m => (F32.of_Z m, 3600 * Z.of_nat k)) percent.

(** [n] values that start at [first] and lose one percent each. *)
Definition falling (n : nat) (first : Z) : list Z :=
  (fun k => first - Z.of_nat k) <$> seq 0 n.

(** The quantities the function derives from the history before its
    first loop. *)
Definition usable_samples (h : moisture_history) : Z :=
  if filled h then WATER_HISTORY_SIZE else index h.

Definition start_idx (h : moisture_history) : Z :=
  Z.rem (index h + WATER_HISTORY_SIZE - 1) WATER_HISTORY_SIZE.

(** The result [(total_decline, count)] of the first loop. *)
Definition walk (h : moisture_history) : float * Z :=
  decline_loop (Z.to_nat (usable_samples h - 1)) 0 h (start_idx h)
    F32.zero 0.

(** The two tests of the first loop on pair [i]. *)
Definition pair_usable (h : moisture_history) (start i : Z) : bool :=
  (0 <? time_diff h start i) && (time_diff h start i <? 7200)
  && F32.gt (moisture_diff h start i) F32.zero.

Definition watering_event (h : moisture_history) (start i : Z) : bool :=
  F32.lt (moisture_diff h start i) (F32.of_Z (-5)).

Lemma decline_loop_step (n : nat) (i : Z) (h : moisture_history)
    (start : Z) (total : float) (count : Z) :
  decline_loop (S n) i h start total count
  = if pair_usable h start i then
      decline_loop n (i + 1) h start
        (F32.add total (moisture_diff h start i)) (count + 1)
    else if watering_event h start i then (total, count)
    else decline_loop n (i + 1) h start total count.
Proof. reflexivity. Qed.

(** A value below -5.0 is not above 0. *)
Lemma lt_minus_five_not_positive (x : float) :
  F32.lt x (F32.of_Z (-5)) = true -> F32.gt x F32.zero = false.
Proof.
  destruct x as [s|[]| |[] m e]; try done.
Qed.

Lemma watering_event_not_usable (h : moisture_history) (start i : Z) :
  watering_event h start i = true -> pair_usable h start i = false.
Proof.
  intros He%lt_minus_five_not_positive. unfold pair_usable.
  rewrite He. apply andb_false_r.
Qed.

(** The walk stops at a watering event without touching its sums. *)
Lemma decline_loop_event (n : nat) (i : Z) (h : moisture_history)
    (start : Z) (total : float) (count : Z) :
  watering_event h start i = true ->
  decline_loop (S n) i h start total count = (total, count).
Proof.
  intros He. rewrite decline_loop_step.
  by rewrite (watering_event_not_usable _ _ _ He), He.
Qed.

(** Pairs beyond a watering event are never reached. *)
Lemma decline_loop_truncate (k : nat) :
  forall (n : nat) (i : Z) (h : moisture_history) (start : Z)
         (total : float) (count : Z),
    (k < n)%nat ->
    watering_event h start (i + Z.of_nat k) = true ->
    decline_loop n i h start total count
    = decline_loop k i h start total count.
Proof.
  induction k as [|k IH]; intros n i h start total count Hlt He.
  - destruct n as [|n]; [lia|]. rewrite Z.add_0_r in He.
    by rewrite decline_loop_event.
  - destruct n as [|n]; [lia|]. rewrite !decline_loop_step.
    replace (i + Z.of_nat (S k)) with (i + 1 + Z.of_nat k) in He by lia.
    destruct (pair_usable h start i); [apply IH; [lia|done]|].
    destruct (watering_event h start i); [done|].
    apply IH; [lia|done].
Qed.

(** The walk reads pair [j] through its two differences only. *)
Lemma decline_loop_ext (n : nat) :
  forall (i : Z) (h h' : moisture_history) (start start' : Z)
         (total : float) (count : Z),
    (forall j, i <= j < i + Z.of_nat n ->
       time_diff h start j = time_diff h' start' j
       /\ moisture_diff h start j = moisture_diff h' start' j) ->
    decline_loop n i h start total count
    = decline_loop n i h' start' total count.
Proof.
  induction n as [|n IH]; intros i h h' start start' total count Hagree;
    [done|].
  rewrite !decline_loop_step. unfold pair_usable, watering_event.
  destruct (Hagree i ltac:(lia)) as [-> ->].
  assert (Hrest : forall j, i + 1 <= j < i + 1 + Z.of_nat n ->
            time_diff h start j = time_diff h' start' j
            /\ moisture_diff h start j = moisture_diff h' start' j)
    by (intros j Hj; apply Hagree; lia).
  destruct (_ && _); [by apply IH|].
  destruct (F32.lt _ _); [done|]. by apply IH.
Qed.

(** The older sample of pair [j] is the newer sample of pair [j + 1]. *)
Lemma prev_idx_next (start j : Z) :
  0 <= start < WATER_HISTORY_SIZE -> 0 <= j < WATER_HISTORY_SIZE - 1 ->
  prev_idx start j = current_idx start (j + 1).
Proof.
  unfold prev_idx, current_idx, WATER_HISTORY_SIZE,
    WATER_ANALYSIS_HISTORY_DAYS, SAMPLES_PER_DAY.
  change (7 * 24) with 168. intros Hs Hj.
  Z.to_euclidean_division_equations. lia.
Qed.

(** *** Insufficient data, and a steady decline *)

#[local] Instance spec_float_eq_dec : EqDecision spec_float.
Proof. solve_decision. Defined.









(** The function in terms of [usable_samples], [start_idx] and [walk],
    past the insufficient-data test. *)
Lemma predict_enough_data (wp : water_consumption_pattern) (uptime_ms : Z)
    (out : water_consumption_pattern) (current threshold : float) :
  48 <= usable_samples (history wp) ->
  water_analysis_predict_watering wp uptime_ms (Some out) current threshold
  = let h := history wp in
    let count := snd (walk h) in
    let hourly_decline_rate :=
      if 0 <? count then F32.div (fst (walk h)) (F32.of_Z count)
      else F32.zero in
    let daily := F32.mul hourly_decline_rate (F32.of_Z 24) in
    let hours_until_threshold :=
      if F32.gt current threshold
      then F32.div (F32.sub current threshold) hourly_decline_rate
      else F32.zero in
    (0, Some {| daily_consumption_rate := daily;
                declining_consumption := declining h (start_idx h) count;
                next_watering_timestamp :=
                  if F32.gt daily (F32.lit 1 100) then
                    if F32.gt hours_until_threshold F32.zero
                    then Z.quot uptime_ms 1000
                         + F32.to_Z (F32.mul hours_until_threshold
                                       (F32.of_Z 3600))
                    else Z.quot uptime_ms 1000
                  else 0;
                prediction_confidence :=
                  if F32.gt daily (F32.lit 1 100) then
                    if F32.gt hours_until_threshold F32.zero
                    then confidence h (start_idx h) count hourly_decline_rate
                    else F32.of_Z 100
                  else F32.zero;
                history := h |}).
Proof.
  intros Henough. unfold water_analysis_predict_watering, walk.
  unfold usable_samples, start_idx in *.
  assert (Hgate : negb (filled (history wp)) && (index (history wp) <? 48)
                  = false).
  { destruct (filled (history wp)); [done|]. simpl.
    destruct (Z.ltb_spec (index (history wp)) 48); [lia|done]. }
  rewrite Hgate. cbv zeta.
  destruct (decline_loop _ _ _ _ _ _) as [total count]. cbn [fst snd].
  destruct (F32.gt (F32.mul _ _) _); [|done].
  by destruct (F32.gt (if F32.gt current threshold then _ else _) _).
Qed.







(** *** Watering events *)

(** The sample at walk position [j] (0 is the newest). *)
Definition sample_at (h : moisture_history) (start j : Z) : float * Z :=
  (moisture_at h (current_idx start j), timestamp_at h (current_idx start j)).

Lemma pair_of_samples (h h' : moisture_history) (start start' j : Z) :
  0 <= start < WATER_HISTORY_SIZE -> 0 <= start' < WATER_HISTORY_SIZE ->
  0 <= j < WATER_HISTORY_SIZE - 1 ->
  sample_at h start j = sample_at h' start' j ->
  sample_at h start (j + 1) = sample_at h' start' (j + 1) ->
  time_diff h start j = time_diff h' start' j
  /\ moisture_diff h start j = moisture_diff h' start' j.
Proof.
  intros Hs Hs' Hj [= Hm Ht] [= Hm' Ht'].
  unfold time_diff, moisture_diff. rewrite !prev_idx_next by done.
  by rewrite Hm, Ht, Hm', Ht'.
Qed.

(** A history of 48 hourly samples that ends, oldest to newest, in
    12, 11, 10, 20, 19, 18: the plant was watered between 10 and 20. *)
Definition watered_history : moisture_history :=
  history (add_samples (fst water_analysis_init)
             (hourly_samples (falling 42 54 ++ [12; 11; 10; 20; 19; 18]))).

(** The three samples taken since the watering, on their own. *)
Definition since_watering : moisture_history :=
  history (add_samples (fst water_analysis_init)
             [(F32.of_Z 20, 3600 * 45); (F32.of_Z 19, 3600 * 46);
              (F32.of_Z 18, 3600 * 47)]).

(** A history of 48 hourly samples that ends in 50, 49, 48, 20, 19, 18. *)
Definition dropping_history : moisture_history :=
  history (add_samples (fst water_analysis_init)
             (hourly_samples (falling 45 92 ++ [20; 19; 18]))).

(** C4, as the walk implements it.  A pair whose [moisture_diff] is below
    -5.0 ends the walk at once, with the sums as they were; the pairs
    older than it are never read, so the result is that of the walk over
    the samples more recent than the event, and any history with the same
    samples since the event gives the same result.  For 48 hourly samples
    ending in 12, 11, 10, 20, 19, 18 (a rise from 10 to 20, difference
    -10) the walk yields the sum and count of the declines of 20, 19, 18
    alone: 2 percent over 2 pairs. *)
Theorem watering_event_truncates (h h' : moisture_history)
    (start start' : Z) (n k : nat) (total : float) (count : Z) :
  0 <= start < WATER_HISTORY_SIZE -> 0 <= start' < WATER_HISTORY_SIZE ->
  (k < n)%nat -> (n < 168)%nat ->
  watering_event h start (Z.of_nat k) = true ->
  (forall m total' count',
     decline_loop (S m) (Z.of_nat k) h start total' count'
     = (total', count'))
  /\ decline_loop n 0 h start total count
     = decline_loop k 0 h start total count
  /\ ((forall j, 0 <= j <= Z.of_nat k ->
         sample_at h start j = sample_at h' start' j) ->
      decline_loop n 0 h start total count
      = decline_loop k 0 h' start' total count)
  /\ walk watered_history
     = decline_loop 2 0 since_watering (start_idx since_watering) F32.zero 0
  /\ walk watered_history = (F32.of_Z 2, 2).
Proof.
  intros Hs Hs' Hkn Hn He.
  split; [intros; by apply decline_loop_event|].
  assert (Htrunc : decline_loop n 0 h start total count
                   = decline_loop k 0 h start total count)
    by (by apply decline_loop_truncate).
  split; [done|]. split; [|split; vm_compute; reflexivity].
  intros Hsame. rewrite Htrunc. apply decline_loop_ext.
  intros j Hj. unfold WATER_HISTORY_SIZE, WATER_ANALYSIS_HISTORY_DAYS,
    SAMPLES_PER_DAY in *.
  apply pair_of_samples; try done; try apply Hsame; unfold WATER_HISTORY_SIZE,
    WATER_ANALYSIS_HISTORY_DAYS, SAMPLES_PER_DAY; lia.
Qed.

(** The watered history against the three samples since the watering:
    the event is pair 2 of the walk, and the walk over all 47 pairs is the
    walk over the two pairs of 20, 19, 18. *)
Lemma watering_event_truncates_witness :
  decline_loop 47 0 watered_history (start_idx watered_history) F32.zero 0
  = decline_loop 2 0 since_watering (start_idx since_watering) F32.zero 0.
Proof.
  destruct (watering_event_truncates watered_history since_watering
              (start_idx watered_history) (start_idx since_watering)
              47 2 F32.zero 0) as (_ & _ & Hlocal & _).
  - vm_compute. split; [discriminate|reflexivity].
  - vm_compute. split; [discriminate|reflexivity].
  - lia.
  - lia.
  - vm_compute. reflexivity.
  - apply Hlocal. intros j Hj.
    assert (j = 0 \/ j = 1 \/ j = 2) as [-> | [-> | ->]] by lia;
      vm_compute; reflexivity.
Defined.

(** C4, counterexample to the example as listed: in a history ending in
    50, 49, 48, 20, 19, 18 the step from 48 to 20 is a decline
    ([moisture_diff] = 48 - 20 = 28 > 0), not a watering event; the walk
    is not truncated and covers all 47 pairs, 74 percent in total, instead
    of the 2 percent over 2 pairs of 20, 19, 18.  (The six samples alone
    are below the 48-sample minimum and yield no decline rate at all.) *)
Lemma drop_is_not_watering_event :
  moisture_diff dropping_history (start_idx dropping_history) 2 = F32.of_Z 28
  /\ watering_event dropping_history (start_idx dropping_history) 2 = false
  /\ walk dropping_history = (F32.of_Z 74, 47)
  /\ walk dropping_history <> (F32.of_Z 2, 2)
  /\ (exists p,
        water_analysis_predict_watering
          (add_samples (fst water_analysis_init)
             (hourly_samples [50; 49; 48; 20; 19; 18]))
          21600000 (Some (fst water_analysis_init))
          (F32.of_Z 18) (F32.of_Z 30) = (0, Some p)
        /\ daily_consumption_rate p = F32.zero
        /\ prediction_confidence p = F32.zero).
Proof.
  split; [vm_compute; reflexivity|]. split; [vm_compute; reflexivity|].
  split; [vm_compute; reflexivity|]. split; [vm_compute; discriminate|].
  eexists. split; [vm_compute; reflexivity|]. split; reflexivity.
Qed.

(** *** The two halves *)

(** The declines the first loop adds up, most recent first. *)
Fixpoint usable_diffs (n : nat) (i : Z) (h : moisture_history) (start : Z)
  : list float :=
  match n with
  | O => []
  | S n' =>
      if pair_usable h start i
      then moisture_diff h start i :: usable_diffs n' (i + 1) h start
      else if watering_event h start i then []
      else usable_diffs n' (i + 1) h start
  end.

(** The usable window of a history. *)
Definition usable_window (h : moisture_history) : list float :=
  usable_diffs (Z.to_nat (usable_samples h - 1)) 0 h (start_idx h).

(** Mean decline rate of a run of declines, in single precision. *)
Definition mean_rate (diffs : list float) : float :=
  F32.div (foldl F32.add F32.zero diffs) (F32.of_Z (Z.of_nat (length diffs))).

(** The comparison of the two halves by sample count; the first half of
    the list is the more recent one. *)
Definition recent_half_slower (diffs : list float) : bool :=
  let half := (length diffs / 2)%nat in
  F32.lt (mean_rate (take half diffs)) (mean_rate (drop half diffs)).

Lemma decline_loop_usable_diffs (n : nat) :
  forall (i : Z) (h : moisture_history) (start : Z) (total : float)
         (count : Z),
    decline_loop n i h start total count
    = (foldl F32.add total (usable_diffs n i h start),
       count + Z.of_nat (length (usable_diffs n i h start))).
Proof.
  induction n as [|n IH]; intros i h start total count.
  - simpl. f_equal. lia.
  - rewrite decline_loop_step. cbn [usable_diffs].
    destruct (pair_usable h start i).
    + rewrite IH. cbn [foldl length]. f_equal. lia.
    + destruct (watering_event h start i); [simpl; f_equal; lia|apply IH].
Qed.

Lemma usable_diffs_length (n : nat) :
  forall (i : Z) (h : moisture_history) (start : Z),
    (length (usable_diffs n i h start) <= n)%nat.
Proof.
  induction n as [|n IH]; intros i h start; [done|]. cbn [usable_diffs].
  destruct (pair_usable h start i); [simpl; specialize (IH (i + 1) h start); lia|].
  destruct (watering_event h start i); [simpl; lia|].
  specialize (IH (i + 1) h start). lia.
Qed.

(** When no pair is skipped inside it, the usable window is the run of
    the most recent pairs. *)
Lemma usable_diffs_window (n : nat) :
  forall (i : Z) (h : moisture_history) (start : Z),
    (forall j, i <= j < i + Z.of_nat (length (usable_diffs n i h start)) ->
       pair_usable h start j = true) ->
    usable_diffs n i h start
    = moisture_diff h start
        <$> seqZ i (Z.of_nat (length (usable_diffs n i h start))).
Proof.
  induction n as [|n IH]; intros i h start Hclean; [done|].
  cbn [usable_diffs] in *.
  destruct (pair_usable h start i) eqn:Hu.
  - cbn [length] in *. rewrite seqZ_cons by lia. cbn [fmap list_fmap].
    f_equal. rewrite Nat2Z.inj_succ, Z.pred_succ.
    apply IH. intros j Hj. apply Hclean. lia.
  - destruct (watering_event h start i); [done|].
    destruct (usable_diffs n (i + 1) h start) as [|d ds] eqn:Hds; [done|].
    rewrite (Hclean i) in Hu; [done|]. simpl. lia.
Qed.

Lemma pair_usable_positive (h : moisture_history) (start i : Z) :
  pair_usable h start i = true ->
  F32.gt (moisture_diff h start i) F32.zero = true.
Proof. unfold pair_usable. by intros [_ ?]%andb_true_iff. Qed.

Lemma half_rate_loop_usable (n : nat) :
  forall (i : Z) (h : moisture_history) (start : Z) (rate : float),
    (forall j, i <= j < i + Z.of_nat n -> pair_usable h start j = true) ->
    half_rate_loop n i h start rate
    = foldl F32.add rate (moisture_diff h start <$> seqZ i (Z.of_nat n)).
Proof.
  induction n as [|n IH]; intros i h start rate Hclean; [done|].
  cbn [half_rate_loop].
  rewrite (pair_usable_positive h start i) by (apply Hclean; lia).
  rewrite seqZ_cons by lia. cbn [fmap list_fmap foldl].
  rewrite Nat2Z.inj_succ, Z.pred_succ.
  apply IH. intros j Hj. apply Hclean. lia.
Qed.

(** The static pattern keeps its zeroed result fields: only the history
    is written by [water_analysis_add_reading]. *)
Lemma add_samples_declining (samples : list (float * Z)) :
  declining_consumption (add_samples (fst water_analysis_init) samples)
  = false.
Proof.
  induction samples as [|s samples IH] using rev_ind; [done|].
  unfold add_samples in *. by rewrite foldl_snoc.
Qed.

Lemma walk_usable_window (h : moisture_history) :
  walk h = (foldl F32.add F32.zero (usable_window h),
            Z.of_nat (length (usable_window h))).
Proof. unfold walk. by rewrite decline_loop_usable_diffs. Qed.

(** The comparison the function makes, on a window without skipped
    pairs. *)
Lemma declining_clean_window (h : moisture_history) (start : Z)
    (diffs : list float) :
  48 <= Z.of_nat (length diffs) ->
  diffs = moisture_diff h start <$> seqZ 0 (Z.of_nat (length diffs)) ->
  (forall j, 0 <= j < Z.of_nat (length diffs) ->
     pair_usable h start j = true) ->
  declining h start (Z.of_nat (length diffs)) = recent_half_slower diffs.
Proof.
  intros Hlen Hdiffs Hclean. unfold declining, recent_half_slower, mean_rate.
  set (count := length diffs) in *.
  destruct (Z.leb_spec 48 (Z.of_nat count)); [|lia]. cbv zeta.
  assert (Hhalf : Z.quot (Z.of_nat count) 2 = Z.of_nat (count / 2)).
  { rewrite Z.quot_div_nonneg by lia. by rewrite Nat2Z.inj_div. }
  rewrite Hhalf.
  assert (Hle : (count / 2 <= count)%nat) by (apply Nat.Div0.div_le_upper_bound; lia).
  assert (Hrest : Z.of_nat count - Z.of_nat (count / 2)
                  = Z.of_nat (count - count / 2)) by lia.
  rewrite Hrest, !Nat2Z.id.
  rewrite !half_rate_loop_usable by (intros j Hj; apply Hclean; lia).
  assert (Hsplit : diffs
            = (moisture_diff h start <$> seqZ 0 (Z.of_nat (count / 2)))
              ++ (moisture_diff h start
                    <$> seqZ (Z.of_nat (count / 2))
                          (Z.of_nat (count - count / 2)))).
  { rewrite Hdiffs at 1. rewrite <- fmap_app. f_equal.
    replace (Z.of_nat count)
      with (Z.of_nat (count / 2) + Z.of_nat (count - count / 2)) by lia.
    rewrite seqZ_app by lia. f_equal. }
  assert (Hl1 : length (moisture_diff h start
                          <$> seqZ 0 (Z.of_nat (count / 2)))
                = (count / 2)%nat)
    by (by rewrite length_fmap, length_seqZ, Nat2Z.id).
  assert (Htake : take (count / 2) diffs
                  = moisture_diff h start <$> seqZ 0 (Z.of_nat (count / 2)))
    by (rewrite Hsplit; by apply take_app_length').
  assert (Hdrop : drop (count / 2) diffs
                  = moisture_diff h start
                      <$> seqZ (Z.of_nat (count / 2))
                            (Z.of_nat (count - count / 2)))
    by (rewrite Hsplit; by apply drop_app_length').
  rewrite Htake, Hdrop.
  rewrite !length_fmap, !length_seqZ, !Nat2Z.id. reflexivity.
Qed.

(** C5, as the function implements it.  Let the usable window be the
    declines counted by the first loop.  With fewer than 48 of them
    [declining_consumption] is false.  With 48 or more, and provided no
    pair was skipped among the [count] most recent pairs (so that the
    window is exactly those pairs), the window is split by sample count
    into its [count / 2] most recent declines and the remaining older
    ones, and [declining_consumption] is true iff the mean decline of the
    more recent part is strictly below the mean decline of the older
    part. *)
Theorem declining_compares_halves (samples : list (float * Z))
    (uptime_ms : Z) (out : water_consumption_pattern)
    (current threshold : float) :
  let wp := add_samples (fst water_analysis_init) samples in
  let h := history wp in
  let diffs := usable_window h in
  exists p,
    water_analysis_predict_watering wp uptime_ms (Some out) current threshold
    = (0, Some p)
    /\ ((length diffs < 48)%nat -> declining_consumption p = false)
    /\ ((48 <= length diffs)%nat ->
        (forall j, 0 <= j < Z.of_nat (length diffs) ->
           pair_usable h (start_idx h) j = true) ->
        diffs = moisture_diff h (start_idx h)
                  <$> seqZ 0 (Z.of_nat (length diffs))
        /\ declining_consumption p = recent_half_slower diffs).
Proof.
  intros wp h diffs.
  pose proof (usable_diffs_length (Z.to_nat (usable_samples h - 1)) 0 h
                (start_idx h)) as Hbound.
  fold (usable_window h) in Hbound. fold diffs in Hbound.
  destruct (decide (usable_samples h < 48)) as [Hfew|Henough].
  - exists {| daily_consumption_rate := daily_consumption_rate wp;
              declining_consumption := declining_consumption wp;
              next_watering_timestamp := 0;
              prediction_confidence := F32.zero;
              history := h |}.
    split; [|split].
    + unfold water_analysis_predict_watering. fold h.
      unfold usable_samples in Hfew.
      destruct (filled h); [done|]. simpl negb. simpl andb.
      by destruct (Z.ltb_spec (index h) 48); [|lia].
    + intros _. apply add_samples_declining.
    + intros Hlen. lia.
  - eexists. split; [apply predict_enough_data; fold h; lia|].
    cbv zeta. cbn [declining_consumption]. fold h.
    rewrite walk_usable_window. cbn [snd]. fold diffs.
    split.
    + intros Hlen. unfold declining.
      by destruct (Z.leb_spec 48 (Z.of_nat (length diffs))); [lia|].
    + intros Hlen Hclean.
      assert (Hwindow : diffs = moisture_diff h (start_idx h)
                                  <$> seqZ 0 (Z.of_nat (length diffs)))
        by (by apply usable_diffs_window).
      split; [done|]. apply declining_clean_window; [lia|done|done].
Qed.

(** Sixty hourly samples: the plant lost two percent per hour during the
    first thirty hours and one percent per hour since. *)
Definition slowing_samples : list (float * Z) :=
  hourly_samples (((fun k => 150 - 2 * Z.of_nat k) <$> seq 0 30)
                  ++ falling 30 91).

Definition pairs_usable (h : moisture_history) (n : Z) : bool :=
  forallb (pair_usable h (start_idx h)) (seqZ 0 n).

(** On the slowing history every pair is usable, the window has 59
    declines, and the consumption is reported as declining. *)
Lemma declining_compares_halves_witness :
  exists p,
    water_analysis_predict_watering
      (add_samples (fst water_analysis_init) slowing_samples)
      216000000 (Some (fst water_analysis_init)) (F32.of_Z 62) (F32.of_Z 30)
    = (0, Some p)
    /\ length (usable_window
                 (history (add_samples (fst water_analysis_init)
                             slowing_samples))) = 59%nat
    /\ declining_consumption p = true.
Proof.
  destruct (declining_compares_halves slowing_samples 216000000
              (fst water_analysis_init) (F32.of_Z 62) (F32.of_Z 30))
    as (p & Hcall & _ & Hhalves).
  cbv zeta in Hhalves.
  set (h := history (add_samples (fst water_analysis_init) slowing_samples))
    in *.
  assert (Hlen : length (usable_window h) = 59%nat)
    by (vm_compute; reflexivity).
  assert (Hall : pairs_usable h 59 = true) by (vm_compute; reflexivity).
  assert (Hslower : recent_half_slower (usable_window h) = true)
    by (vm_compute; reflexivity).
  exists p. split; [exact Hcall|]. split; [exact Hlen|].
  rewrite Hlen in Hhalves. destruct Hhalves as [_ ->].
  - lia.
  - unfold pairs_usable in Hall. rewrite forallb_forall in Hall.
    intros j Hj. apply Hall. apply list_elem_of_In. apply elem_of_seqZ. lia.
  - exact Hslower.
Defined.

(** Moisture values given in quarters of a percent, sampled one hour
    apart. *)
Definition quarter_samples (quarters : list Z) : list (float * Z) :=
  imap (fun k q => (F32.lit q 4, 3600 * Z.of_nat k)) quarters.

(** Sixty hourly samples, oldest first: a loss of 0.25 and one of 0.5
    percent, then one percent per hour, except that the reading stayed
    the same for one hour, six hours ago. *)
Definition plateau_samples : list (float * Z) :=
  quarter_samples
    ([400; 399] ++ ((fun k => 397 - 4 * Z.of_nat k) <$> seq 0 52)
     ++ [193; 189; 185; 181; 177; 173]).

(** The decline of each of the [n] most recent pairs, a pair that is not
    usable counting as no decline. *)
Definition pair_declines (h : moisture_history) (n : Z) : list float :=
  (fun j => if pair_usable h (start_idx h) j
            then moisture_diff h (start_idx h) j else F32.zero)
    <$> seqZ 0 n.

(** C5, counterexample to the comparison as stated.  On the plateau
    history the walk covers 59 pairs, one of them (pair 5) skipped, so
    the usable window has 58 declines.  Its 29 more recent declines are
    of one percent each, its 29 older ones include the two smaller
    losses: the more recent half does not have the lower mean, and the
    comparison of the halves is false.  It is false as well when the 59
    walked pairs are split 29 to 30 with the skipped pair counted as no
    decline.  The function reports [declining_consumption = true]: it
    walks the 58 most recent pairs, which leaves out the oldest pair of
    the window, and divides the 28 percent found in the first 29 pairs
    by 29. *)
Lemma skipped_pair_skews_halves :
  let h := history (add_samples (fst water_analysis_init) plateau_samples) in
  length (usable_window h) = 58%nat
  /\ pair_usable h (start_idx h) 5 = false
  /\ recent_half_slower (usable_window h) = false
  /\ recent_half_slower (pair_declines h 59) = false
  /\ exists p,
       water_analysis_predict_watering
         (add_samples (fst water_analysis_init) plateau_samples)
         216000000 (Some (fst water_analysis_init))
         (F32.lit 173 4) (F32.of_Z 30) = (0, Some p)
       /\ declining_consumption p = true.
Proof.
  cbv zeta. split; [vm_compute; reflexivity|].
  split; [vm_compute; reflexivity|]. split; [vm_compute; reflexivity|].
  split; [vm_compute; reflexivity|].
  eexists. split; [vm_compute; reflexivity|]. reflexivity.
Qed.

End WaterAnalysisFacts.

(* ===================================================================== *)
(** * Part III: further properties of the modules *)
(* ===================================================================== *)

(** ** Reading the cache (data_cache.c) *)

Module CacheAccessFacts.
Import DataCache DataCacheFacts.

(** Reading from the cache in any state the module reaches: a null
    [reading_out] and an index outside [0, count) give -EINVAL and leave
    the caller's buffer alone; every index inside gives 0 and an entry
    that carries the valid mark, so -ENOENT is never returned. *)
Theorem get_reading_total (st : state) (index : Z)
    (out : cached_sensor_reading) :
  reachable st ->
  data_cache_get_reading st index None = (- EINVAL, None)
  /\ (index < 0 \/ data_cache_count st <= index ->
      data_cache_get_reading st index (Some out) = (- EINVAL, Some out))
  /\ (0 <= index < data_cache_count st ->
      exists e, data_cache_get_reading st index (Some out) = (0, Some e)
                /\ valid e = true).
Proof.
  intros Hr. split; [reflexivity|]. split.
  - intros Hout. unfold data_cache_get_reading, data_cache_count in *.
    destruct (Z.ltb_spec index 0); [reflexivity|].
    destruct (Z.leb_spec (cache_count st) index); [reflexivity|lia].
  - intros Hin. destruct (reachable_add_all st Hr) as [xs ->].
    destruct (add_all_spec xs) as (_ & Hcount & _).
    unfold data_cache_count in Hin. rewrite Hcount in Hin.
    unfold MAX_CACHED_ENTRIES in Hin.
    destruct (lookup_lt_is_Some_2 xs (length xs - 48 + Z.to_nat index))
      as [a Ha]; [lia|].
    exists (stored_reading a). split; [|reflexivity].
    apply get_reading_add_all; [lia|done].
Qed.

Lemma get_reading_total_witness :
  data_cache_get_reading (add_all (fst data_cache_init) (sample_readings 3))
    3 (Some zero_reading) = (- EINVAL, Some zero_reading)
  /\ exists e,
       data_cache_get_reading
         (add_all (fst data_cache_init) (sample_readings 3))
         2 (Some zero_reading) = (0, Some e)
       /\ valid e = true.
Proof.
  destruct (get_reading_total
              (add_all (fst data_cache_init) (sample_readings 3))
              3 zero_reading (add_all_reachable _)) as (_ & Hout & _).
  destruct (get_reading_total
              (add_all (fst data_cache_init) (sample_readings 3))
              2 zero_reading (add_all_reachable _)) as (_ & _ & Hin).
  split.
  - apply Hout. right. apply Z.leb_le. vm_compute. reflexivity.
  - apply Hin. split; [lia|]. apply Z.ltb_lt. vm_compute. reflexivity.
Defined.

(** Below capacity the cache is a queue: after [n <= 48] insertions into
    the empty cache (or into a cache just cleared) the count is [n],
    logical index [i] returns the [(i+1)]-th reading inserted, field by
    field, and index [n] is refused. *)
Theorem cache_fifo_below_capacity (st : state) (xs : list reading_args)
    (i : nat) (x : reading_args) (out : cached_sensor_reading) :
  (length xs <= 48)%nat ->
  xs !! i = Some x ->
  let st' := add_all (fst (data_cache_clear st)) xs in
  data_cache_count st' = Z.of_nat (length xs)
  /\ (exists e,
        data_cache_get_reading st' (Z.of_nat i) (Some out) = (0, Some e)
        /\ soil_moisture e = a_soil_moisture x
        /\ light_level e = a_light_level x
        /\ temperature e = a_temperature x
        /\ humidity e = a_humidity x
        /\ air_movement e = a_air_movement x
        /\ timestamp e = a_timestamp x
        /\ health_status e = a_health_status x
        /\ CStr.cstr (env_mismatch e) = take 31 (CStr.cstr (a_env_mismatch x))
        /\ CStr.cstr (plant_status e) = take 31 (CStr.cstr (a_plant_status x))
        /\ valid e = true)
  /\ data_cache_get_reading st' (Z.of_nat (length xs)) (Some out)
     = (- EINVAL, Some out).
Proof.
  intros Hlen Hx st'.
  change (fst (data_cache_clear st)) with (fst data_cache_init) in st'.
  destruct (add_all_spec xs) as (_ & Hcount & _). fold st' in Hcount.
  assert (Hc : cache_count st' = Z.of_nat (length xs)).
  { rewrite Hcount. unfold MAX_CACHED_ENTRIES. lia. }
  split; [exact Hc|]. split.
  - exists (stored_reading x).
    destruct (stored_reading_entry x)
      as (? & ? & ? & ? & ? & ? & ? & [_ ?] & [_ ?] & ?).
    split; [|done].
    apply get_reading_add_all; [lia|].
    replace (length xs - 48 + Z.to_nat (Z.of_nat i))%nat with i by lia. done.
  - unfold data_cache_get_reading. rewrite Hc.
    destruct (Z.ltb_spec (Z.of_nat (length xs)) 0); [reflexivity|].
    destruct (Z.leb_spec (Z.of_nat (length xs)) (Z.of_nat (length xs)));
      [reflexivity|lia].
Qed.

Lemma cache_fifo_below_capacity_witness :
  data_cache_count
    (add_all (fst (data_cache_clear (fst data_cache_init))) (sample_readings 3))
  = 3
  /\ exists e,
       data_cache_get_reading
         (add_all (fst (data_cache_clear (fst data_cache_init)))
            (sample_readings 3)) 1 (Some zero_reading) = (0, Some e)
       /\ soil_moisture e = F32.of_Z 1
       /\ timestamp e = 3600.
Proof.
  destruct (cache_fifo_below_capacity (fst data_cache_init)
              (sample_readings 3) 1 (sample_reading 1) zero_reading)
    as (Hcount & (e & Hget & Hsoil & _ & _ & _ & _ & Htime & _) & _).
  - vm_compute. lia.
  - reflexivity.
  - split; [exact Hcount|]. exists e.
    split; [exact Hget|]. split; [exact Hsoil|exact Htime].
Defined.

End CacheAccessFacts.

(** ** Store and forward (main.c) *)

Module StoreAndForwardFacts.
Import DataCache DataCacheFacts Main MainFacts.

(** The arguments the offline branch passes to [data_cache_add_reading]. *)
Definition args_of_live (l : live_reading) : reading_args :=
  {| a_soil_moisture := l_soil_moisture l;
     a_light_level := l_light_level l;
     a_temperature := l_temperature l;
     a_humidity := l_humidity l;
     a_air_movement := l_air_movement l;
     a_timestamp := l_timestamp l;
     a_health_status := l_health_status l;
     a_env_mismatch := l_mismatch_str l;
     a_plant_status := l_plant_status l |}.

(** Store and forward.  A tick taken offline appends its reading to the
    cache; the next connected tick, with a sink that accepts every
    upload, sends the cached readings oldest first, then clears and
    saves the cache, then sends its own reading.  The reading cached
    last is uploaded last among the cached ones, with its own values,
    timestamp, health status and the first 31 characters of its two
    texts, but with the recommendation of the tick that uploads it. *)
Theorem offline_reading_forwarded {world : Type}
    (send : world -> sensor_upload -> world * Z)
    (save : world -> list ascii -> stored_value -> world * Z)
    (dev : device_info) (xs : list reading_args) (l l' : live_reading)
    (w : world) :
  (forall w u, 0 <= snd (send w u)) ->
  let st := add_all (fst data_cache_init) xs in
  let off := offline_branch save dev st l w in
  let on := connected_branch send save dev (fst off) l' (snd off) in
  let ups :=
    upload_of_cached dev (l_recommendation l')
      <$> drop (length xs + 1 - 48) (stored_reading <$> xs ++ [args_of_live l])
  in
  fst off = add_all (fst data_cache_init) (xs ++ [args_of_live l])
  /\ snd off = fst (data_cache_save save dev (fst off) w)
  /\ data_cache_count (fst (fst on)) = 0
  /\ snd (fst on)
     = fst (send
              (fst (data_cache_save save dev (fst data_cache_init)
                      (send_each send (snd off) ups)))
              (upload_of_live dev l'))
  /\ snd on
     = snd (send
              (fst (data_cache_save save dev (fst data_cache_init)
                      (send_each send (snd off) ups)))
              (upload_of_live dev l'))
  /\ exists u,
       last ups = Some u
       /\ u_soil_moisture u = l_soil_moisture l
       /\ u_light_level u = l_light_level l
       /\ u_temperature u = l_temperature l
       /\ u_humidity u = l_humidity l
       /\ u_air_movement u = l_air_movement l
       /\ u_timestamp u = l_timestamp l
       /\ u_health_status u = l_health_status l
       /\ u_env_mismatch u = take 31 (CStr.cstr (l_mismatch_str l))
       /\ u_plant_status u = take 31 (CStr.cstr (l_plant_status l))
       /\ u_recommendation u = l_recommendation l'.
Proof.
  intros Hok st off on ups.
  assert (Hoff : off = (add_all (fst data_cache_init) (xs ++ [args_of_live l]),
                        fst (data_cache_save save dev
                               (add_all (fst data_cache_init)
                                  (xs ++ [args_of_live l])) w))).
  { unfold off, offline_branch. rewrite add_all_snoc. fold st.
    fold (args_of_live l).
    destruct (data_cache_add_reading st (args_of_live l)) as [st1 ret] eqn:Hadd.
    assert (ret = 0) as -> by (by inversion Hadd).
    cbn [fst]. change (0 <? 0) with false. cbv iota.
    by destruct (data_cache_save save dev st1 w). }
  assert (Hfst : fst off = add_all (fst data_cache_init) (xs ++ [args_of_live l]))
    by (by rewrite Hoff).
  split; [exact Hfst|]. split; [by rewrite Hoff|].
  assert (Hon : on = (fst data_cache_init,
                      fst (send
                             (fst (data_cache_save save dev (fst data_cache_init)
                                     (send_each send (snd off) ups)))
                             (upload_of_live dev l')),
                      snd (send
                             (fst (data_cache_save save dev (fst data_cache_init)
                                     (send_each send (snd off) ups)))
                             (upload_of_live dev l')))).
  { unfold on. rewrite Hfst.
    rewrite connected_branch_spec by (rewrite length_app; simpl; lia).
    cbv zeta. rewrite length_app. cbn [length].
    rewrite send_until_failure_never_fails by done. cbn [fst snd].
    reflexivity. }
  rewrite Hon. cbn [fst snd]. split; [reflexivity|].
  split; [reflexivity|]. split; [reflexivity|].
  exists (upload_of_cached dev (l_recommendation l')
            (stored_reading (args_of_live l))).
  destruct (stored_reading_entry (args_of_live l))
    as (? & ? & ? & ? & ? & ? & ? & [_ ?] & [_ ?] & ?).
  split; [|by cbn [upload_of_cached u_soil_moisture u_light_level
                   u_temperature u_humidity u_air_movement u_timestamp
                   u_health_status u_env_mismatch u_plant_status
                   u_recommendation]].
  unfold ups. rewrite (fmap_app stored_reading).
  rewrite drop_app_le by (rewrite length_fmap; lia).
  rewrite fmap_app. apply last_snoc.
Qed.

Lemma offline_reading_forwarded_witness :
  let off :=
    offline_branch logging_save test_device (fst data_cache_init) test_live
      fresh_world in
  let on :=
    connected_branch (scripted_send []) logging_save test_device (fst off)
      test_live (snd off) in
  data_cache_count (fst off) = 1
  /\ data_cache_count (fst (fst on)) = 0
  /\ length (accepted (snd (fst on))) = 2%nat.
Proof.
  cbv zeta.
  destruct (offline_reading_forwarded (scripted_send []) logging_save
              test_device [] test_live test_live fresh_world)
    as (Hoff & _ & Hcount & Hw & _).
  - intros w u. simpl. lia.
  - split; [exact (f_equal data_cache_count Hoff)|].
    split; [exact Hcount|].
    exact (f_equal (fun w => length (accepted w)) Hw).
Defined.

End StoreAndForwardFacts.

(** ** The moisture ring and the forecast (water_analysis.c) *)

Module WaterRingFacts.
Import WaterAnalysis WaterAnalysisFacts.

Record water_wf (h : moisture_history) : Prop := {
  water_wf_moisture : length (moisture h) = 168%nat;
  water_wf_timestamps : length (timestamps h) = 168%nat;
  water_wf_index : 0 <= index h < 168
}.

(** The stored samples of a history, oldest first. *)
Definition stored_samples (h : moisture_history) : list (float * Z) :=
  zip (Ring.ring_view (filled h) (Z.to_nat (index h)) (moisture h))
      (Ring.ring_view (filled h) (Z.to_nat (index h)) (timestamps h)).

Lemma add_samples_snoc (wp : water_consumption_pattern)
    (samples : list (float * Z)) (s : float * Z) :
  add_samples wp (samples ++ [s])
  = fst (water_analysis_add_reading (add_samples wp samples) (fst s) (snd s)).
Proof. unfold add_samples. by rewrite foldl_snoc. Qed.

Lemma add_reading_view {A : Type} (l : list A) (x : A) (idx : Z) (full : bool) :
  length l = 168%nat -> 0 <= idx < 168 ->
  Ring.ring_view (if Z.rem (idx + 1) WATER_HISTORY_SIZE =? 0 then true else full)
    (Z.to_nat (Z.rem (idx + 1) WATER_HISTORY_SIZE)) (<[ Z.to_nat idx := x ]> l)
  = drop (length (Ring.ring_view full (Z.to_nat idx) l) + 1 - 168)
      (Ring.ring_view full (Z.to_nat idx) l ++ [x]).
Proof.
  intros Hlen Hidx.
  pose proof (Ring.ring_put_view l (Z.to_nat idx) x full) as Hput.
  cbv zeta in Hput. rewrite Hlen in Hput. rewrite <- Hput by lia. clear Hput.
  change WATER_HISTORY_SIZE with 168.
  rewrite Z.rem_mod_nonneg by lia.
  assert (Hi : Z.to_nat ((idx + 1) mod 168)
               = ((Z.to_nat idx + 1) mod 168)%nat).
  { rewrite Z2Nat.inj_mod, Z2Nat.inj_add by lia. reflexivity. }
  rewrite Hi. f_equal.
  assert (Hz : ((idx + 1) mod 168 =? 0)
               = ((Z.to_nat idx + 1) mod 168 =? 0)%nat).
  { rewrite <- Hi.
    pose proof (Z.mod_pos_bound (idx + 1) 168 ltac:(lia)).
    destruct (Z.eqb_spec ((idx + 1) mod 168) 0) as [->|Hne]; [done|].
    symmetry. apply Nat.eqb_neq. lia. }
  rewrite <- Hz. destruct (_ =? 0), full; reflexivity.
Qed.

Lemma zip_drop {A B : Type} (n : nat) :
  forall (l1 : list A) (l2 : list B),
    zip (drop n l1) (drop n l2) = drop n (zip l1 l2).
Proof.
  induction n as [|n IH]; intros [|a l1] [|b l2]; simpl; try done.
  by destruct (drop n l1).
Qed.

Lemma water_ring_spec (samples : list (float * Z)) :
  let h := history (add_samples (fst water_analysis_init) samples) in
  (length (moisture h) = 168%nat /\ length (timestamps h) = 168%nat)
  /\ index h = Z.of_nat (length samples mod 168)
  /\ filled h = bool_decide (168 <= length samples)%nat
  /\ usable_samples h = Z.min (Z.of_nat (length samples)) 168
  /\ stored_samples h = drop (length samples - 168) samples.
Proof.
  cbv zeta.
  assert (H : let h := history (add_samples (fst water_analysis_init) samples) in
              water_wf h
              /\ index h = Z.of_nat (length samples mod 168)
              /\ filled h = bool_decide (168 <= length samples)%nat
              /\ Ring.ring_view (filled h) (Z.to_nat (index h)) (moisture h)
                 = drop (length samples - 168) (fst <$> samples)
              /\ Ring.ring_view (filled h) (Z.to_nat (index h)) (timestamps h)
                 = drop (length samples - 168) (snd <$> samples)).
  { induction samples as [|s samples IH] using rev_ind.
    - cbv zeta. split; [split; simpl; (reflexivity || lia)|].
      by repeat split.
    - cbv zeta in *. destruct IH as (Hwf & Hidx & Hfill & Hm & Ht).
      rewrite add_samples_snoc.
      set (wp := add_samples (fst water_analysis_init) samples) in *.
      destruct Hwf as [Hlm Hlt Hi].
      cbn [water_analysis_add_reading fst history moisture timestamps index
           filled].
      assert (Hidx' : Z.rem (index (history wp) + 1) WATER_HISTORY_SIZE
                      = Z.of_nat (length (samples ++ [s]) mod 168)).
      { change WATER_HISTORY_SIZE with 168.
        rewrite Hidx, length_app. simpl length.
        rewrite Z.rem_mod_nonneg by lia.
        change 168 with (Z.of_nat 168). change 1 with (Z.of_nat 1).
        rewrite <- Nat2Z.inj_add, <- Nat2Z.inj_mod.
        by rewrite Nat.Div0.add_mod_idemp_l. }
      split.
      { split; cbn [moisture timestamps index]; rewrite ?length_insert; try done.
        rewrite Hidx'.
        pose proof (Nat.mod_upper_bound (length (samples ++ [s])) 168
                      ltac:(lia)). lia. }
      split; [exact Hidx'|]. split.
      { rewrite Hidx', Hfill, length_app. simpl length.
        pose proof (Nat.mod_upper_bound (length samples + 1) 168 ltac:(lia)).
        destruct (Z.eqb_spec (Z.of_nat ((length samples + 1) mod 168)) 0)
          as [Hz|Hnz].
        * symmetry. apply bool_decide_eq_true_2.
          assert ((length samples + 1) mod 168 = 0)%nat as Hmod by lia.
          apply Nat.Div0.mod_divides in Hmod as [c Hc]. lia.
        * apply bool_decide_ext. split; [lia|]. intros Hge.
          destruct (decide (168 <= length samples)%nat); [done|].
          exfalso. apply Hnz.
          replace (length samples + 1)%nat with 168%nat by lia.
          reflexivity. }
      assert (Hdrop : forall {A} (l : list A) (x : A),
                length l = length samples ->
                drop (length (drop (length samples - 168) l) + 1 - 168)
                  (drop (length samples - 168) l ++ [x])
                = drop (length (samples ++ [s]) - 168) (l ++ [x])).
      { intros A l x Hl. rewrite length_drop, length_app, Hl. simpl length.
        destruct (decide (length samples < 168)%nat).
        * replace (length samples - 168)%nat with 0%nat by lia.
          replace (length samples - 0 + 1 - 168)%nat with 0%nat by lia.
          replace (length samples + 1 - 168)%nat with 0%nat by lia.
          by rewrite !drop_0.
        * replace (length samples - (length samples - 168) + 1 - 168)%nat
            with 1%nat by lia.
          rewrite (drop_app_le _ _ (length samples + 1 - 168)) by lia.
          rewrite drop_app_le by (rewrite length_drop; lia).
          rewrite drop_drop. f_equal. f_equal. lia. }
      split.
      + rewrite add_reading_view by done. rewrite Hm, fmap_app.
        apply Hdrop. by rewrite length_fmap.
      + rewrite add_reading_view by done. rewrite Ht, fmap_app.
        apply Hdrop. by rewrite length_fmap. }
  cbv zeta in H. destruct H as ([Hlm Hlt Hi] & Hidx & Hfill & Hm & Ht).
  split; [done|]. split; [done|]. split; [done|]. split.
  - unfold usable_samples. rewrite Hfill, Hidx. change WATER_HISTORY_SIZE with 168.
    case_bool_decide.
    + lia.
    + rewrite Nat.mod_small by lia. lia.
  - unfold stored_samples. rewrite Hm, Ht.
    rewrite zip_drop. by rewrite zip_fst_snd.
Qed.

(** The ring of moisture samples after [N] calls of
    [water_analysis_add_reading] on the zeroed pattern: both arrays keep
    their 168 slots, the cursor is at [N mod 168], the filled mark is set
    from the 168th sample on and never reset, the number of samples the
    predictor uses is [min N 168], and the stored samples are the last
    168 recorded, oldest first, each with its own timestamp. *)
Theorem water_ring_contents (samples : list (float * Z)) :
  let h := history (add_samples (fst water_analysis_init) samples) in
  (length (moisture h) = 168%nat /\ length (timestamps h) = 168%nat)
  /\ index h = Z.of_nat (length samples mod 168)
  /\ filled h = bool_decide (168 <= length samples)%nat
  /\ usable_samples h = Z.min (Z.of_nat (length samples)) 168
  /\ stored_samples h = drop (length samples - 168) samples.
Proof. exact (water_ring_spec samples). Qed.

(** No pair of the walk passes the test of the first loop. *)
Definition no_usable_pair (h : moisture_history) : bool :=
  forallb (fun i => negb (pair_usable h (start_idx h) i))
    (seqZ 0 (usable_samples h - 1)).

Lemma decline_loop_none_usable (h : moisture_history) (start : Z) (n : nat) :
  forall (i : Z) (total : float) (count : Z),
    (forall j, i <= j < i + Z.of_nat n -> pair_usable h start j = false) ->
    decline_loop n i h start total count = (total, count).
Proof.
  induction n as [|n IH]; intros i total count Hnone; [done|].
  rewrite decline_loop_step, Hnone by lia.
  destruct (watering_event h start i); [done|].
  apply IH. intros j Hj. apply Hnone. lia.
Qed.

(** Without a usable decline there is no forecast.  With at least 48
    stored samples of which no consecutive pair is usable (the moisture
    did not fall, or the two samples are not less than 7200 s apart), the
    result is rate 0, not declining, no next watering time and confidence
    0, whatever the current moisture and the threshold; the history is
    returned as it is. *)
Theorem no_decline_no_forecast (wp : water_consumption_pattern)
    (uptime_ms : Z) (out : water_consumption_pattern)
    (current threshold : float) :
  48 <= usable_samples (history wp) ->
  no_usable_pair (history wp) = true ->
  water_analysis_predict_watering wp uptime_ms (Some out) current threshold
  = (0, Some {| daily_consumption_rate := F32.zero;
                declining_consumption := false;
                next_watering_timestamp := 0;
                prediction_confidence := F32.zero;
                history := history wp |}).
Proof.
  intros Henough Hnone. rewrite predict_enough_data by done. cbv zeta.
  assert (Hwalk : walk (history wp) = (F32.zero, 0)).
  { unfold walk. apply decline_loop_none_usable. intros j Hj.
    unfold no_usable_pair in Hnone. rewrite forallb_forall in Hnone.
    apply negb_true_iff, Hnone, list_elem_of_In, elem_of_seqZ. lia. }
  rewrite Hwalk. reflexivity.
Qed.

(** Fifty samples that fall one percent each, 100 down to 51, taken two
    hours apart. *)
Definition two_hourly_samples : list (float * Z) :=
  imap (fun k m => (F32.of_Z m, 7200 * Z.of_nat k))
    ((fun k => 100 - Z.of_nat k) <$> seq 0 50).

(** Samples two hours apart: no pair is usable and there is no
    forecast. *)
Lemma no_decline_no_forecast_witness :
  water_analysis_predict_watering
    (add_samples (fst water_analysis_init)
       two_hourly_samples)
    360000000 (Some (fst water_analysis_init)) (F32.of_Z 51) (F32.of_Z 30)
  = (0, Some {| daily_consumption_rate := F32.zero;
                declining_consumption := false;
                next_watering_timestamp := 0;
                prediction_confidence := F32.zero;
                history :=
                  history (add_samples (fst water_analysis_init)
                             two_hourly_samples) |}).
Proof.
  apply (no_decline_no_forecast
           (add_samples (fst water_analysis_init)
              two_hourly_samples)).
  - apply Z.leb_le. vm_compute. reflexivity.
  - vm_compute. reflexivity.
Defined.

Lemma ring_view_newest_first {A : Type} (l : list A) (idx j : Z)
    (full : bool) :
  length l = 168%nat -> 0 <= idx < 168 ->
  0 <= j < (if full then 168 else idx) ->
  Ring.ring_view full (Z.to_nat idx) l
    !! (Z.to_nat ((if full then 168 else idx) - 1 - j))
  = l !! Z.to_nat (current_idx
                     (Z.rem (idx + WATER_HISTORY_SIZE - 1) WATER_HISTORY_SIZE)
                     j).
Proof.
  intros Hlen Hidx Hj. unfold current_idx. change WATER_HISTORY_SIZE with 168.
  assert (Hj' : 0 <= j < 168) by (destruct full; lia).
  set (s := Z.rem (idx + 168 - 1) 168).
  assert (Hs : idx = 0 /\ s = 167 \/ idx <> 0 /\ s = idx - 1).
  { unfold s. rewrite Z.rem_mod_nonneg by lia.
    destruct (decide (idx = 0)) as [->|Hpos]; [by left|right].
    split; [done|]. symmetry. apply Z.mod_unique with 1; lia. }
  clearbody s.
  set (c := Z.rem (s - j + 168) 168).
  assert (Hc : j <= s /\ c = s - j \/ s < j /\ c = s - j + 168).
  { unfold c. rewrite Z.rem_mod_nonneg by lia.
    destruct (decide (j <= s)); [left|right]; (split; [lia|]).
    - symmetry. apply Z.mod_unique with 1; lia.
    - apply Z.mod_small. lia. }
  clearbody c. unfold Ring.ring_view. destruct full.
  - destruct (decide (j < idx)) as [Hlt|Hge].
    + rewrite lookup_app_r by (rewrite length_drop; lia).
      rewrite length_drop, lookup_take_lt by lia. f_equal. lia.
    + rewrite lookup_app_l by (rewrite length_drop; lia).
      rewrite lookup_drop. f_equal. lia.
  - rewrite lookup_take_lt by lia. f_equal. lia.
Qed.

(** The backward walk of the predictor reads the recorded samples newest
    first: after [N] recorded samples, position [j] of the walk
    ([current_idx] of iteration [j]) holds the [(j+1)]-th most recent
    sample, for every [j] below [min N 168]. *)
Theorem walk_reads_newest_first (samples : list (float * Z)) (j : nat) :
  (j < length samples)%nat -> (j < 168)%nat ->
  let h := history (add_samples (fst water_analysis_init) samples) in
  samples !! (length samples - 1 - j)%nat
  = Some (sample_at h (start_idx h) (Z.of_nat j)).
Proof.
  intros Hj Hj' h.
  destruct (water_ring_spec samples)
    as ([Hlm Hlt] & Hidx & Hfill & Huse & Hstored).
  fold h in Hlm, Hlt, Hidx, Hfill, Huse, Hstored.
  assert (Hi : 0 <= index h < 168).
  { rewrite Hidx.
    pose proof (Nat.mod_upper_bound (length samples) 168 ltac:(lia)). lia. }
  assert (Hn : (if filled h then 168 else index h)
               = Z.min (Z.of_nat (length samples)) 168).
  { rewrite <- Huse. reflexivity. }
  assert (Hpos : (length samples - 1 - j
                  = length samples - 168
                    + Z.to_nat ((if filled h then 168 else index h) - 1
                                - Z.of_nat j))%nat) by lia.
  rewrite Hpos, <- lookup_drop, <- Hstored. unfold stored_samples.
  rewrite lookup_zip_with.
  rewrite !ring_view_newest_first by (done || lia).
  unfold sample_at, moisture_at, timestamp_at, start_idx.
  set (c := current_idx _ _).
  assert (Hc : 0 <= c < 168).
  { unfold c, current_idx. change WATER_HISTORY_SIZE with 168.
    pose proof (Z.rem_bound_pos (index h + 168 - 1) 168 ltac:(lia) ltac:(lia)).
    apply Z.rem_bound_pos; lia. }
  destruct (lookup_lt_is_Some_2 (moisture h) (Z.to_nat c)) as [m ->]; [lia|].
  destruct (lookup_lt_is_Some_2 (timestamps h) (Z.to_nat c)) as [t ->]; [lia|].
  reflexivity.
Qed.

(** After the three hourly samples 50, 49, 48 the walk starts at the
    last one recorded. *)
Lemma walk_reads_newest_first_witness :
  let h :=
    history (add_samples (fst water_analysis_init)
               (hourly_samples [50; 49; 48])) in
  sample_at h (start_idx h) 0 = (F32.of_Z 48, 7200).
Proof.
  cbv zeta.
  assert (Hlen : (0 < length (hourly_samples [50; 49; 48]%Z))%nat)
    by (simpl; lia).
  assert (Hlen' : (0 < 168)%nat) by lia.
  pose proof (walk_reads_newest_first (hourly_samples [50; 49; 48]) 0
                Hlen Hlen') as H.
  cbv zeta in H.
  assert (Hl : hourly_samples [50; 49; 48] !! 2%nat
               = Some (F32.of_Z 48, 7200)) by reflexivity.
  pose proof (eq_trans (eq_sym Hl) H) as Heq.
  apply (inj Some) in Heq. symmetry. exact Heq.
Defined.

(** A reading that is not above the threshold: with at least 48 stored
    samples the forecast is either "water now" (next watering time = the
    current uptime in seconds) with confidence 100, when the daily rate
    is above 0.01, or no forecast at all (time 0, confidence 0). *)
Theorem predict_at_threshold (wp : water_consumption_pattern)
    (uptime_ms : Z) (out : water_consumption_pattern)
    (current threshold : float) :
  48 <= usable_samples (history wp) ->
  F32.gt current threshold = false ->
  exists p,
    water_analysis_predict_watering wp uptime_ms (Some out) current threshold
    = (0, Some p)
    /\ history p = history wp
    /\ (next_watering_timestamp p, prediction_confidence p)
       = if F32.gt (daily_consumption_rate p) (F32.lit 1 100)
         then (Z.quot uptime_ms 1000, F32.of_Z 100)
         else (0, F32.zero).
Proof.
  intros Henough Hbelow. rewrite predict_enough_data by done. cbv zeta.
  rewrite Hbelow. eexists. split; [reflexivity|].
  cbn [history next_watering_timestamp prediction_confidence
       daily_consumption_rate].
  split; [reflexivity|].
  change (F32.gt F32.zero F32.zero) with false. cbv iota.
  destruct (F32.gt (F32.mul _ _) _); reflexivity.
Qed.

(** 72 hourly samples from 100 down to 29 percent, threshold 30: water
    now, at uptime second 259200, with confidence 100. *)
Lemma predict_at_threshold_witness :
  exists p,
    water_analysis_predict_watering
      (add_samples (fst water_analysis_init)
         (hourly_samples (falling 72 100)))
      259200000 (Some (fst water_analysis_init)) (F32.of_Z 29) (F32.of_Z 30)
    = (0, Some p)
    /\ next_watering_timestamp p = 259200
    /\ prediction_confidence p = F32.of_Z 100.
Proof.
  destruct (predict_at_threshold
              (add_samples (fst water_analysis_init)
                 (hourly_samples (falling 72 100)))
              259200000 (fst water_analysis_init) (F32.of_Z 29) (F32.of_Z 30))
    as (p & Hcall & _ & Hres).
  - apply Z.leb_le. vm_compute. reflexivity.
  - vm_compute. reflexivity.
  - exists p. split; [exact Hcall|].
    assert (Hrate : F32.gt (daily_consumption_rate p) (F32.lit 1 100) = true).
    { assert (Hp : Some p
                   = snd (water_analysis_predict_watering
                            (add_samples (fst water_analysis_init)
                               (hourly_samples (falling 72 100)))
                            259200000 (Some (fst water_analysis_init))
                            (F32.of_Z 29) (F32.of_Z 30)))
        by (by rewrite Hcall).
      vm_compute in Hp. injection Hp as ->. vm_compute. reflexivity. }
    rewrite Hrate in Hres. injection Hres as Hnext Hconf.
    split; [exact Hnext|exact Hconf].
Defined.

End WaterRingFacts.

(** ** Runs of history updates (ml_analysis.c) *)

Module HistoryRunFacts.
Import MlAnalysis MlAnalysisFacts.

(** Whatever the timing of the calls, the five histories hold the same
    readings: the run of calls [rs] appends, to every channel, the values
    of one and the same selection [kept] of the readings, in order. *)
Lemma record_all_selection (rs : list reading) :
  forall (last : Z) (sd : sensor_data_with_history),
    length (history sd) = 5%nat ->
    exists kept,
      sublist kept rs
      /\ history (snd (record_all (last, sd) rs))
         = imap (fun i h => appended_to h (channel_value i <$> kept))
             (history sd).
Proof.
  induction rs as [|r rs IH]; intros last sd Hlen.
  - exists []. split; [done|]. simpl.
    by destruct (history sd) as [|? [|? [|? [|? [|? [|? ?]]]]]].
  - cbn [record_all foldl]. fold (record_all (record_reading (last, sd) r) rs).
    destruct (add_sensor_reading_gate last (r_uptime_ms r) sd
                (r_soil_moisture r) (r_light_level r) (r_temperature r)
                (r_humidity r) (r_air_movement r) Hlen)
      as (sd' & Hcall & _ & Hhist & _).
    unfold record_reading. cbn [fst snd]. rewrite Hcall. cbn [default].
    unfold id.
    assert (Hlen' : length (history sd') = 5%nat).
    { rewrite Hhist. destruct (decide _); [|done].
      by destruct (history sd) as [|? [|? [|? [|? [|? [|? ?]]]]]]. }
    match goal with
    | |- context [record_all (?l, sd') rs] =>
        destruct (IH l sd' Hlen') as (kept & Hsub & Hrun)
    end.
    rewrite Hrun, Hhist.
    destruct (decide (gate_open last (Z.quot (r_uptime_ms r) 1000))).
    + exists (r :: kept). split; [by constructor|].
      by destruct (history sd) as [|? [|? [|? [|? [|? [|? ?]]]]]].
    + exists kept. split; [by constructor|]. done.
Qed.

(** The five channel histories stay in lockstep over any run of calls
    from the zeroed state, whatever the timing: every channel holds the
    values of the same readings (a selection [kept] of the readings of
    the run, in order), so the five cursors and the five filled marks
    are equal: cursor [length kept mod 24], filled from 24 on. *)
Theorem histories_in_lockstep (rs : list reading) :
  let sd := snd (record_all (0, zero_sensor_data) rs) in
  exists kept,
    sublist kept rs
    /\ length (history sd) = 5%nat
    /\ forall (i : nat) (h : channel_history),
         history sd !! i = Some h ->
         h = appended_to no_history (channel_value i <$> kept)
         /\ length (values h) = 24%nat
         /\ index h = Z.of_nat (length kept mod 24)
         /\ filled h = bool_decide (24 <= length kept)%nat.
Proof.
  cbv zeta.
  destruct (record_all_selection rs 0 zero_sensor_data eq_refl)
    as (kept & Hsub & Hrun).
  exists kept. split; [done|]. rewrite Hrun.
  split; [reflexivity|].
  intros i h Hi.
  assert (Hh : h = appended_to no_history (channel_value i <$> kept)).
  { cbn [history zero_sensor_data] in Hi.
    repeat (destruct i as [|i]; [by injection Hi as <-|]). done. }
  split; [exact Hh|]. subst h.
  destruct (appended_spec (channel_value i <$> kept))
    as ([Hvals _] & Hidx & Hfill & _).
  rewrite length_fmap in Hidx, Hfill. done.
Qed.

End HistoryRunFacts.

(** ** The classification step (ml_analysis.c) *)

Module ClassifierFacts.
Import MlAnalysis MlAnalysisFacts.

(** [>] on floats is transitive and asymmetric. *)
Lemma gt_trans (a b c : float) :
  F32.gt a b = true -> F32.gt b c = true -> F32.gt a c = true.
Proof.
  unfold F32.gt, SFltb.
  destruct a as [sa|sa| |sa ma ea], b as [sb|sb| |sb mb eb],
    c as [sc|sc| |sc mc ec];
    try destruct sa; try destruct sb; try destruct sc;
    simpl; try discriminate; try reflexivity; intros Hab Hbc.
  all: change (Pos.compare_cont Eq ?x ?y) with (Pos.compare x y) in *.
  all: destruct (Z.compare_spec eb ea), (Z.compare_spec ec eb),
         (Z.compare_spec ec ea); subst; try discriminate; try reflexivity;
         try lia.
  all: repeat match goal with
         | H : context [CompOpp (Pos.compare ?x ?y)] |- _ =>
             rewrite <- (Pos.compare_antisym y x) in H
         | |- context [CompOpp (Pos.compare ?x ?y)] =>
             rewrite <- (Pos.compare_antisym y x)
         end.
  all: destruct (Pos.compare_spec mb ma), (Pos.compare_spec mc mb),
         (Pos.compare_spec mc ma),
         (Pos.compare_spec ma mb), (Pos.compare_spec mb mc),
         (Pos.compare_spec ma mc); subst;
         try discriminate; try reflexivity; try lia.
Qed.

Lemma gt_asym (a b : float) : F32.gt a b = true -> F32.gt b a = false.
Proof.
  unfold F32.gt, SFltb. rewrite (F32Facts.SFcompare_antisym a b).
  by destruct (SFcompare a b) as [[]|].
Qed.

Lemma gt_irrefl (a : float) : F32.gt a a = false.
Proof.
  destruct (F32.gt a a) eqn:H; [|done]. by rewrite (gt_asym a a H) in H.
Qed.

(** The selection loop returns a class index with its output, and no
    output is greater than the one selected. *)
Lemma argmax_spec (p0 p1 p2 : float) :
  let r :=
    foldl (argmax_step [p0; p1; p2]) (p0, ML_HEALTH_HEALTHY) [1%nat; 2%nat] in
  0 <= snd r <= 2
  /\ [p0; p1; p2] !! Z.to_nat (snd r) = Some (fst r)
  /\ Forall (fun p => F32.gt p (fst r) = false) [p0; p1; p2].
Proof.
  cbv zeta. cbn [foldl]. unfold argmax_step.
  cbn [lookup list_lookup default fst snd]. unfold id.
  destruct (F32.gt p1 p0) eqn:H10; cbn [fst snd];
    [destruct (F32.gt p2 p1) eqn:H21|destruct (F32.gt p2 p0) eqn:H20];
    cbn [fst snd]; (split; [unfold ML_HEALTH_HEALTHY; lia|]);
    (split; [reflexivity|]); repeat constructor;
    try apply gt_irrefl; try done; try (by apply gt_asym).
  - apply gt_asym. by apply gt_trans with p1.
  - destruct (F32.gt p1 p2) eqn:H12; [|done].
    by rewrite (gt_trans p1 p2 p0 H12 H20) in H10.
Qed.

Lemma generate_recommendations_class (r : ml_analysis_result) :
  health_status (generate_recommendations r) = health_status r
  /\ confidence (generate_recommendations r) = confidence r
  /\ environmental_mismatch (generate_recommendations r)
     = environmental_mismatch r.
Proof.
  unfold generate_recommendations.
  by destruct (if health_status r =? ML_HEALTH_HEALTHY then _ else _).
Qed.

Section Classifier.
Variable tflite_run_inference : list float -> Z * list float.

(** The classification step.  A null argument gives -EINVAL and a failed
    inference gives its error code; in both cases the caller's result is
    left as it was.  Otherwise the call returns 0, the health status is a
    class index 0, 1 or 2, the confidence is the model output of that
    class, and no model output is greater than it. *)
Theorem classification_contract (sd : sensor_data_with_history)
    (hd : habitat_data) (out : ml_analysis_result) :
  ml_analyze_plant_health tflite_run_inference None (Some hd) (Some out)
  = (- EINVAL, Some out)
  /\ ml_analyze_plant_health tflite_run_inference (Some sd) None (Some out)
     = (- EINVAL, Some out)
  /\ ml_analyze_plant_health tflite_run_inference (Some sd) (Some hd) None
     = (- EINVAL, None)
  /\ (forall ret outputs,
        tflite_run_inference (model_input sd hd) = (ret, outputs) ->
        ret < 0 ->
        ml_analyze_plant_health tflite_run_inference
          (Some sd) (Some hd) (Some out) = (ret, Some out))
  /\ (forall ret p0 p1 p2,
        tflite_run_inference (model_input sd hd) = (ret, [p0; p1; p2]) ->
        0 <= ret ->
        exists res,
          ml_analyze_plant_health tflite_run_inference
            (Some sd) (Some hd) (Some out) = (0, Some res)
          /\ 0 <= health_status res <= 2
          /\ [p0; p1; p2] !! Z.to_nat (health_status res)
             = Some (confidence res)
          /\ Forall (fun p => F32.gt p (confidence res) = false)
               [p0; p1; p2]).
Proof.
  split; [reflexivity|]. split; [reflexivity|]. split; [reflexivity|].
  split.
  - intros ret outputs Hrun Hret. unfold ml_analyze_plant_health.
    rewrite Hrun. destruct (Z.ltb_spec ret 0); [reflexivity|lia].
  - intros ret p0 p1 p2 Hrun Hret. unfold ml_analyze_plant_health.
    rewrite Hrun. destruct (Z.ltb_spec ret 0); [lia|].
    pose proof (argmax_spec p0 p1 p2) as Hmax. cbv zeta in Hmax.
    change (default F32.zero ([p0; p1; p2] !! 0%nat)) with p0.
    destruct (foldl _ _ _) as [max_prob health_class].
    cbn [fst snd] in Hmax.
    eexists. split; [reflexivity|].
    destruct (generate_recommendations_class
                {| health_status := health_class; confidence := max_prob;
                   environmental_mismatch :=
                     {| mismatch_temperature :=
                          is_temp_mismatch (temperature sd) hd;
                        mismatch_humidity :=
                          is_humidity_mismatch (humidity sd) hd;
                        mismatch_soil_moisture :=
                          is_moisture_mismatch (soil_moisture sd) hd;
                        mismatch_light_level :=
                          is_light_mismatch (light_level sd) hd |};
                   recommendation := recommendation out |})
      as (-> & -> & _).
    exact Hmax.
Qed.

End Classifier.

(** A failed inference leaves the previous result in place; outputs
    0.1, 0.8, 0.1 select class 1 with confidence 0.8. *)
Lemma classification_contract_witness :
  ml_analyze_plant_health (fun _ => (-5, []))
    (Some sample_sensor_data) (Some example_habitat) (Some zero_result)
  = (-5, Some zero_result)
  /\ exists res,
       ml_analyze_plant_health
         (fun _ => (0, [F32.lit 1 10; F32.lit 8 10; F32.lit 1 10]))
         (Some sample_sensor_data) (Some example_habitat) (Some zero_result)
       = (0, Some res)
       /\ 0 <= health_status res <= 2
       /\ [F32.lit 1 10; F32.lit 8 10; F32.lit 1 10]
            !! Z.to_nat (health_status res) = Some (confidence res).
Proof.
  split.
  - destruct (classification_contract (fun _ => (-5, []))
                sample_sensor_data example_habitat zero_result)
      as (_ & _ & _ & Hfail & _).
    apply (Hfail (-5) []); [reflexivity|lia].
  - destruct (classification_contract
                (fun _ => (0, [F32.lit 1 10; F32.lit 8 10; F32.lit 1 10]))
                sample_sensor_data example_habitat zero_result)
      as (_ & _ & _ & _ & Hok).
    destruct (Hok 0 (F32.lit 1 10) (F32.lit 8 10) (F32.lit 1 10))
      as (res & Hcall & Hclass & Hconf & _); [reflexivity|lia|].
    exists res. split; [exact Hcall|]. split; [exact Hclass|exact Hconf].
Defined.

End ClassifierFacts.

(** ** The mismatch text (plant_analysis.c) *)

Module MismatchStringFacts.
Import CStr MlAnalysis PlantAnalysis.

(** The labels of the flags that are set, in the order the function
    tests them. *)
Definition labels (flags : mismatch) : list string :=
  (if mismatch_temperature flags then ["temp"%string] else [])
  ++ (if mismatch_humidity flags then ["humid"%string] else [])
  ++ (if mismatch_soil_moisture flags then ["moist"%string] else [])
  ++ (if mismatch_light_level flags then ["light"%string] else []).

(** The text expected for a set of flags: the labels separated by
    commas, or none. *)
Definition mismatch_text (flags : mismatch) : string :=
  match labels flags with
  | [] => "none"%string
  | ls => String.concat "," ls
  end.

Lemma snprintf_fits (buf : list ascii) (off size : nat) (text : list ascii) :
  (length text < size)%nat ->
  snprintf buf off size text
  = (take off buf ++ text ++ NUL :: drop (off + length text + 1) buf,
     Z.of_nat (length text)).
Proof.
  intros Hfit. destruct size as [|room]; [lia|]. unfold snprintf.
  rewrite (take_ge text) by lia. reflexivity.
Qed.

Lemma append_label_fits (text : string) (output_size written : Z)
    (buf : list ascii) :
  0 <= written ->
  written + Z.of_nat (length (lit text)) < output_size ->
  append_label true text output_size (Some (buf, written))
  = Some (take (Z.to_nat written) buf ++ lit text
            ++ NUL :: drop (Z.to_nat written + length (lit text) + 1) buf,
          written + Z.of_nat (length (lit text))).
Proof.
  intros Hw Hfit. unfold append_label.
  destruct (Z.ltb_spec output_size written); [lia|].
  rewrite snprintf_fits by lia. reflexivity.
Qed.

(** The mismatch text.  Null arguments and a zero size give -EINVAL and
    leave the buffer alone.  In a buffer of at least 24 bytes the call
    returns 0 and leaves the labels of the flags that are set (temp,
    humid, moist, light, in this order) separated by commas, or none
    when no flag is set; the text has at most 22 characters, so the
    32-byte field of a cached reading holds it in full. *)
Theorem mismatch_string_contract (r : ml_analysis_result)
    (buf : list ascii) (output_size : Z) :
  plant_analysis_get_mismatch_string None (Some buf) output_size
  = Some (- EINVAL, Some buf)
  /\ plant_analysis_get_mismatch_string (Some r) None output_size
     = Some (- EINVAL, None)
  /\ plant_analysis_get_mismatch_string (Some r) (Some buf) 0
     = Some (- EINVAL, Some buf)
  /\ (24 <= output_size -> length buf = Z.to_nat output_size ->
      exists buf',
        plant_analysis_get_mismatch_string (Some r) (Some buf) output_size
        = Some (0, Some buf')
        /\ length buf' = length buf
        /\ cstr buf' = lit (mismatch_text (environmental_mismatch r))
        /\ (length (cstr buf') <= 22)%nat
        /\ take 31 (cstr buf') = cstr buf').
Proof.
  split; [reflexivity|]. split; [reflexivity|]. split; [reflexivity|].
  intros Hsize Hlen. unfold plant_analysis_get_mismatch_string.
  destruct (Z.eqb_spec output_size 0); [lia|]. cbv zeta.
  unfold mismatch_text, labels.
  destruct (environmental_mismatch r) as [t h m l].
  cbn [mismatch_temperature mismatch_humidity mismatch_soil_moisture
       mismatch_light_level].
  destruct (decide (t || h || m || l = false)) as [Hnone|Hsome].
  - apply orb_false_iff in Hnone as [Hnone ->].
    apply orb_false_iff in Hnone as [Hnone ->].
    apply orb_false_iff in Hnone as [-> ->].
    cbn [append_label app]. change (0 <? 0) with false. cbv iota.
    eexists. split; [reflexivity|].
    assert (Hcstr : cstr (<[ Z.to_nat (output_size - 1) := NUL ]>
                            (strncpy buf (lit "none")
                               (Z.to_nat (output_size - 1))))
                    = lit "none").
    { rewrite CStrFacts.cstr_strncpy_cut by lia.
      change (cstr (lit "none")) with (lit "none").
      apply take_ge. simpl. lia. }
    split; [rewrite length_insert; apply CStrFacts.strncpy_length; lia|].
    rewrite Hcstr. split; [reflexivity|]. split; [simpl; lia|reflexivity].
  - do 24 (destruct buf as [|? buf]; [simpl in Hlen; lia|]).
    destruct t, h, m, l; try (exfalso; apply Hsome; reflexivity).
    all: repeat (first
           [ rewrite append_label_fits by (cbn; lia)
           | progress change (append_label false ?t0 ?s0 ?acc) with acc ]).
    all: eexists; (split; [vm_compute; reflexivity|]).
    all: split; [reflexivity|]; split; [reflexivity|].
    all: split; [simpl; lia|reflexivity].
Qed.

(** A result with the given four flags (temperature, humidity, soil
    moisture, light). *)
Definition flagged (t h m l : bool) : ml_analysis_result :=
  {| health_status := ML_HEALTH_STRESSED;
     confidence := F32.of_Z 1;
     environmental_mismatch :=
       {| mismatch_temperature := t; mismatch_humidity := h;
          mismatch_soil_moisture := m; mismatch_light_level := l |};
     recommendation := replicate 256 NUL |}.

(** In the 64-byte buffer of the handler, temperature and light out of
    range give the text temp,light. *)
Lemma mismatch_string_contract_witness :
  exists buf',
    plant_analysis_get_mismatch_string (Some (flagged true false false true))
      (Some (replicate 64 NUL)) 64 = Some (0, Some buf')
    /\ cstr buf' = lit "temp,light"
    /\ take 31 (cstr buf') = cstr buf'.
Proof.
  destruct (mismatch_string_contract (flagged true false false true)
              (replicate 64 NUL) 64) as (_ & _ & _ & H).
  destruct H as (buf' & Hcall & _ & Htext & _ & Hfits);
    [lia | reflexivity |].
  exists buf'. split; [exact Hcall|]. split; [exact Htext|exact Hfits].
Defined.


End MismatchStringFacts.
